(** * Solaris/SPARC CPU feature and cache-geometry probe

    A shallow embedding of [vm_version_solaris_sparc.cpp]: the [PICL] class
    (dynamic binding to libpicl, the [UniqueValueVisitor] state machine, the
    [CPUVisitor] device-tree callback), [do_sysinfo] and
    [VM_Version::platform_features].

    Conventions.
    - A C [int] is a [Z]; conversions that can wrap are written out
      ([to_int], [to_uint]).  Bit masks are combined with [Z.lor]/[Z.land].
    - C strings are [string]s; [strstr] returns the suffix that starts at the
      first match, as the C function returns a pointer into its argument.
    - Calls into the operating system and into libpicl are answered by
      records of replies ([os_env], [libpicl]); the code is a function of
      those replies.
    - [assert] and [guarantee] stop the VM: code that contains them runs in
      the [run] monad.  Which assertions are compiled in is a parameter
      ([assert_enabled]): all in a debug build, none in a product build.
    - Constants of headers that are not part of this file
      ([Feature_Flag_Set], [auxv_SPARC]) are parameters. *)

From Stdlib Require Import ZArith List String Ascii Bool Lia.
Import ListNotations.
Local Open Scope string_scope.
Local Open Scope list_scope.
Local Open Scope Z_scope.

(** ** Fatal errors and the [run] monad *)

Inductive vm_error : Type :=
| assert_failed (msg : string)
| guarantee_failed (msg : string).

Inductive run (A : Type) : Type :=
| Ret (a : A)
| Fatal (e : vm_error).

Arguments Ret {A} a.
Arguments Fatal {A} e.

Definition run_bind {A B : Type} (m : run A) (k : A -> run B) : run B :=
  match m with
  | Ret a => k a
  | Fatal e => Fatal e
  end.

Declare Scope run_scope.
Delimit Scope run_scope with run.
Notation "x <- m ;; k" := (run_bind m (fun x => k))
  (at level 61, m at next level, right associativity) : run_scope.
Notation "' pat <- m ;; k" := (run_bind m (fun x => match x with pat => k end))
  (at level 61, pat pattern, m at next level, right associativity) : run_scope.
Notation "m ;; k" := (run_bind m (fun _ => k))
  (at level 61, right associativity) : run_scope.
Local Open Scope run_scope.

(** [raises r msg]: the run stopped at an [assert] carrying message [msg]. *)
Definition raises {A : Type} (r : run A) (msg : string) : bool :=
  match r with
  | Fatal (assert_failed m) => String.eqb m msg
  | _ => false
  end.

Definition returns {A : Type} (r : run A) : bool :=
  match r with
  | Ret _ => true
  | Fatal _ => false
  end.

(** ** C integers *)

(** [static_cast<int>] of a wider integer: reduction to 32 bits, signed. *)
Definition to_int (z : Z) : Z := (z + 2 ^ 31) mod 2 ^ 32 - 2 ^ 31.

(** Conversion of an [int] to [unsigned int]. *)
Definition to_uint (z : Z) : Z := z mod 2 ^ 32.

(** ** C strings *)

Definition NUL : ascii := "000"%char.

(** [s[i]] for a NUL-terminated string: the terminator is read at the end. *)
Definition char_at (s : string) (i : nat) : ascii :=
  match String.get i s with
  | Some c => c
  | None => NUL
  end.

Fixpoint strstr (haystack needle : string) : option string :=
  if String.prefix needle haystack then Some haystack
  else match haystack with
       | EmptyString => None
       | String _ rest => strstr rest needle
       end.

Definition toupper (c : ascii) : ascii :=
  let n := N_of_ascii c in
  if ((97 <=? n) && (n <=? 122))%N then ascii_of_N (n - 32) else c.

Fixpoint upcase (s : string) : string :=
  match s with
  | EmptyString => EmptyString
  | String c rest => String (toupper c) (upcase rest)
  end.

(** ** libpicl: types and the replies of its entry points *)

Definition picl_nodehdl_t : Type := Z.
Definition picl_prophdl_t : Type := Z.

Inductive picl_ptype : Type :=
| PICL_PTYPE_UNKNOWN
| PICL_PTYPE_VOID
| PICL_PTYPE_INT
| PICL_PTYPE_UNSIGNED_INT
| PICL_PTYPE_FLOAT
| PICL_PTYPE_REFERENCE
| PICL_PTYPE_TABLE
| PICL_PTYPE_TIMESTAMP
| PICL_PTYPE_BYTEARRAY
| PICL_PTYPE_CHARSTRING.

Definition picl_ptype_eqb (a b : picl_ptype) : bool :=
  match a, b with
  | PICL_PTYPE_UNKNOWN, PICL_PTYPE_UNKNOWN
  | PICL_PTYPE_VOID, PICL_PTYPE_VOID
  | PICL_PTYPE_INT, PICL_PTYPE_INT
  | PICL_PTYPE_UNSIGNED_INT, PICL_PTYPE_UNSIGNED_INT
  | PICL_PTYPE_FLOAT, PICL_PTYPE_FLOAT
  | PICL_PTYPE_REFERENCE, PICL_PTYPE_REFERENCE
  | PICL_PTYPE_TABLE, PICL_PTYPE_TABLE
  | PICL_PTYPE_TIMESTAMP, PICL_PTYPE_TIMESTAMP
  | PICL_PTYPE_BYTEARRAY, PICL_PTYPE_BYTEARRAY
  | PICL_PTYPE_CHARSTRING, PICL_PTYPE_CHARSTRING => true
  | _, _ => false
  end.

(** The two fields of [picl_propinfo_t] the code reads. *)
Record picl_propinfo_t : Type := {
  type : picl_ptype;
  size : Z
}.

(** What the callback tells [picl_walk_tree_by_class]. *)
Inductive picl_walk : Type :=
| PICL_WALK_CONTINUE
| PICL_WALK_TERMINATE.

(** The replies of the library.  A call that does not return [PICL_SUCCESS]
    is [None] (or [false]); otherwise the value written through the out
    parameter is given.  [picl_class_nodes rooth classname] lists the nodes
    that [picl_walk_tree_by_class] offers to the callback, in order. *)
Record libpicl : Type := {
  picl_initialize : bool;
  picl_get_root : option picl_nodehdl_t;
  picl_class_nodes : picl_nodehdl_t -> string -> list picl_nodehdl_t;
  picl_get_prop_by_name : picl_nodehdl_t -> string -> option picl_prophdl_t;
  picl_get_propinfo : picl_prophdl_t -> option picl_propinfo_t;
  picl_get_propval : picl_prophdl_t -> Z -> option Z
}.

(** The dynamic linker: [dlopen] of a library name gives a handle or NULL,
    [dlsym] says whether a symbol resolves to a non-NULL address; behind the
    resolved addresses is [dl_picl]. *)
Record dl_env : Type := {
  dlopen : string -> option Z;
  dlsym : Z -> string -> bool;
  dl_picl : libpicl
}.

(** ** assert, guarantee *)

Section Assertions.

(** Which [assert]s are compiled in, by message: all of them in a debug
    build, none in a product build. *)
Variable assert_enabled : string -> bool.

Definition assert_ (cond : bool) (msg : string) : run unit :=
  if assert_enabled msg && negb cond then Fatal (assert_failed msg) else Ret tt.

Definition guarantee (cond : bool) (msg : string) : run unit :=
  if cond then Ret tt else Fatal (guarantee_failed msg).

(** ** PICL::get_int_property

    [Ret (Some v)] is [PICL_SUCCESS] with [*result = v], [Ret None] is
    [PICL_FAILURE]. *)
Definition get_int_property (lib : libpicl) (nodeh : picl_nodehdl_t) (name : string)
  : run (option Z) :=
  match picl_get_prop_by_name lib nodeh name with
  | None => Ret None
  | Some proph =>
    match picl_get_propinfo lib proph with
    | None => Ret None
    | Some pinfo =>
      if negb (picl_ptype_eqb (type pinfo) PICL_PTYPE_INT)
         && negb (picl_ptype_eqb (type pinfo) PICL_PTYPE_UNSIGNED_INT)
      then assert_ false "Invalid property type" ;; Ret None
      else if size pinfo =? 8 then
        match picl_get_propval lib proph 8 with
        | None => Ret None
        | Some val => Ret (Some (to_int val))
        end
      else if size pinfo =? 4 then
        match picl_get_propval lib proph 4 with
        | None => Ret None
        | Some val => Ret (Some (to_int val))
        end
      else assert_ false "Unexpected integer property size" ;; Ret None
    end
  end.

End Assertions.

(** ** picl_walk_tree_by_class

    The library calls the callback on each node of the class in turn, handing
    it the caller's argument [args] (here: the state the callback updates),
    and stops after the first call that answers [PICL_WALK_TERMINATE].  The
    second component of the result lists the nodes the callback was run on. *)
Fixpoint picl_walk_tree_by_class {S : Type}
    (callback_fn : picl_nodehdl_t -> S -> run (picl_walk * S))
    (nodes : list picl_nodehdl_t) (args : S)
  : run (S * list picl_nodehdl_t) :=
  match nodes with
  | [] => Ret (args, [])
  | hdl :: rest =>
    '(answer, args1) <- callback_fn hdl args ;;
    match answer with
    | PICL_WALK_TERMINATE => Ret (args1, [hdl])
    | PICL_WALK_CONTINUE =>
      '(args2, seen) <- picl_walk_tree_by_class callback_fn rest args1 ;;
      Ret (args2, hdl :: seen)
    end
  end.

(** ** class PICL::UniqueValueVisitor *)

Module UniqueValueVisitor.

Inductive state : Type :=
| INITIAL        (* Start state, no assignments happened *)
| ASSIGNED       (* Assigned a value *)
| INCONSISTENT.  (* Inconsistent value seen *)

Definition state_eqb (a b : state) : bool :=
  match a, b with
  | INITIAL, INITIAL | ASSIGNED, ASSIGNED | INCONSISTENT, INCONSISTENT => true
  | _, _ => false
  end.

Record t : Type := {
  _state : state;
  _value : Z
}.

(** The constructor leaves [_value] uninitialised: [indeterminate] stands
    for whatever the member holds. *)
Definition new (indeterminate : Z) : t :=
  {| _state := INITIAL; _value := indeterminate |}.

Definition is_initial (v : t) : bool := state_eqb (_state v) INITIAL.
Definition is_assigned (v : t) : bool := state_eqb (_state v) ASSIGNED.
Definition is_inconsistent (v : t) : bool := state_eqb (_state v) INCONSISTENT.
Definition set_inconsistent (v : t) : t :=
  {| _state := INCONSISTENT; _value := _value v |}.

Section WithAssertions.
Variable assert_enabled : string -> bool.

Definition value (v : t) : run Z :=
  assert_ assert_enabled (state_eqb (_state v) ASSIGNED) "Precondition" ;;
  Ret (_value v).

Definition set_value (v : t) (value : Z) : run t :=
  assert_ assert_enabled (state_eqb (_state v) INITIAL) "Precondition" ;;
  Ret {| _state := ASSIGNED; _value := value |}.

Definition visit (lib : libpicl) (v : t) (nodeh : picl_nodehdl_t) (name : string)
  : run (bool * t) :=
  assert_ assert_enabled (negb (is_inconsistent v)) "Precondition" ;;
  r <- get_int_property assert_enabled lib nodeh name ;;
  match r with
  | Some curr =>
    if negb (is_assigned v) then           (* first iteration *)
      v1 <- set_value v curr ;; Ret (true, v1)
    else
      old <- value v ;;
      if negb (curr =? old) then           (* following iterations *)
        Ret (true, set_inconsistent v)
      else Ret (true, v)
  | None => Ret (false, v)
  end.

End WithAssertions.
End UniqueValueVisitor.

(** ** class PICL::CPUVisitor *)

Module CPUVisitor.

Record t : Type := {
  _l1_visitor : UniqueValueVisitor.t;
  _l2_visitor : UniqueValueVisitor.t;
  _limit : Z   (* number of times visit() can be run *)
}.

Definition new (indeterminate1 indeterminate2 : Z) (limit : Z) : t :=
  {| _l1_visitor := UniqueValueVisitor.new indeterminate1;
     _l2_visitor := UniqueValueVisitor.new indeterminate2;
     _limit := limit |}.

Definition l1_visitor (c : t) : UniqueValueVisitor.t := _l1_visitor c.
Definition l2_visitor (c : t) : UniqueValueVisitor.t := _l2_visitor c.

Section WithAssertions.
Variable assert_enabled : string -> bool.

(** The call-site pattern
    [if (!v->is_inconsistent()) { v->visit(nodeh, name); }]
    of lines 155-157 and 168-170; the result of [visit] is dropped there. *)
Definition visit_unless_inconsistent (lib : libpicl) (v : UniqueValueVisitor.t)
    (nodeh : picl_nodehdl_t) (name : string) : run UniqueValueVisitor.t :=
  if negb (UniqueValueVisitor.is_inconsistent v) then
    '(_, v1) <- UniqueValueVisitor.visit assert_enabled lib v nodeh name ;; Ret v1
  else Ret v.

(** The L2 part of [visit], lines 158-171.  [memo] is the function-local
    [static const char* l2_data_cache_line_property_name] ([None] is NULL). *)
Definition visit_l2 (lib : libpicl) (memo : option string)
    (l2 : UniqueValueVisitor.t) (nodeh : picl_nodehdl_t)
  : run (UniqueValueVisitor.t * option string) :=
  match memo with
  | None =>
    assert_ assert_enabled (negb (UniqueValueVisitor.is_inconsistent l2))
      "First iteration cannot be inconsistent" ;;
    '(found, l2a) <- UniqueValueVisitor.visit assert_enabled lib l2 nodeh "l2-cache-line-size" ;;
    if negb found then
      '(_, l2b) <- UniqueValueVisitor.visit assert_enabled lib l2a nodeh "l2-dcache-line-size" ;;
      Ret (l2b, Some "l2-dcache-line-size")
    else Ret (l2a, Some "l2-cache-line-size")
  | Some name =>
    l2a <- visit_unless_inconsistent lib l2 nodeh name ;;
    Ret (l2a, Some name)
  end.

(** [CPUVisitor::visit].  The argument [arg] is the visitor together with
    the static that the function keeps between calls. *)
Definition visit (lib : libpicl) (nodeh : picl_nodehdl_t) (arg : t * option string)
  : run (picl_walk * (t * option string)) :=
  let '(cpu_visitor, memo) := arg in
  l1 <- visit_unless_inconsistent lib (l1_visitor cpu_visitor) nodeh "l1-dcache-line-size" ;;
  '(l2, memo1) <- visit_l2 lib memo (l2_visitor cpu_visitor) nodeh ;;
  if UniqueValueVisitor.is_inconsistent l1 && UniqueValueVisitor.is_inconsistent l2 then
    Ret (PICL_WALK_TERMINATE,
         ({| _l1_visitor := l1; _l2_visitor := l2; _limit := _limit cpu_visitor |}, memo1))
  else
    let limit := _limit cpu_visitor - 1 in
    let cpu_visitor1 := {| _l1_visitor := l1; _l2_visitor := l2; _limit := limit |} in
    if limit <=? 0 then Ret (PICL_WALK_TERMINATE, (cpu_visitor1, memo1))
    else Ret (PICL_WALK_CONTINUE, (cpu_visitor1, memo1)).

End WithAssertions.
End CPUVisitor.

(** ** class PICL *)

Module PICL.

Record t : Type := {
  _L1_data_cache_line_size : Z;
  _L2_data_cache_line_size : Z;
  _dl_handle : option Z   (* Handle to the library that is returned by dlopen *)
}.

Definition with_dl_handle (this : t) (h : option Z) : t :=
  {| _L1_data_cache_line_size := _L1_data_cache_line_size this;
     _L2_data_cache_line_size := _L2_data_cache_line_size this;
     _dl_handle := h |}.

Definition is_open (this : t) : bool :=
  match _dl_handle this with Some _ => true | None => false end.

Definition L1_data_cache_line_size (this : t) : Z := to_uint (_L1_data_cache_line_size this).
Definition L2_data_cache_line_size (this : t) : Z := to_uint (_L2_data_cache_line_size this).

Section WithHost.
Variable assert_enabled : string -> bool.
Variable dl : dl_env.
(** [os::processor_count()]. *)
Variable processor_count : Z.
(** Contents of the uninitialised [_value] members of the two trackers. *)
Variables indeterminate1 indeterminate2 : Z.

Definition visit_cpu (nodeh : picl_nodehdl_t) (state : CPUVisitor.t * option string)
  : run (picl_walk * (CPUVisitor.t * option string)) :=
  CPUVisitor.visit assert_enabled (dl_picl dl) nodeh state.

Definition PICL_visit_cpu_helper (nodeh : picl_nodehdl_t) (result : CPUVisitor.t * option string)
  : run (picl_walk * (CPUVisitor.t * option string)) :=
  visit_cpu nodeh result.

(** [dlsym(_dl_handle, name)] and the test [func != NULL].  The handle is
    non-NULL wherever the code calls [bind]. *)
Definition bind (this : t) (name : string) : bool :=
  match _dl_handle this with
  | Some h => dlsym dl h name
  | None => false
  end.

Definition bind_library_functions (this : t) : run bool :=
  assert_ assert_enabled (is_open this) "library should be open" ;;
  Ret (bind this "picl_initialize" &&
       bind this "picl_shutdown" &&
       bind this "picl_get_root" &&
       bind this "picl_walk_tree_by_class" &&
       bind this "picl_get_prop_by_name" &&
       bind this "picl_get_propval" &&
       bind this "picl_get_propinfo").

Definition close_library (this : t) : run t :=
  assert_ assert_enabled (is_open this) "library should be open" ;;
  Ret (with_dl_handle this None).

Definition open_library (this : t) : run (bool * t) :=
  let this1 := with_dl_handle this (dlopen dl "libpicl.so.1") in
  if negb (is_open this1) then
    (* warning("PICL (libpicl.so.1) is missing. Performance will not be optimal.") *)
    Ret (false, this1)
  else
    bound <- bind_library_functions this1 ;;
    if negb bound then
      assert_ assert_enabled false "unexpected PICL API change" ;;
      this2 <- close_library this1 ;;
      Ret (false, this2)
    else Ret (true, this1).

(** Lines 199-205 of the constructor: the choice of the node class and of
    the visit budget, and the walk.  Besides the visitor and the static it
    returns the nodes the callback ran on. *)
Definition walk_cpus (is_fujitsu is_sun4v : bool) (rooth : picl_nodehdl_t)
    (memo : option string)
  : run (CPUVisitor.t * option string * list picl_nodehdl_t) :=
  (* If it's a Fujitsu machine, it's a "core" *)
  let cpu_class := if is_fujitsu then "core" else "cpu" in
  let cpu_visitor :=
    CPUVisitor.new indeterminate1 indeterminate2
      (if is_sun4v && negb is_fujitsu then 1 else processor_count) in
  '(arg, seen) <- picl_walk_tree_by_class PICL_visit_cpu_helper
                    (picl_class_nodes (dl_picl dl) rooth cpu_class) (cpu_visitor, memo) ;;
  Ret (fst arg, snd arg, seen).

(** The constructor [PICL(bool is_fujitsu, bool is_sun4v)]; [memo] is the
    static of [CPUVisitor::visit] before and after. *)
Definition new (is_fujitsu is_sun4v : bool) (memo : option string)
  : run (t * option string) :=
  let this := {| _L1_data_cache_line_size := 0;
                 _L2_data_cache_line_size := 0;
                 _dl_handle := None |} in
  '(opened, this) <- open_library this ;;
  if negb opened then Ret (this, memo)
  else
    '(this, memo) <-
      (if picl_initialize (dl_picl dl) then
         '(this, memo) <-
           match picl_get_root (dl_picl dl) with
           | Some rooth =>
             '(cpu_visitor, memo1, _) <- walk_cpus is_fujitsu is_sun4v rooth memo ;;
             l1 <- (if UniqueValueVisitor.is_assigned (CPUVisitor.l1_visitor cpu_visitor)
                    then UniqueValueVisitor.value assert_enabled (CPUVisitor.l1_visitor cpu_visitor)
                    else Ret (_L1_data_cache_line_size this)) ;;
             l2 <- (if UniqueValueVisitor.is_assigned (CPUVisitor.l2_visitor cpu_visitor)
                    then UniqueValueVisitor.value assert_enabled (CPUVisitor.l2_visitor cpu_visitor)
                    else Ret (_L2_data_cache_line_size this)) ;;
             Ret ({| _L1_data_cache_line_size := l1;
                     _L2_data_cache_line_size := l2;
                     _dl_handle := _dl_handle this |}, memo1)
           | None => Ret (this, memo)
           end ;;
         (* _picl_shutdown() *)
         Ret (this, memo)
       else Ret (this, memo)) ;;
    this <- close_library this ;;
    Ret (this, memo).

End WithHost.
End PICL.

(** ** The operating system as seen by platform_features *)

(** The [*_m] constants of [VM_Version::Feature_Flag_Set]
    (vm_version_sparc.hpp), which this file only uses. *)
Record Feature_Flag_Set : Type := {
  v8_instructions_m : Z;
  hardware_mul32_m : Z;
  hardware_div32_m : Z;
  hardware_fsmuld_m : Z;
  hardware_popc_m : Z;
  v9_instructions_m : Z;
  vis1_instructions_m : Z;
  vis2_instructions_m : Z;
  sun4v_m : Z;
  blk_init_instructions_m : Z;
  fmaf_instructions_m : Z;
  fmau_instructions_m : Z;
  vis3_instructions_m : Z;
  cbcond_instructions_m : Z;
  sparc64_family_m : Z;
  M_family_m : Z;
  T_family_m : Z;
  T1_model_m : Z;
  sparc5_instructions_m : Z;
  aes_instructions_m : Z;
  sha1_instruction_m : Z;
  sha256_instruction_m : Z;
  sha512_instruction_m : Z;
  generic_v8_m : Z;
  generic_v9_m : Z
}.

(** The capability bits that only <sys/auxv_SPARC.h> defines. *)
Record auxv_SPARC : Type := {
  AV_SPARC_MUL32 : Z;
  AV_SPARC_DIV32 : Z;
  AV_SPARC_FSMULD : Z;
  AV_SPARC_V8PLUS : Z;
  AV_SPARC_POPC : Z;
  AV_SPARC_VIS : Z;
  AV_SPARC_VIS2 : Z
}.

(** The capability bits the source file defines itself when the header does
    not. *)
Definition AV2_SPARC_SPARC5 : Z := 0x00000008.
Definition AV_SPARC_ASI_BLK_INIT : Z := 0x0080.
Definition AV_SPARC_FMAF : Z := 0x0100.
Definition AV_SPARC_FMAU : Z := 0x0200.
Definition AV_SPARC_VIS3 : Z := 0x0400.
Definition AV_SPARC_CBCOND : Z := 0x10000000.
Definition AV_SPARC_AES : Z := 0x00020000.
Definition AV_SPARC_SHA1 : Z := 0x00400000.
Definition AV_SPARC_SHA256 : Z := 0x00800000.
Definition AV_SPARC_SHA512 : Z := 0x01000000.

(** The [sysinfo] commands the code issues. *)
Inductive si_command : Type :=
| SI_MACHINE
| SI_ISALIST
| SI_ARCHITECTURE_32
| SI_ARCHITECTURE_64.

(** What one query sequence [sysinfo(si, &tmp, 1)], [malloc(bufsize)],
    [sysinfo(si, buf, bufsize)] meets. *)
Record sysinfo_reply : Type := {
  si_bufsize : Z;     (* result of the sizing call, -1 when unsupported *)
  si_malloc : bool;   (* malloc returned a buffer *)
  si_count : Z;       (* result of the second call *)
  si_buf : string     (* buf after the second call *)
}.

Inductive kstat_data_type : Type :=
| KSTAT_DATA_CHAR
| KSTAT_DATA_STRING
| KSTAT_DATA_OTHER (code : Z).

(** A [kstat_named_t]; [value] is the text held by the union member that
    [data_type] designates ([value.c] or the string pointer). *)
Record kstat_named_t : Type := {
  name : string;
  data_type : kstat_data_type;
  value : string
}.

(** A [kstat_t]: [ks_data] is NULL or the array of [ks_ndata] entries. *)
Record kstat_t : Type := {
  ks_data : option (list kstat_named_t)
}.

Record os_env : Type := {
  supports_getisax : bool;             (* os::Solaris::supports_getisax() *)
  getisax_avn : Z;                     (* result of os::Solaris::getisax(avs, 2) *)
  getisax_avs0 : Z;                    (* avs[0] after the call *)
  getisax_avs1 : Z;                    (* avs[1] after the call *)
  sysinfo : si_command -> sysinfo_reply;
  kstat_lookup : option kstat_t;       (* kstat_lookup(kc, "cpu_info", -1, NULL) *)
  kstat_read : bool;                   (* kstat_read(kc, ksp, NULL) != -1 *)
  processor_count : Z;                 (* os::processor_count() *)
  dl : dl_env
}.

(** ** do_sysinfo and VM_Version::platform_features *)

Module VM_Version.

(** Process-wide state: the static [_L2_data_cache_line_size] of
    [VM_Version], the function-local static of [CPUVisitor::visit], and
    everything else the process holds. *)
Record statics {Other : Type} : Type := {
  _L2_data_cache_line_size : Z;
  l2_data_cache_line_property_name : option string;
  other : Other
}.
Arguments statics : clear implicits.

(** [if (av & bit) features |= mask;] *)
Definition or_if_set (av bit : Z) (features mask : Z) : Z :=
  if negb (Z.land av bit =? 0) then Z.lor features mask else features.

Definition is_found (p : option string) : bool :=
  match p with Some _ => true | None => false end.

Section WithHost.
Variable assert_enabled : string -> bool.
Variable hdr : auxv_SPARC.
Variable M : Feature_Flag_Set.
Variable os : os_env.
Variables indeterminate1 indeterminate2 : Z.

Definition do_sysinfo (si : si_command) (string_ : string) (features : Z) (mask : Z)
  : run Z :=
  let q := sysinfo os si in
  (* All SI defines used below must be supported. *)
  guarantee (negb (si_bufsize q =? -1)) "must be supported" ;;
  if negb (si_malloc q) then Ret features
  else if si_count q =? si_bufsize q then
    (* Compare the string. *)
    if String.eqb (si_buf q) string_ then Ret (Z.lor features mask)
    else Ret features
  else Ret features.

(** Lines 299-384: the branch taken when getisax(2) is supported. *)
Definition getisax_features (features : Z) : run Z :=
  (* Check 32-bit architecture. *)
  features <- do_sysinfo SI_ARCHITECTURE_32 "sparc" features (v8_instructions_m M) ;;
  (* Check 64-bit architecture. *)
  features <- do_sysinfo SI_ARCHITECTURE_64 "sparcv9" features (generic_v9_m M) ;;
  (* Extract valid instruction set extensions. *)
  let avn := getisax_avn os in
  assert_ assert_enabled (avn <=? 2) "should return two or less av's" ;;
  let av := getisax_avs0 os in
  let features := or_if_set av (AV_SPARC_MUL32 hdr) features (hardware_mul32_m M) in
  let features := or_if_set av (AV_SPARC_DIV32 hdr) features (hardware_div32_m M) in
  let features := or_if_set av (AV_SPARC_FSMULD hdr) features (hardware_fsmuld_m M) in
  let features := or_if_set av (AV_SPARC_V8PLUS hdr) features (v9_instructions_m M) in
  let features := or_if_set av (AV_SPARC_POPC hdr) features (hardware_popc_m M) in
  let features := or_if_set av (AV_SPARC_VIS hdr) features (vis1_instructions_m M) in
  let features := or_if_set av (AV_SPARC_VIS2 hdr) features (vis2_instructions_m M) in
  let features :=
    if 1 <? avn then
      let av2 := getisax_avs1 os in
      or_if_set av2 AV2_SPARC_SPARC5 features (sparc5_instructions_m M)
    else features in
  let features := or_if_set av AV_SPARC_ASI_BLK_INIT features (blk_init_instructions_m M) in
  let features := or_if_set av AV_SPARC_FMAF features (fmaf_instructions_m M) in
  let features := or_if_set av AV_SPARC_FMAU features (fmau_instructions_m M) in
  let features := or_if_set av AV_SPARC_VIS3 features (vis3_instructions_m M) in
  let features := or_if_set av AV_SPARC_CBCOND features (cbcond_instructions_m M) in
  let features := or_if_set av AV_SPARC_AES features (aes_instructions_m M) in
  let features := or_if_set av AV_SPARC_SHA1 features (sha1_instruction_m M) in
  let features := or_if_set av AV_SPARC_SHA256 features (sha256_instruction_m M) in
  let features := or_if_set av AV_SPARC_SHA512 features (sha512_instruction_m M) in
  Ret features.

(** Lines 399-409: figure out what kind of sparc we have. *)
Definition isalist_sparc (buf : string) (features : Z) : Z :=
  match strstr buf "sparc" with
  | Some sparc_string =>
    let features := Z.lor features (v8_instructions_m M) in
    if Ascii.eqb (char_at sparc_string 5) "v" then
      if Ascii.eqb (char_at sparc_string 6) "8" then
        if Ascii.eqb (char_at sparc_string 7) "-" then
          Z.lor (Z.lor features (hardware_mul32_m M)) (hardware_div32_m M)
        else if Ascii.eqb (char_at sparc_string 7) "p" then
          Z.lor features (generic_v9_m M)
        else Z.lor features (generic_v8_m M)
      else if Ascii.eqb (char_at sparc_string 6) "9" then
        Z.lor features (generic_v9_m M)
      else features
    else features
  | None => features
  end.

(** Lines 411-415: check for visualization instructions. *)
Definition isalist_vis (buf : string) (features : Z) : Z :=
  match strstr buf "vis" with
  | Some vis =>
    let features := Z.lor features (vis1_instructions_m M) in
    if Ascii.eqb (char_at vis 3) "2" then Z.lor features (vis2_instructions_m M)
    else features
  | None => features
  end.

(** Lines 386-419: getisax(2) failed, use the old legacy code. *)
Definition isalist_features (features : Z) : Z :=
  let q := sysinfo os SI_ISALIST in
  if si_malloc q then
    if si_count q =? si_bufsize q then
      isalist_vis (si_buf q) (isalist_sparc (si_buf q) features)
    else features
  else features.

(** Lines 465-484: the family bits of the upper-cased implementation string;
    the second component is [implementation] afterwards. *)
Definition family_features (implementation : string) (features : Z) : Z * string :=
  (* Convert to UPPER case before compare. *)
  let impl := upcase implementation in
  if is_found (strstr impl "SPARC64") then
    (Z.lor features (sparc64_family_m M), implementation)
  else if is_found (strstr impl "SPARC-M") then
    (* M-series SPARC is based on T-series. *)
    (Z.lor features (Z.lor (M_family_m M) (T_family_m M)), implementation)
  else if is_found (strstr impl "SPARC-T") then
    let features := Z.lor features (T_family_m M) in
    if is_found (strstr impl "SPARC-T1") then
      (Z.lor features (T1_model_m M), implementation)
    else (features, implementation)
  else if negb (is_found (strstr impl "SPARC")) then
    (features, "SPARC")
  else (features, implementation).

(** Lines 432-488: the loop over the named entries of the cpu_info record;
    it stops at the first entry called "implementation". *)
Fixpoint scan_cpu_info (knm : list kstat_named_t) (implementation : string)
    (features : Z) : Z * string :=
  match knm with
  | [] => (features, implementation)
  | k :: rest =>
    if String.eqb (name k) "implementation" then
      let implementation :=
        match data_type k with
        | KSTAT_DATA_CHAR => value k     (* Solaris 8: value.c *)
        | KSTAT_DATA_STRING => value k   (* Solaris 10: KSTAT_NAMED_STR_PTR *)
        | KSTAT_DATA_OTHER _ => implementation
        end in
      family_features implementation features
    else scan_cpu_info rest implementation features
  end.

(** Lines 424-494: using kstat to determine the machine type. *)
Definition kstat_features (features : Z) : run Z :=
  let implementation := "UNKNOWN" in
  let '(features, implementation) :=
    match kstat_lookup os with
    | Some ksp =>
      if kstat_read os then
        match ks_data ksp with
        | Some knm => scan_cpu_info knm implementation features
        | None => (features, implementation)
        end
      else (features, implementation)
    | None => (features, implementation)
    end in
  assert_ assert_enabled (negb (String.eqb implementation "UNKNOWN"))
    "unknown cpu info (changed kstat interface?)" ;;
  Ret features.

(** Lines 296-494: everything before the cache probe. *)
Definition assemble_features (features : Z) : run Z :=
  features <- (if supports_getisax os then getisax_features features
               else Ret (isalist_features features)) ;;
  (* Determine the machine type. *)
  features <- do_sysinfo SI_MACHINE "sun4v" features (sun4v_m M) ;;
  kstat_features features.

(** The cache probe of line 497, as constructed from the assembled
    features. *)
Definition cache_probe (features : Z) (memo : option string)
  : run (PICL.t * option string) :=
  PICL.new assert_enabled (dl os) (processor_count os) indeterminate1 indeterminate2
    (negb (Z.land features (sparc64_family_m M) =? 0))
    (negb (Z.land features (sun4v_m M) =? 0))
    memo.

Definition platform_features {Other : Type} (features : Z) (g : statics Other)
  : run (Z * statics Other) :=
  features <- assemble_features features ;;
  (* Figure out cache line sizes using PICL *)
  '(picl, memo) <- cache_probe features (l2_data_cache_line_property_name g) ;;
  Ret (features,
       {| _L2_data_cache_line_size := PICL.L2_data_cache_line_size picl;
          l2_data_cache_line_property_name := memo;
          other := other g |}).

End WithHost.
End VM_Version.

(** ** Auxiliary definitions for the statements below *)

(** The calls one tracker receives while the callback runs on [nodes]: the
    guarded call of [CPUVisitor::visit], once per node, with one property
    name. *)
Fixpoint visit_nodes (assert_enabled : string -> bool) (lib : libpicl) (nm : string)
    (nodes : list picl_nodehdl_t) (v : UniqueValueVisitor.t)
  : run UniqueValueVisitor.t :=
  match nodes with
  | [] => Ret v
  | nodeh :: rest =>
    v1 <- CPUVisitor.visit_unless_inconsistent assert_enabled lib v nodeh nm ;;
    visit_nodes assert_enabled lib nm rest v1
  end.

(** The transition table of the tracker as the specification gives it:
    Initial to Assigned on the first reading, Assigned stays on an equal
    reading and becomes Inconsistent on a different one, Inconsistent
    stays. *)
Definition observe (v : UniqueValueVisitor.t) (curr : Z) : UniqueValueVisitor.t :=
  match UniqueValueVisitor._state v with
  | UniqueValueVisitor.INITIAL =>
    {| UniqueValueVisitor._state := UniqueValueVisitor.ASSIGNED;
       UniqueValueVisitor._value := curr |}
  | UniqueValueVisitor.ASSIGNED =>
    if curr =? UniqueValueVisitor._value v then v
    else UniqueValueVisitor.set_inconsistent v
  | UniqueValueVisitor.INCONSISTENT => v
  end.

(** Both trackers of a visitor have seen disagreeing values. *)
Definition both_inconsistent (c : CPUVisitor.t) : bool :=
  UniqueValueVisitor.is_inconsistent (CPUVisitor.l1_visitor c)
  && UniqueValueVisitor.is_inconsistent (CPUVisitor.l2_visitor c).

(** The static is NULL only before the first call of the callback, when the
    L2 tracker is still fresh. *)
Definition memo_invariant (arg : CPUVisitor.t * option string) : Prop :=
  snd arg = None ->
  UniqueValueVisitor.is_inconsistent (CPUVisitor.l2_visitor (fst arg)) = false.

(** [covers f b]: every bit of [b] is a bit of [f]. *)
Definition covers (f b : Z) : Prop := Z.land f b = b.

(** The seven entry points [bind_library_functions] resolves. *)
Definition entry_points : list string :=
  [ "picl_initialize"; "picl_shutdown"; "picl_get_root"; "picl_walk_tree_by_class";
    "picl_get_prop_by_name"; "picl_get_propval"; "picl_get_propinfo" ].

(** The capability word says: 32-bit multiply, 32-bit divide, VIS1 and VIS2,
    and none of the other capabilities the code looks at (a second word, if
    there is one, is without the SPARC5 bit). *)
Definition reports_mul_div_vis1_vis2 (hdr : auxv_SPARC) (os : os_env) : Prop :=
  Z.land (getisax_avs0 os) (AV_SPARC_MUL32 hdr) <> 0 /\
  Z.land (getisax_avs0 os) (AV_SPARC_DIV32 hdr) <> 0 /\
  Z.land (getisax_avs0 os) (AV_SPARC_VIS hdr) <> 0 /\
  Z.land (getisax_avs0 os) (AV_SPARC_VIS2 hdr) <> 0 /\
  Z.land (getisax_avs0 os) (AV_SPARC_FSMULD hdr) = 0 /\
  Z.land (getisax_avs0 os) (AV_SPARC_V8PLUS hdr) = 0 /\
  Z.land (getisax_avs0 os) (AV_SPARC_POPC hdr) = 0 /\
  Forall (fun bit => Z.land (getisax_avs0 os) bit = 0)
    [ AV_SPARC_ASI_BLK_INIT; AV_SPARC_FMAF; AV_SPARC_FMAU; AV_SPARC_VIS3;
      AV_SPARC_CBCOND; AV_SPARC_AES; AV_SPARC_SHA1; AV_SPARC_SHA256; AV_SPARC_SHA512 ] /\
  (getisax_avn os <= 1 \/ Z.land (getisax_avs1 os) AV2_SPARC_SPARC5 = 0).

(** The four feature bits that answer those capabilities. *)
Definition mul_div_vis1_vis2_m (M : Feature_Flag_Set) : Z :=
  Z.lor (Z.lor (Z.lor (hardware_mul32_m M) (hardware_div32_m M))
               (vis1_instructions_m M))
        (vis2_instructions_m M).

(** The bits the sources other than the capability word can add: the
    architecture names, the machine type and the implementation family. *)
Definition other_sources_m (M : Feature_Flag_Set) : Z :=
  Z.lor (Z.lor (Z.lor (Z.lor (Z.lor (Z.lor (v8_instructions_m M) (generic_v9_m M))
                                    (sun4v_m M))
                             (sparc64_family_m M))
                      (M_family_m M))
               (T_family_m M))
        (T1_model_m M).

(** [contains s marker]: [strstr(s, marker) != NULL]. *)
Definition contains (s marker : string) : bool := VM_Version.is_found (strstr s marker).

(** The cpu_info record can be read and [s] is the text of its first entry
    named "implementation", held as a character array or as a string. *)
Definition reads_implementation (os : os_env) (s : string) : Prop :=
  exists ksp pre k post,
    kstat_lookup os = Some ksp /\
    kstat_read os = true /\
    ks_data ksp = Some (pre ++ k :: post) /\
    Forall (fun e => String.eqb (name e) "implementation" = false) pre /\
    name k = "implementation" /\
    (data_type k = KSTAT_DATA_CHAR \/ data_type k = KSTAT_DATA_STRING) /\
    value k = s.

(** A run that stops does so at an assertion that is compiled in (the probe
    itself has no [guarantee]). *)
Definition stops_at_enabled_assert {A : Type} (assert_enabled : string -> bool)
    (r : run A) : bool :=
  match r with
  | Ret _ => true
  | Fatal (assert_failed msg) => assert_enabled msg
  | Fatal (guarantee_failed _) => false
  end.

(** The host [os] with capability words that report nothing. *)
Definition without_capabilities (os : os_env) : os_env :=
  {| supports_getisax := supports_getisax os;
     getisax_avn := getisax_avn os;
     getisax_avs0 := 0;
     getisax_avs1 := 0;
     sysinfo := sysinfo os;
     kstat_lookup := kstat_lookup os;
     kstat_read := kstat_read os;
     processor_count := processor_count os;
     dl := dl os |}.

(** The host [os] with another dynamic linker, and so another libpicl and
    device tree, behind it. *)
Definition with_dl (os : os_env) (d : dl_env) : os_env :=
  {| supports_getisax := supports_getisax os;
     getisax_avn := getisax_avn os;
     getisax_avs0 := getisax_avs0 os;
     getisax_avs1 := getisax_avs1 os;
     sysinfo := sysinfo os;
     kstat_lookup := kstat_lookup os;
     kstat_read := kstat_read os;
     processor_count := processor_count os;
     dl := d |}.

(** What the static of [CPUVisitor::visit] can hold: NULL or one of the two
    names the function assigns to it. *)
Definition l2_name_or_null (memo : option string) : Prop :=
  memo = None \/ memo = Some "l2-cache-line-size" \/ memo = Some "l2-dcache-line-size".

(** [d'] is as [d] except for what the nodes hold as "l1-dcache-line-size":
    the library loads and binds alike, the session and the root are alike,
    the classes have the same nodes, and every read of a property with
    another name gives the same. *)
Definition same_but_l1 (assert_enabled : string -> bool) (d d' : dl_env) : Prop :=
  (forall nm, dlopen d' nm = dlopen d nm) /\
  (forall h sym, dlsym d' h sym = dlsym d h sym) /\
  picl_initialize (dl_picl d') = picl_initialize (dl_picl d) /\
  picl_get_root (dl_picl d') = picl_get_root (dl_picl d) /\
  (forall rooth cls,
     picl_class_nodes (dl_picl d') rooth cls = picl_class_nodes (dl_picl d) rooth cls) /\
  (forall nodeh nm, nm <> "l1-dcache-line-size" ->
     get_int_property assert_enabled (dl_picl d') nodeh nm
     = get_int_property assert_enabled (dl_picl d) nodeh nm).

(** ** Further auxiliary definitions *)

(** The nodes whose property [nm] can be read as an integer. *)
Definition readable (assert_enabled : string -> bool) (lib : libpicl) (nm : string)
    (nodes : list picl_nodehdl_t) : list picl_nodehdl_t :=
  filter (fun nodeh =>
            match get_int_property assert_enabled lib nodeh nm with
            | Ret (Some _) => true
            | _ => false
            end) nodes.

(** The value fits an [int]. *)
Definition int_range (z : Z) : Prop := - 2 ^ 31 <= z < 2 ^ 31.

(** The constructor gets as far as the walk: the library loads with all its
    entry points, the session starts and the tree has root [rooth]. *)
Definition walk_is_reached (d : dl_env) (rooth : picl_nodehdl_t) : Prop :=
  (exists h, dlopen d "libpicl.so.1" = Some h /\
             Forall (fun sym => dlsym d h sym = true) entry_points) /\
  picl_initialize (dl_picl d) = true /\
  picl_get_root (dl_picl d) = Some rooth.

(** The node class the constructor walks. *)
Definition cpu_class (is_fujitsu : bool) : string :=
  if is_fujitsu then "core" else "cpu".

(** The assertions that a device tree or a library of another version can
    make fail. *)
Definition allowed_stop (msg : string) : bool :=
  String.eqb msg "Invalid property type"
  || String.eqb msg "Unexpected integer property size"
  || String.eqb msg "unexpected PICL API change".

(** The run returns, or stops at one of those assertions. *)
Definition stops_for {A : Type} (r : run A) : bool :=
  match r with
  | Ret _ => true
  | Fatal (assert_failed msg) => allowed_stop msg
  | Fatal (guarantee_failed _) => false
  end.

(** No entry named "implementation" can be read from the cpu_info record:
    there is no record, it cannot be read, it has no data, or none of its
    entries has that name. *)
Definition no_implementation_entry (os : os_env) : Prop :=
  match kstat_lookup os with
  | None => True
  | Some ksp =>
    kstat_read os = false \/
    match ks_data ksp with
    | None => True
    | Some knm => Forall (fun e => String.eqb (name e) "implementation" = false) knm
    end
  end.

(** The cpu_info record is read and has an entry named "implementation". *)
Definition has_implementation_entry (os : os_env) : Prop :=
  exists ksp knm,
    kstat_lookup os = Some ksp /\
    kstat_read os = true /\
    ks_data ksp = Some knm /\
    Exists (fun e => name e = "implementation") knm.

(** The host [os] with another second capability word. *)
Definition with_second_word (os : os_env) (av2 : Z) : os_env :=
  {| supports_getisax := supports_getisax os;
     getisax_avn := getisax_avn os;
     getisax_avs0 := getisax_avs0 os;
     getisax_avs1 := av2;
     sysinfo := sysinfo os;
     kstat_lookup := kstat_lookup os;
     kstat_read := kstat_read os;
     processor_count := processor_count os;
     dl := dl os |}.

(** The capability bits of the first word and the feature bits that answer
    them, as lines 323-383 pair them. *)
Definition capability_table (hdr : auxv_SPARC) (M : Feature_Flag_Set) : list (Z * Z) :=
  [ (AV_SPARC_MUL32 hdr, hardware_mul32_m M);
    (AV_SPARC_DIV32 hdr, hardware_div32_m M);
    (AV_SPARC_FSMULD hdr, hardware_fsmuld_m M);
    (AV_SPARC_V8PLUS hdr, v9_instructions_m M);
    (AV_SPARC_POPC hdr, hardware_popc_m M);
    (AV_SPARC_VIS hdr, vis1_instructions_m M);
    (AV_SPARC_VIS2 hdr, vis2_instructions_m M);
    (AV_SPARC_ASI_BLK_INIT, blk_init_instructions_m M);
    (AV_SPARC_FMAF, fmaf_instructions_m M);
    (AV_SPARC_FMAU, fmau_instructions_m M);
    (AV_SPARC_VIS3, vis3_instructions_m M);
    (AV_SPARC_CBCOND, cbcond_instructions_m M);
    (AV_SPARC_AES, aes_instructions_m M);
    (AV_SPARC_SHA1, sha1_instruction_m M);
    (AV_SPARC_SHA256, sha256_instruction_m M);
    (AV_SPARC_SHA512, sha512_instruction_m M) ].

(** * Sample builds and hosts

    Concrete replies of the environment, used to run the model. *)

Definition debug_build : string -> bool := fun _ => true.
Definition product_build : string -> bool := fun _ => false.

(** A product build with the three preconditions of UniqueValueVisitor
    checked all the same. *)
Definition preconditions_only : string -> bool :=
  fun msg => String.eqb msg "Precondition".

(** One bit per flag, in the order of the enumeration [Feature_Flag]; the
    generic sets are unions of them. *)
Definition sample_flags : Feature_Flag_Set :=
  {| v8_instructions_m := Z.shiftl 1 0;
     hardware_mul32_m := Z.shiftl 1 1;
     hardware_div32_m := Z.shiftl 1 2;
     hardware_fsmuld_m := Z.shiftl 1 3;
     hardware_popc_m := Z.shiftl 1 4;
     v9_instructions_m := Z.shiftl 1 5;
     vis1_instructions_m := Z.shiftl 1 6;
     vis2_instructions_m := Z.shiftl 1 7;
     sun4v_m := Z.shiftl 1 8;
     blk_init_instructions_m := Z.shiftl 1 9;
     fmaf_instructions_m := Z.shiftl 1 10;
     fmau_instructions_m := Z.shiftl 1 11;
     vis3_instructions_m := Z.shiftl 1 12;
     cbcond_instructions_m := Z.shiftl 1 13;
     sparc64_family_m := Z.shiftl 1 14;
     M_family_m := Z.shiftl 1 15;
     T_family_m := Z.shiftl 1 16;
     T1_model_m := Z.shiftl 1 17;
     sparc5_instructions_m := Z.shiftl 1 18;
     aes_instructions_m := Z.shiftl 1 19;
     sha1_instruction_m := Z.shiftl 1 20;
     sha256_instruction_m := Z.shiftl 1 21;
     sha512_instruction_m := Z.shiftl 1 22;
     generic_v8_m := Z.shiftl 1 0;
     generic_v9_m := Z.lor (Z.lor (Z.lor (Z.shiftl 1 5) (Z.shiftl 1 1)) (Z.shiftl 1 2))
                           (Z.shiftl 1 3) |}.

(** The low capability bits as Solaris numbers them. *)
Definition sample_auxv : auxv_SPARC :=
  {| AV_SPARC_MUL32 := 0x0001;
     AV_SPARC_DIV32 := 0x0002;
     AV_SPARC_FSMULD := 0x0004;
     AV_SPARC_V8PLUS := 0x0008;
     AV_SPARC_POPC := 0x0010;
     AV_SPARC_VIS := 0x0020;
     AV_SPARC_VIS2 := 0x0040 |}.

(** A device tree given as a table: [cpus] are the nodes of class "cpu",
    [tbl node k] is the type, size and value of property number [k] of
    [node] (1: l1-dcache-line-size, 2: l2-cache-line-size,
    3: l2-dcache-line-size). *)
Definition prop_index (nm : string) : Z :=
  if String.eqb nm "l1-dcache-line-size" then 1
  else if String.eqb nm "l2-cache-line-size" then 2
  else if String.eqb nm "l2-dcache-line-size" then 3
  else 0.

Definition table_picl (cpus : list picl_nodehdl_t)
    (tbl : Z -> Z -> option (picl_propinfo_t * Z)) : libpicl :=
  {| picl_initialize := true;
     picl_get_root := Some 0;
     picl_class_nodes := fun _ cls => if String.eqb cls "cpu" then cpus else [];
     picl_get_prop_by_name := fun n nm =>
       match tbl n (prop_index nm) with
       | Some _ => Some (4 * n + prop_index nm)
       | None => None
       end;
     picl_get_propinfo := fun h => option_map fst (tbl (h / 4) (h mod 4));
     picl_get_propval := fun h _ => option_map snd (tbl (h / 4) (h mod 4)) |}.

Definition int32_prop (v : Z) : option (picl_propinfo_t * Z) :=
  Some ({| type := PICL_PTYPE_INT; size := 4 |}, v).

Definition int64_prop (v : Z) : option (picl_propinfo_t * Z) :=
  Some ({| type := PICL_PTYPE_UNSIGNED_INT; size := 8 |}, v).

(** Three cpus, all with 64-byte L1 lines and 128-byte L2 lines. *)
Definition uniform_tree : libpicl :=
  table_picl [1; 2; 3]
    (fun _ k => if k =? 1 then int32_prop 64
                else if k =? 2 then int64_prop 128 else None).

(** As [uniform_tree], with a fourth cpu that reports 32-byte L1 lines. *)
Definition mixed_tree : libpicl :=
  table_picl [1; 2; 3; 4]
    (fun n k => if k =? 1 then int32_prop (if n =? 4 then 32 else 64)
                else if k =? 2 then int64_prop 64 else None).

(** Two cpus that disagree on both levels, followed by two more. *)
Definition disagreeing_tree : libpicl :=
  table_picl [1; 2; 3; 4]
    (fun n k => if k =? 1 then int32_prop (if n =? 1 then 32 else 64)
                else if k =? 2 then int32_prop (if n =? 1 then 64 else 128)
                else None).

(** The first cpu only has the fallback L2 name, the second only the
    primary one. *)
Definition renamed_tree : libpicl :=
  table_picl [1; 2]
    (fun n k => if k =? 1 then int32_prop 64
                else if (n =? 1) && (k =? 3) then int32_prop 64
                else if (n =? 2) && (k =? 2) then int32_prop 128
                else None).

(** A cpu whose L1 property is a string. *)
Definition mistyped_tree : libpicl :=
  table_picl [1]
    (fun _ k => if k =? 1 then Some ({| type := PICL_PTYPE_CHARSTRING; size := 4 |}, 0)
                else None).

Definition all_symbols (lib : libpicl) : dl_env :=
  {| dlopen := fun nm => if String.eqb nm "libpicl.so.1" then Some 1 else None;
     dlsym := fun _ _ => true;
     dl_picl := lib |}.

(** libpicl.so.1 is not installed. *)
Definition no_library (lib : libpicl) : dl_env :=
  {| dlopen := fun _ => None;
     dlsym := fun _ _ => true;
     dl_picl := lib |}.

(** libpicl.so.1 loads, but one entry point is gone. *)
Definition missing_symbol (gone : string) (lib : libpicl) : dl_env :=
  {| dlopen := fun nm => if String.eqb nm "libpicl.so.1" then Some 1 else None;
     dlsym := fun _ nm => negb (String.eqb nm gone);
     dl_picl := lib |}.

Definition reply (s : string) : sysinfo_reply :=
  {| si_bufsize := Z.of_nat (String.length s) + 1;
     si_malloc := true;
     si_count := Z.of_nat (String.length s) + 1;
     si_buf := s |}.

Definition cpu_info (implementation : string) : kstat_t :=
  {| ks_data := Some [ {| name := "brand"; data_type := KSTAT_DATA_STRING; value := "SPARC-T4" |};
                       {| name := "implementation"; data_type := KSTAT_DATA_STRING;
                          value := implementation |} ] |}.

(** A Solaris 10 or later host: getisax(2) answers with one word [av]. *)
Definition solaris10_host (av : Z) (machine implementation : string) (d : dl_env) : os_env :=
  {| supports_getisax := true;
     getisax_avn := 1;
     getisax_avs0 := av;
     getisax_avs1 := 0;
     sysinfo := fun si =>
       match si with
       | SI_MACHINE => reply machine
       | SI_ISALIST => reply "sparcv9+vis2 sparcv9+vis sparcv9 sparcv8plus+vis2 sparcv8plus+vis sparcv8plus sparcv8 sparcv8-fsmuld sparcv7 sparc"
       | SI_ARCHITECTURE_32 => reply "sparc"
       | SI_ARCHITECTURE_64 => reply "sparcv9"
       end;
     kstat_lookup := Some (cpu_info implementation);
     kstat_read := true;
     processor_count := 4;
     dl := d |}.

(** A host without getisax(2), whose isalist is [isalist]. *)
Definition legacy_host (isalist machine implementation : string) (d : dl_env) : os_env :=
  {| supports_getisax := false;
     getisax_avn := 0;
     getisax_avs0 := 0;
     getisax_avs1 := 0;
     sysinfo := fun si =>
       match si with
       | SI_MACHINE => reply machine
       | SI_ISALIST => reply isalist
       | SI_ARCHITECTURE_32 => reply "sparc"
       | SI_ARCHITECTURE_64 => reply "sparcv9"
       end;
     kstat_lookup := Some (cpu_info implementation);
     kstat_read := true;
     processor_count := 4;
     dl := d |}.

(** A host on which no source says anything: the strings do not match, the
    capability word is [av], kstat has no cpu_info record, no libpicl. *)
Definition silent_host (av : Z) : os_env :=
  {| supports_getisax := true;
     getisax_avn := 1;
     getisax_avs0 := av;
     getisax_avs1 := 0;
     sysinfo := fun _ => reply EmptyString;
     kstat_lookup := None;
     kstat_read := false;
     processor_count := 1;
     dl := no_library uniform_tree |}.

(** The process before the probe: the static of [CPUVisitor::visit] is
    NULL. *)
Definition at_startup {Other : Type} (o : Other) : VM_Version.statics Other :=
  {| VM_Version._L2_data_cache_line_size := 0;
     VM_Version.l2_data_cache_line_property_name := None;
     VM_Version.other := o |}.

(** One cpu whose L1 line size is stored in 64 bits with a high bit set. *)
Definition wide_tree : libpicl :=
  table_picl [1]
    (fun _ k => if k =? 1 then int64_prop (2 ^ 32 + 64) else None).

(** One cpu whose L1 line size is an integer of 2 bytes. *)
Definition short_tree : libpicl :=
  table_picl [1]
    (fun _ k => if k =? 1 then Some ({| type := PICL_PTYPE_INT; size := 2 |}, 64)
                else None).

(** Four cpus; the second and the third lack the L1 property. *)
Definition sparse_tree : libpicl :=
  table_picl [1; 2; 3; 4]
    (fun n k => if (k =? 1) && ((n =? 1) || (n =? 4)) then int32_prop 64
                else if k =? 2 then int32_prop 128 else None).

(** Three cpus that name their L2 line size "l2-dcache-line-size". *)
Definition fallback_tree : libpicl :=
  table_picl [1; 2; 3]
    (fun _ k => if k =? 1 then int32_prop 32
                else if k =? 3 then int32_prop 64 else None).

(** A host whose getisax(2) fills two words. *)
Definition two_word_host (av av2 : Z) : os_env :=
  {| supports_getisax := true;
     getisax_avn := 2;
     getisax_avs0 := av;
     getisax_avs1 := av2;
     sysinfo := fun si =>
       match si with
       | SI_MACHINE => reply "sun4v"
       | SI_ISALIST => reply "sparcv9+vis2 sparcv9 sparcv8plus sparcv8 sparc"
       | SI_ARCHITECTURE_32 => reply "sparc"
       | SI_ARCHITECTURE_64 => reply "sparcv9"
       end;
     kstat_lookup := Some (cpu_info "SPARC-M7");
     kstat_read := true;
     processor_count := 2;
     dl := no_library uniform_tree |}.

(** sysinfo(2) answers -1: the item is not supported. *)
Definition unsupported : sysinfo_reply :=
  {| si_bufsize := -1; si_malloc := true; si_count := -1; si_buf := EmptyString |}.

(** A host before Solaris 10 whose sysinfo(2) does not know SI_MACHINE. *)
Definition no_machine_host : os_env :=
  {| supports_getisax := false;
     getisax_avn := 0;
     getisax_avs0 := 0;
     getisax_avs1 := 0;
     sysinfo := fun si =>
       match si with
       | SI_MACHINE => unsupported
       | SI_ISALIST => reply "sparcv9+vis sparcv9 sparcv8plus sparcv8 sparc"
       | SI_ARCHITECTURE_32 => unsupported
       | SI_ARCHITECTURE_64 => unsupported
       end;
     kstat_lookup := Some (cpu_info "UltraSPARC-II");
     kstat_read := true;
     processor_count := 1;
     dl := no_library uniform_tree |}.

(** As [uniform_tree], but the three cpus hold 16, 32 and 48 as L1 line
    size. *)
Definition other_l1_tree : libpicl :=
  table_picl [1; 2; 3]
    (fun n k => if k =? 1 then int32_prop (16 * n)
                else if k =? 2 then int64_prop 128 else None).

(** ** Runs of the model on the sample hosts *)

(** Three cpus that agree: both sizes are found. *)
Example uniform_tree_sizes :
  PICL.new debug_build (all_symbols uniform_tree) 4 0 0 false false None
  = Ret ({| PICL._L1_data_cache_line_size := 64;
            PICL._L2_data_cache_line_size := 128;
            PICL._dl_handle := None |}, Some "l2-cache-line-size").
Proof. reflexivity. Qed.

(** A fourth cpu reports another L1 size: L1 is unknown, L2 is kept. *)
Example mixed_tree_sizes :
  PICL.new debug_build (all_symbols mixed_tree) 4 0 0 false false None
  = Ret ({| PICL._L1_data_cache_line_size := 0;
            PICL._L2_data_cache_line_size := 64;
            PICL._dl_handle := None |}, Some "l2-cache-line-size").
Proof. reflexivity. Qed.

(** On a sun4v machine that is not Fujitsu one node is sampled, so the
    fourth cpu of [mixed_tree] is not looked at. *)
Example mixed_tree_sun4v :
  PICL.walk_cpus debug_build (all_symbols mixed_tree) 4 0 0 false true 0 None
  = Ret ({| CPUVisitor._l1_visitor :=
              {| UniqueValueVisitor._state := UniqueValueVisitor.ASSIGNED;
                 UniqueValueVisitor._value := 64 |};
            CPUVisitor._l2_visitor :=
              {| UniqueValueVisitor._state := UniqueValueVisitor.ASSIGNED;
                 UniqueValueVisitor._value := 64 |};
            CPUVisitor._limit := 0 |}, Some "l2-cache-line-size", [1]).
Proof. reflexivity. Qed.

(** A property of the wrong type stops a debug build and reads as a failed
    lookup in a product build. *)
Example mistyped_tree_debug :
  PICL.new debug_build (all_symbols mistyped_tree) 4 0 0 false false None
  = Fatal (assert_failed "Invalid property type").
Proof. reflexivity. Qed.

Example mistyped_tree_product :
  PICL.new product_build (all_symbols mistyped_tree) 4 0 0 false false None
  = Ret ({| PICL._L1_data_cache_line_size := 0;
            PICL._L2_data_cache_line_size := 0;
            PICL._dl_handle := None |}, Some "l2-dcache-line-size").
Proof. reflexivity. Qed.

(** The preconditions are real: [value()] on a fresh tracker stops a debug
    build, and an unguarded [visit()] on an INCONSISTENT tracker in a product
    build would make it ASSIGNED again. *)
Example value_on_fresh_tracker :
  raises (UniqueValueVisitor.value debug_build (UniqueValueVisitor.new 0)) "Precondition"
  = true.
Proof. reflexivity. Qed.

Example unguarded_visit_product :
  UniqueValueVisitor.visit product_build uniform_tree
    {| UniqueValueVisitor._state := UniqueValueVisitor.INCONSISTENT;
       UniqueValueVisitor._value := 32 |} 1 "l1-dcache-line-size"
  = Ret (true, {| UniqueValueVisitor._state := UniqueValueVisitor.ASSIGNED;
                  UniqueValueVisitor._value := 64 |}).
Proof. reflexivity. Qed.

(** A 64-bit property value is cut to an [int]. *)
Example wide_value_is_cut : to_int (2 ^ 32 + 64) = 64 /\ to_int (2 ^ 31) = - 2 ^ 31.
Proof. split; reflexivity. Qed.

(** The isalist of a VIS2 machine and of plain v8 hardware. *)
Example isalist_v9_vis2 :
  VM_Version.isalist_vis sample_flags "sparcv9+vis2 sparcv9"
    (VM_Version.isalist_sparc sample_flags "sparcv9+vis2 sparcv9" 0)
  = Z.lor (Z.lor (v8_instructions_m sample_flags) (generic_v9_m sample_flags))
          (Z.lor (vis1_instructions_m sample_flags) (vis2_instructions_m sample_flags)).
Proof. reflexivity. Qed.

Example isalist_v8_muldiv :
  VM_Version.isalist_sparc sample_flags "sparcv8-fsmuld sparcv7 sparc" 0
  = Z.lor (Z.lor (v8_instructions_m sample_flags) (hardware_mul32_m sample_flags))
          (hardware_div32_m sample_flags).
Proof. reflexivity. Qed.

(** An implementation string without "SPARC" is replaced by the placeholder
    and adds no bit. *)
Example unsupported_implementation :
  VM_Version.family_features sample_flags "(unsupported)" 0 = (0, "SPARC").
Proof. reflexivity. Qed.

(** Three cpus that disagree on L1 and agree on L2: L1 is unknown, L2 is
    found as on [uniform_tree]. *)
Example other_l1_tree_sizes :
  PICL.new debug_build (all_symbols other_l1_tree) 4 0 0 false false None
  = Ret ({| PICL._L1_data_cache_line_size := 0;
            PICL._L2_data_cache_line_size := 128;
            PICL._dl_handle := None |}, Some "l2-cache-line-size").
Proof. reflexivity. Qed.

(** [other_l1_tree] differs from [uniform_tree] in the L1 readings only. *)
Example other_l1_tree_same_but_l1 :
  same_but_l1 debug_build (all_symbols uniform_tree) (all_symbols other_l1_tree).
Proof.
  unfold same_but_l1. repeat (split; [intros; reflexivity|]).
  intros nodeh nm Hnm.
  unfold get_int_property, uniform_tree, other_l1_tree, table_picl, prop_index.
  cbn [picl_get_prop_by_name picl_get_propinfo picl_get_propval dl_picl all_symbols].
  destruct (String.eqb_spec nm "l1-dcache-line-size") as [E|_]; [contradiction|].
  destruct (String.eqb nm "l2-cache-line-size").
  - cbn [Z.eqb Pos.eqb int64_prop].
    replace ((4 * nodeh + 2) mod 4) with 2; [reflexivity|].
    rewrite Z.add_comm, Z.mul_comm, Z_mod_plus_full. reflexivity.
  - destruct (String.eqb nm "l2-dcache-line-size"); reflexivity.
Qed.

(** * Properties *)

(** ** The [run] monad and assertions *)

Lemma assert_holds (ae : string -> bool) (msg : string) :
  assert_ ae true msg = Ret tt.
Proof. unfold assert_. now rewrite andb_false_r. Qed.

Lemma assert_product (cond : bool) (msg : string) :
  assert_ product_build cond msg = Ret tt.
Proof. reflexivity. Qed.

Lemma bind_ret_inv {A B : Type} (m : run A) (k : A -> run B) (b : B) :
  run_bind m k = Ret b -> exists a, m = Ret a /\ k a = Ret b.
Proof.
  destruct m as [a|e]; simpl; intros H; [exists a; auto | discriminate].
Qed.

Lemma raises_bind {A B : Type} (m : run A) (k : A -> run B) (msg : string) :
  raises m msg = false ->
  (forall a, m = Ret a -> raises (k a) msg = false) ->
  raises (run_bind m k) msg = false.
Proof.
  destruct m as [a|e]; simpl; intros Hm Hk; [now apply Hk | exact Hm].
Qed.

Lemma raises_assert_other (ae : string -> bool) (cond : bool) (msg other : string) :
  String.eqb msg other = false ->
  raises (assert_ ae cond msg) other = false.
Proof.
  intros H. unfold assert_. destruct (ae msg && negb cond); simpl; auto.
Qed.

(** ** UniqueValueVisitor *)

Section Tracker.
Variable ae : string -> bool.
Variable lib : libpicl.

Lemma visit_reading v nodeh nm curr :
  get_int_property ae lib nodeh nm = Ret (Some curr) ->
  UniqueValueVisitor.is_inconsistent v = false ->
  UniqueValueVisitor.visit ae lib v nodeh nm = Ret (true, observe v curr).
Proof.
  intros Hget Hinc. unfold UniqueValueVisitor.visit.
  rewrite Hinc; simpl negb. rewrite assert_holds; simpl.
  rewrite Hget; simpl.
  destruct v as [st val]; destruct st; try discriminate; unfold observe; simpl.
  - unfold UniqueValueVisitor.set_value; simpl. now rewrite assert_holds.
  - unfold UniqueValueVisitor.value; simpl. rewrite assert_holds; simpl.
    now destruct (curr =? val).
Qed.

Lemma visit_no_reading v nodeh nm :
  get_int_property ae lib nodeh nm = Ret None ->
  UniqueValueVisitor.is_inconsistent v = false ->
  UniqueValueVisitor.visit ae lib v nodeh nm = Ret (false, v).
Proof.
  intros Hget Hinc. unfold UniqueValueVisitor.visit.
  rewrite Hinc; simpl negb. rewrite assert_holds; simpl.
  now rewrite Hget.
Qed.

Lemma guarded_visit_reading v nodeh nm curr :
  get_int_property ae lib nodeh nm = Ret (Some curr) ->
  CPUVisitor.visit_unless_inconsistent ae lib v nodeh nm = Ret (observe v curr).
Proof.
  intros Hget. unfold CPUVisitor.visit_unless_inconsistent.
  destruct (UniqueValueVisitor.is_inconsistent v) eqn:Hinc; simpl.
  - unfold observe. destruct v as [st val]; destruct st; try discriminate; reflexivity.
  - now rewrite (visit_reading _ _ _ _ Hget Hinc).
Qed.

Lemma guarded_visit_inconsistent v nodeh nm :
  UniqueValueVisitor.is_inconsistent v = true ->
  CPUVisitor.visit_unless_inconsistent ae lib v nodeh nm = Ret v.
Proof.
  intros H. unfold CPUVisitor.visit_unless_inconsistent. now rewrite H.
Qed.

Lemma visit_nodes_observe nm nodes : forall readings v,
  Forall2 (fun nodeh curr => get_int_property ae lib nodeh nm = Ret (Some curr))
          nodes readings ->
  visit_nodes ae lib nm nodes v = Ret (fold_left observe readings v).
Proof.
  induction nodes as [|n rest IH]; intros readings v H; inversion H; subst; simpl.
  - reflexivity.
  - rewrite (guarded_visit_reading _ _ _ _ H2); simpl. now apply IH.
Qed.

End Tracker.

Lemma observe_inconsistent readings : forall v,
  UniqueValueVisitor._state v = UniqueValueVisitor.INCONSISTENT ->
  fold_left observe readings v = v.
Proof.
  induction readings as [|r rs IH]; intros v H; simpl; [reflexivity|].
  unfold observe at 2. rewrite H. now apply IH.
Qed.

Lemma observe_assigned readings : forall v,
  UniqueValueVisitor._state v = UniqueValueVisitor.ASSIGNED ->
  (Forall (fun r => r = UniqueValueVisitor._value v) readings /\ fold_left observe readings v = v) \/
  (~ Forall (fun r => r = UniqueValueVisitor._value v) readings /\
   UniqueValueVisitor._state (fold_left observe readings v) = UniqueValueVisitor.INCONSISTENT).
Proof.
  induction readings as [|r rs IH]; intros v H; simpl.
  - left; split; [constructor | reflexivity].
  - unfold observe at 2 4. rewrite H.
    destruct (Z.eqb_spec r (UniqueValueVisitor._value v)) as [E|E].
    + destruct (IH v H) as [[Hall Heq]|[Hnot Hst]].
      * left; split; [constructor; assumption | assumption].
      * right; split; [|assumption]. intros Hc; inversion Hc; subst; contradiction.
    + right; split.
      * intros Hc; inversion Hc; subst; contradiction.
      * rewrite observe_inconsistent; reflexivity.
Qed.

(** ** No tracker precondition is violated *)

Section Preconditions.
Variable ae : string -> bool.
Variable lib : libpicl.

Ltac bind_safe :=
  apply raises_bind; [| intros ? ?].

Lemma assert_other_safe cond msg :
  String.eqb msg "Precondition" = false ->
  raises (assert_ ae cond msg) "Precondition" = false.
Proof. apply raises_assert_other. Qed.

Lemma get_int_property_safe nodeh nm :
  raises (get_int_property ae lib nodeh nm) "Precondition" = false.
Proof.
  unfold get_int_property.
  destruct (picl_get_prop_by_name lib nodeh nm) as [proph|]; [|reflexivity].
  destruct (picl_get_propinfo lib proph) as [pinfo|]; [|reflexivity].
  destruct (_ && _).
  - bind_safe; [now apply assert_other_safe | reflexivity].
  - destruct (size pinfo =? 8).
    + now destruct (picl_get_propval lib proph 8).
    + destruct (size pinfo =? 4).
      * now destruct (picl_get_propval lib proph 4).
      * bind_safe; [now apply assert_other_safe | reflexivity].
Qed.

Lemma visit_safe v nodeh nm :
  UniqueValueVisitor.is_inconsistent v = false ->
  raises (UniqueValueVisitor.visit ae lib v nodeh nm) "Precondition" = false.
Proof.
  intros Hinc. unfold UniqueValueVisitor.visit.
  rewrite Hinc; simpl negb. rewrite assert_holds; simpl.
  bind_safe; [apply get_int_property_safe|].
  destruct a as [curr|]; [|reflexivity].
  destruct v as [st val]; destruct st; try discriminate; simpl.
  - unfold UniqueValueVisitor.set_value; simpl. now rewrite assert_holds.
  - unfold UniqueValueVisitor.value; simpl. rewrite assert_holds; simpl.
    now destruct (curr =? val).
Qed.

Lemma visit_not_found v nodeh nm v1 :
  UniqueValueVisitor.visit ae lib v nodeh nm = Ret (false, v1) -> v1 = v.
Proof.
  unfold UniqueValueVisitor.visit. intros H.
  apply bind_ret_inv in H as (_ & _ & H).
  apply bind_ret_inv in H as (r & _ & H).
  destruct r as [curr|]; [|now inversion H].
  destruct (negb (UniqueValueVisitor.is_assigned v)).
  - apply bind_ret_inv in H as (? & _ & H). discriminate.
  - apply bind_ret_inv in H as (? & _ & H).
    destruct (negb (curr =? x)); discriminate.
Qed.

Lemma guarded_visit_safe v nodeh nm :
  raises (CPUVisitor.visit_unless_inconsistent ae lib v nodeh nm) "Precondition" = false.
Proof.
  unfold CPUVisitor.visit_unless_inconsistent.
  destruct (UniqueValueVisitor.is_inconsistent v) eqn:Hinc; simpl; [reflexivity|].
  bind_safe; [now apply visit_safe | now destruct a].
Qed.

Lemma visit_l2_safe memo l2 nodeh :
  (memo = None -> UniqueValueVisitor.is_inconsistent l2 = false) ->
  raises (CPUVisitor.visit_l2 ae lib memo l2 nodeh) "Precondition" = false.
Proof.
  intros Hinv. unfold CPUVisitor.visit_l2.
  destruct memo as [nm|].
  - bind_safe; [apply guarded_visit_safe | reflexivity].
  - specialize (Hinv eq_refl).
    bind_safe; [now apply assert_other_safe|].
    bind_safe; [now apply visit_safe|].
    destruct a0 as [found l2a]. destruct found; simpl; [reflexivity|].
    apply visit_not_found in H0; subst l2a.
    bind_safe; [now apply visit_safe | now destruct a0].
Qed.

Lemma visit_l2_memo memo l2 nodeh l2a memo1 :
  CPUVisitor.visit_l2 ae lib memo l2 nodeh = Ret (l2a, memo1) -> memo1 <> None.
Proof.
  unfold CPUVisitor.visit_l2. destruct memo as [nm|]; intros H.
  - apply bind_ret_inv in H as (? & _ & H). inversion H; discriminate.
  - apply bind_ret_inv in H as (_ & _ & H).
    apply bind_ret_inv in H as ([found x] & _ & H).
    destruct found; simpl in H.
    + inversion H; discriminate.
    + apply bind_ret_inv in H as ([? ?] & _ & H). inversion H; discriminate.
Qed.

Lemma cpu_visit_safe nodeh arg :
  memo_invariant arg ->
  raises (CPUVisitor.visit ae lib nodeh arg) "Precondition" = false.
Proof.
  destruct arg as [c memo]. unfold memo_invariant; simpl. intros Hinv.
  unfold CPUVisitor.visit.
  bind_safe; [apply guarded_visit_safe|].
  bind_safe; [now apply visit_l2_safe|].
  destruct a0 as [l2 memo1].
  destruct (_ && _); [reflexivity|].
  now destruct (_ <=? _).
Qed.

Lemma cpu_visit_memo nodeh arg answer arg1 :
  CPUVisitor.visit ae lib nodeh arg = Ret (answer, arg1) -> snd arg1 <> None.
Proof.
  destruct arg as [c memo]. unfold CPUVisitor.visit. intros H.
  apply bind_ret_inv in H as (l1 & _ & H).
  apply bind_ret_inv in H as ([l2 memo1] & Hl2 & H).
  apply visit_l2_memo in Hl2.
  destruct (_ && _); [now inversion H|].
  destruct (_ <=? _); now inversion H.
Qed.

Lemma walk_safe nodes : forall arg,
  memo_invariant arg ->
  raises (picl_walk_tree_by_class (CPUVisitor.visit ae lib) nodes arg) "Precondition" = false.
Proof.
  induction nodes as [|n rest IH]; intros arg Hinv; simpl; [reflexivity|].
  bind_safe; [now apply cpu_visit_safe|].
  destruct a as [answer arg1]. destruct answer; [|reflexivity].
  bind_safe.
  - apply IH. intros Hnone. now apply cpu_visit_memo in H.
  - now destruct a.
Qed.

End Preconditions.

(** ** One call of the callback, and the walk *)

Section Walk.
Variable ae : string -> bool.
Variable lib : libpicl.

(** What one returning call of [CPUVisitor::visit] did. *)
Lemma cpu_visit_inv nodeh c memo answer arg1 :
  CPUVisitor.visit ae lib nodeh (c, memo) = Ret (answer, arg1) ->
  CPUVisitor.visit_unless_inconsistent ae lib (CPUVisitor.l1_visitor c) nodeh
    "l1-dcache-line-size" = Ret (CPUVisitor.l1_visitor (fst arg1)) /\
  CPUVisitor.visit_l2 ae lib memo (CPUVisitor.l2_visitor c) nodeh
    = Ret (CPUVisitor.l2_visitor (fst arg1), snd arg1) /\
  (both_inconsistent (fst arg1) = true ->
     answer = PICL_WALK_TERMINATE /\
     CPUVisitor._limit (fst arg1) = CPUVisitor._limit c) /\
  (both_inconsistent (fst arg1) = false ->
     CPUVisitor._limit (fst arg1) = CPUVisitor._limit c - 1 /\
     answer = (if CPUVisitor._limit c - 1 <=? 0
               then PICL_WALK_TERMINATE else PICL_WALK_CONTINUE)).
Proof.
  unfold CPUVisitor.visit. intros H.
  apply bind_ret_inv in H as (l1 & Hl1 & H).
  apply bind_ret_inv in H as ([l2 memo1] & Hl2 & H).
  unfold both_inconsistent.
  destruct (UniqueValueVisitor.is_inconsistent l1
            && UniqueValueVisitor.is_inconsistent l2) eqn:Hboth.
  - inversion H; subst; simpl. rewrite Hboth.
    repeat split; auto; discriminate.
  - destruct (CPUVisitor._limit c - 1 <=? 0) eqn:Hlim;
      inversion H; subst; simpl; rewrite Hboth;
      repeat split; auto; discriminate.
Qed.

Lemma cpu_visit_continue nodeh arg arg1 :
  CPUVisitor.visit ae lib nodeh arg = Ret (PICL_WALK_CONTINUE, arg1) ->
  both_inconsistent (fst arg1) = false /\
  CPUVisitor._limit (fst arg1) = CPUVisitor._limit (fst arg) - 1 /\
  0 < CPUVisitor._limit (fst arg1).
Proof.
  destruct arg as [c memo]. intros H.
  apply cpu_visit_inv in H as (_ & _ & Hyes & Hno).
  destruct (both_inconsistent (fst arg1)).
  - destruct (Hyes eq_refl) as [E _]; discriminate.
  - destruct (Hno eq_refl) as [El E]. split; [reflexivity|]. simpl.
    destruct (Z.leb_spec (CPUVisitor._limit c - 1) 0); [discriminate | lia].
Qed.

(** The callback runs on a prefix of the nodes offered. *)
Lemma walk_prefix nodes : forall arg st seen,
  picl_walk_tree_by_class (CPUVisitor.visit ae lib) nodes arg = Ret (st, seen) ->
  exists rest, nodes = seen ++ rest.
Proof.
  induction nodes as [|n rest IH]; simpl; intros arg st seen H.
  - inversion H; subst. now exists [].
  - apply bind_ret_inv in H as ([answer arg1] & Hv & H).
    destruct answer.
    + apply bind_ret_inv in H as ([st2 seen2] & Hw & H).
      inversion H; subst. apply IH in Hw as [r ->]. now exists r.
    + inversion H; subst. now exists rest.
Qed.

(** At most [max 1 limit] calls. *)
Lemma walk_budget nodes : forall arg st seen,
  picl_walk_tree_by_class (CPUVisitor.visit ae lib) nodes arg = Ret (st, seen) ->
  Z.of_nat (List.length seen) <= Z.max 1 (CPUVisitor._limit (fst arg)).
Proof.
  induction nodes as [|n rest IH]; simpl; intros arg st seen H.
  - inversion H; subst; simpl. lia.
  - apply bind_ret_inv in H as ([answer arg1] & Hv & H).
    destruct answer.
    + apply bind_ret_inv in H as ([st2 seen2] & Hw & H).
      inversion H; subst.
      apply cpu_visit_continue in Hv as (_ & El & Hpos).
      apply IH in Hw. simpl List.length. lia.
    + inversion H; subst; simpl. lia.
Qed.

(** Once both trackers are inconsistent the callback is not run again. *)
Lemma walk_stops pre : forall nodeh post arg st,
  picl_walk_tree_by_class (CPUVisitor.visit ae lib) (pre ++ [nodeh]) arg
    = Ret (st, pre ++ [nodeh]) ->
  both_inconsistent (fst st) = true ->
  picl_walk_tree_by_class (CPUVisitor.visit ae lib) (pre ++ nodeh :: post) arg
    = Ret (st, pre ++ [nodeh]).
Proof.
  induction pre as [|p pre IH]; simpl; intros nodeh post arg st H Hboth.
  - apply bind_ret_inv in H as ([answer arg1] & Hv & H).
    rewrite Hv; simpl.
    destruct answer; simpl in H; inversion H; subst; [|reflexivity].
    apply cpu_visit_continue in Hv as (Hno & _). congruence.
  - apply bind_ret_inv in H as ([answer arg1] & Hv & H).
    rewrite Hv; simpl. destruct answer.
    + apply bind_ret_inv in H as ([st2 seen2] & Hw & H).
      inversion H; subst.
      now rewrite (IH _ post _ _ Hw Hboth).
    + inversion H as [[E1 E2]]. destruct pre; discriminate.
Qed.

(** With the static set, a call leaves it alone and hands the L2 tracker
    the guarded call under that name. *)
Lemma cpu_visit_memoized nodeh c nm answer arg1 :
  CPUVisitor.visit ae lib nodeh (c, Some nm) = Ret (answer, arg1) ->
  snd arg1 = Some nm /\
  CPUVisitor.visit_unless_inconsistent ae lib (CPUVisitor.l2_visitor c) nodeh nm
    = Ret (CPUVisitor.l2_visitor (fst arg1)).
Proof.
  intros H. apply cpu_visit_inv in H as (_ & Hl2 & _).
  unfold CPUVisitor.visit_l2 in Hl2.
  apply bind_ret_inv in Hl2 as (l2a & Hg & H).
  inversion H; subst. now split.
Qed.

Lemma walk_memoized nm nodes : forall c st seen,
  picl_walk_tree_by_class (CPUVisitor.visit ae lib) nodes (c, Some nm) = Ret (st, seen) ->
  snd st = Some nm /\
  visit_nodes ae lib nm seen (CPUVisitor.l2_visitor c)
    = Ret (CPUVisitor.l2_visitor (fst st)).
Proof.
  induction nodes as [|n rest IH]; simpl; intros c st seen H.
  - inversion H; subst; simpl. now split.
  - apply bind_ret_inv in H as ([answer [c1 memo1]] & Hv & H).
    apply cpu_visit_memoized in Hv as (Em & Hg). simpl in Em, Hg; subst memo1.
    destruct answer.
    + apply bind_ret_inv in H as ([st2 seen2] & Hw & H).
      inversion H; subst. apply IH in Hw as (Es & Hn).
      split; [exact Es|]. simpl. now rewrite Hg.
    + inversion H; subst; simpl. split; [reflexivity|]. now rewrite Hg.
Qed.

End Walk.

(** ** The probe stops at compiled-in assertions only *)

Lemma returns_bind {A B : Type} (m : run A) (k : A -> run B) :
  returns m = true ->
  (forall a, m = Ret a -> returns (k a) = true) ->
  returns (run_bind m k) = true.
Proof.
  destruct m as [a|e]; simpl; intros Hm Hk; [now apply Hk | discriminate].
Qed.

Lemma stops_bind {A B : Type} (ae : string -> bool) (m : run A) (k : A -> run B) :
  stops_at_enabled_assert ae m = true ->
  (forall a, m = Ret a -> stops_at_enabled_assert ae (k a) = true) ->
  stops_at_enabled_assert ae (run_bind m k) = true.
Proof.
  destruct m as [a|e]; simpl; intros Hm Hk; [now apply Hk | exact Hm].
Qed.

Lemma stops_assert (ae : string -> bool) (cond : bool) (msg : string) :
  stops_at_enabled_assert ae (assert_ ae cond msg) = true.
Proof.
  unfold assert_. destruct (ae msg) eqn:E; destruct cond; simpl; auto.
Qed.

(** In a product build nothing of the kind stops the run. *)
Lemma stops_product {A : Type} (r : run A) :
  stops_at_enabled_assert product_build r = true -> returns r = true.
Proof. destruct r as [a|[m|m]]; simpl; auto. Qed.

(** With only the tracker preconditions compiled in, a run that does not
    stop at one of them returns. *)
Lemma stops_preconditions_only {A : Type} (r : run A) :
  stops_at_enabled_assert preconditions_only r = true ->
  raises r "Precondition" = false ->
  returns r = true.
Proof.
  destruct r as [a|[m|m]]; simpl; auto.
  unfold preconditions_only. congruence.
Qed.

Section Stops.
Variable ae : string -> bool.
Variable lib : libpicl.

Ltac stop_assert := apply stops_bind; [apply stops_assert | intros _ _].

Lemma get_int_property_stops nodeh nm :
  stops_at_enabled_assert ae (get_int_property ae lib nodeh nm) = true.
Proof.
  unfold get_int_property.
  destruct (picl_get_prop_by_name lib nodeh nm) as [proph|]; [|reflexivity].
  destruct (picl_get_propinfo lib proph) as [pinfo|]; [|reflexivity].
  destruct (_ && _); [stop_assert; reflexivity|].
  destruct (size pinfo =? 8).
  - now destruct (picl_get_propval lib proph 8).
  - destruct (size pinfo =? 4); [|stop_assert; reflexivity].
    now destruct (picl_get_propval lib proph 4).
Qed.

Lemma visit_stops v nodeh nm :
  stops_at_enabled_assert ae (UniqueValueVisitor.visit ae lib v nodeh nm) = true.
Proof.
  unfold UniqueValueVisitor.visit.
  stop_assert.
  apply stops_bind; [apply get_int_property_stops|]. intros r _.
  destruct r as [curr|]; [|reflexivity].
  destruct (negb _).
  - apply stops_bind; [|reflexivity].
    unfold UniqueValueVisitor.set_value. stop_assert. reflexivity.
  - apply stops_bind.
    + unfold UniqueValueVisitor.value. stop_assert. reflexivity.
    + intros old _. now destruct (negb _).
Qed.

Lemma guarded_visit_stops v nodeh nm :
  stops_at_enabled_assert ae (CPUVisitor.visit_unless_inconsistent ae lib v nodeh nm) = true.
Proof.
  unfold CPUVisitor.visit_unless_inconsistent.
  destruct (negb _); [|reflexivity].
  apply stops_bind; [apply visit_stops | now intros [? ?] _].
Qed.

Lemma cpu_visit_stops nodeh arg :
  stops_at_enabled_assert ae (CPUVisitor.visit ae lib nodeh arg) = true.
Proof.
  destruct arg as [c memo]. unfold CPUVisitor.visit.
  apply stops_bind; [apply guarded_visit_stops|]. intros l1 _.
  apply stops_bind.
  - unfold CPUVisitor.visit_l2. destruct memo as [nm|].
    + apply stops_bind; [apply guarded_visit_stops | reflexivity].
    + stop_assert.
      apply stops_bind; [apply visit_stops|].
      intros [found l2a] _. destruct found; simpl; [reflexivity|].
      apply stops_bind; [apply visit_stops | now intros [? ?] _].
  - intros [l2 memo1] _. destruct (_ && _); [reflexivity|].
    now destruct (_ <=? _).
Qed.

Lemma walk_stops_enabled nodes : forall arg,
  stops_at_enabled_assert ae
    (picl_walk_tree_by_class (CPUVisitor.visit ae lib) nodes arg) = true.
Proof.
  induction nodes as [|n rest IH]; intros arg; simpl; [reflexivity|].
  apply stops_bind; [apply cpu_visit_stops|].
  intros [answer arg1] _. destruct answer; [|reflexivity].
  apply stops_bind; [apply IH | now intros [? ?] _].
Qed.

End Stops.

Lemma walk_cpus_stops (ae : string -> bool) (d : dl_env) (count u1 u2 : Z)
    (is_fujitsu is_sun4v : bool) (rooth : picl_nodehdl_t) (memo : option string) :
  stops_at_enabled_assert ae
    (PICL.walk_cpus ae d count u1 u2 is_fujitsu is_sun4v rooth memo) = true.
Proof.
  unfold PICL.walk_cpus.
  apply stops_bind; [apply walk_stops_enabled | now intros [? ?] _].
Qed.

Lemma picl_new_stops (ae : string -> bool) (d : dl_env) (count u1 u2 : Z)
    (is_fujitsu is_sun4v : bool) (memo : option string) :
  stops_at_enabled_assert ae
    (PICL.new ae d count u1 u2 is_fujitsu is_sun4v memo) = true.
Proof.
  assert (Hclose : forall this, stops_at_enabled_assert ae (PICL.close_library ae this) = true).
  { intros this. unfold PICL.close_library.
    apply stops_bind; [apply stops_assert | reflexivity]. }
  unfold PICL.new.
  apply stops_bind.
  - unfold PICL.open_library. destruct (negb _); [reflexivity|].
    apply stops_bind.
    + unfold PICL.bind_library_functions.
      apply stops_bind; [apply stops_assert | reflexivity].
    + intros bound _. destruct (negb bound); [|reflexivity].
      apply stops_bind; [apply stops_assert|]. intros _ _.
      apply stops_bind; [apply Hclose | reflexivity].
  - intros [opened this] _. destruct (negb opened); [reflexivity|].
    apply stops_bind.
    + destruct (picl_initialize (dl_picl d)); [|reflexivity].
      apply stops_bind; [|now intros [? ?] _].
      destruct (picl_get_root (dl_picl d)) as [rooth|]; [|reflexivity].
      apply stops_bind; [apply walk_cpus_stops|].
      intros [[c memo1] seen] _.
      assert (Hval : forall v dflt,
                 stops_at_enabled_assert ae
                   (if UniqueValueVisitor.is_assigned v
                    then UniqueValueVisitor.value ae v else Ret dflt) = true).
      { intros v dflt. destruct (UniqueValueVisitor.is_assigned v); [|reflexivity].
        unfold UniqueValueVisitor.value.
        apply stops_bind; [apply stops_assert | reflexivity]. }
      apply stops_bind; [apply Hval|]. intros l1 _.
      apply stops_bind; [apply Hval|]. intros l2 _.
      reflexivity.
    + intros [this1 memo1] _.
      apply stops_bind; [apply Hclose | reflexivity].
Qed.

(** The product build: the walk and the constructor always return. *)
Lemma walk_cpus_returns (d : dl_env) (count u1 u2 : Z) (is_fujitsu is_sun4v : bool)
    (rooth : picl_nodehdl_t) (memo : option string) :
  returns (PICL.walk_cpus product_build d count u1 u2 is_fujitsu is_sun4v rooth memo) = true.
Proof. apply stops_product, walk_cpus_stops. Qed.

Lemma picl_new_returns (d : dl_env) (count u1 u2 : Z) (is_fujitsu is_sun4v : bool)
    (memo : option string) :
  returns (PICL.new product_build d count u1 u2 is_fujitsu is_sun4v memo) = true.
Proof. apply stops_product, picl_new_stops. Qed.

(** ** The outcome of [UniqueValueVisitor::visit] *)

Lemma visit_inv (ae : string -> bool) (lib : libpicl) v nodeh nm found v1 :
  UniqueValueVisitor.is_inconsistent v = false ->
  UniqueValueVisitor.visit ae lib v nodeh nm = Ret (found, v1) ->
  (found = true /\
   exists curr, get_int_property ae lib nodeh nm = Ret (Some curr) /\ v1 = observe v curr) \/
  (found = false /\ get_int_property ae lib nodeh nm = Ret None /\ v1 = v).
Proof.
  intros Hinc H.
  destruct (get_int_property ae lib nodeh nm) as [[curr|]|e] eqn:Hget.
  - rewrite (visit_reading _ _ _ _ _ _ Hget Hinc) in H. inversion H; subst.
    left. split; [reflexivity|]. now exists curr.
  - rewrite (visit_no_reading _ _ _ _ _ Hget Hinc) in H. inversion H; subst.
    right. now repeat split.
  - unfold UniqueValueVisitor.visit in H.
    rewrite Hinc in H; simpl negb in H. rewrite assert_holds in H; simpl in H.
    rewrite Hget in H. discriminate.
Qed.

(** ** Bit masks *)

Lemma covers_testbit f b :
  covers f b <-> (forall i, Z.testbit b i = true -> Z.testbit f i = true).
Proof.
  unfold covers. split.
  - intros H i Hb. rewrite <- H in Hb. rewrite Z.land_spec in Hb.
    now apply andb_true_iff in Hb.
  - intros H. apply Z.bits_inj'. intros i _. rewrite Z.land_spec.
    destruct (Z.testbit b i) eqn:E; [|now rewrite andb_false_r].
    now rewrite (H i E).
Qed.

Lemma covers_refl f : covers f f.
Proof. apply Z.land_diag. Qed.

Lemma covers_trans c b a : covers c b -> covers b a -> covers c a.
Proof. rewrite !covers_testbit. auto. Qed.

Lemma covers_lor_l f m : covers (Z.lor f m) f.
Proof.
  apply covers_testbit. intros i H. rewrite Z.lor_spec, H. reflexivity.
Qed.

Lemma covers_lor_r f m : covers (Z.lor m f) f.
Proof. rewrite Z.lor_comm. apply covers_lor_l. Qed.

Lemma covers_lor_mono s t x y : covers s x -> covers t y -> covers (Z.lor s t) (Z.lor x y).
Proof.
  rewrite !covers_testbit. intros Hx Hy i. rewrite !Z.lor_spec.
  intros H. apply orb_true_iff in H as [H|H]; apply orb_true_iff; auto.
Qed.

Lemma covers_zero s : covers s 0.
Proof. apply Z.land_0_r. Qed.

Lemma or_if_set_covers av bit f m : covers (VM_Version.or_if_set av bit f m) f.
Proof.
  unfold VM_Version.or_if_set. destruct (negb _); [apply covers_lor_l | apply covers_refl].
Qed.

Lemma or_if_set_yes av bit f m :
  Z.land av bit <> 0 -> VM_Version.or_if_set av bit f m = Z.lor f m.
Proof.
  intros H. unfold VM_Version.or_if_set.
  destruct (Z.eqb_spec (Z.land av bit) 0); [contradiction | reflexivity].
Qed.

Lemma or_if_set_no av bit f m :
  Z.land av bit = 0 -> VM_Version.or_if_set av bit f m = f.
Proof. intros H. unfold VM_Version.or_if_set. now rewrite H. Qed.

(** ** The stages of platform_features only add bits *)

Section Stages.
Variable ae : string -> bool.
Variable hdr : auxv_SPARC.
Variable M : Feature_Flag_Set.
Variable os : os_env.

(** A call of [do_sysinfo] returns its input, with or without the mask. *)
Lemma do_sysinfo_inv si str f mask f1 :
  VM_Version.do_sysinfo os si str f mask = Ret f1 ->
  si_bufsize (sysinfo os si) <> -1 /\ (f1 = f \/ f1 = Z.lor f mask).
Proof.
  unfold VM_Version.do_sysinfo, guarantee.
  destruct (Z.eqb_spec (si_bufsize (sysinfo os si)) (-1)) as [E|E]; simpl;
    [discriminate|].
  intros H. split; [exact E|].
  destruct (negb _); [inversion H; auto|].
  destruct (_ =? _); [|inversion H; auto].
  destruct (String.eqb _ _); inversion H; auto.
Qed.

Lemma do_sysinfo_covers si str f mask f1 :
  VM_Version.do_sysinfo os si str f mask = Ret f1 -> covers f1 f.
Proof.
  intros H. apply do_sysinfo_inv in H as (_ & [->| ->]);
    [apply covers_refl | apply covers_lor_l].
Qed.

Ltac chain := repeat (eapply covers_trans; [apply or_if_set_covers|]).

Lemma getisax_features_covers f f1 :
  VM_Version.getisax_features ae hdr M os f = Ret f1 -> covers f1 f.
Proof.
  unfold VM_Version.getisax_features. intros H.
  apply bind_ret_inv in H as (a & Ha & H).
  apply bind_ret_inv in H as (b & Hb & H).
  apply bind_ret_inv in H as (_ & _ & H).
  inversion H; subst; clear H.
  apply do_sysinfo_covers in Ha, Hb.
  chain.
  eapply covers_trans;
    [destruct (1 <? getisax_avn os); [apply or_if_set_covers | apply covers_refl]|].
  chain.
  eapply covers_trans; [exact Hb | exact Ha].
Qed.

Lemma isalist_sparc_covers buf f : covers (VM_Version.isalist_sparc M buf f) f.
Proof.
  unfold VM_Version.isalist_sparc.
  destruct (strstr buf "sparc") as [s|]; [|apply covers_refl].
  repeat match goal with
         | |- context [if ?c then _ else _] => destruct c
         end;
    repeat (eapply covers_trans; [apply covers_lor_l|]); apply covers_refl.
Qed.

Lemma isalist_vis_covers buf f : covers (VM_Version.isalist_vis M buf f) f.
Proof.
  unfold VM_Version.isalist_vis.
  destruct (strstr buf "vis") as [s|]; [|apply covers_refl].
  destruct (Ascii.eqb _ _);
    repeat (eapply covers_trans; [apply covers_lor_l|]); apply covers_refl.
Qed.

Lemma isalist_features_covers f : covers (VM_Version.isalist_features M os f) f.
Proof.
  unfold VM_Version.isalist_features.
  destruct (si_malloc _); [|apply covers_refl].
  destruct (_ =? _); [|apply covers_refl].
  eapply covers_trans; [apply isalist_vis_covers | apply isalist_sparc_covers].
Qed.

Lemma family_features_covers impl f :
  covers (fst (VM_Version.family_features M impl f)) f.
Proof.
  unfold VM_Version.family_features.
  repeat match goal with
         | |- context [if ?c then _ else _] => destruct c
         end; simpl;
    repeat (eapply covers_trans; [apply covers_lor_l|]); apply covers_refl.
Qed.

Lemma scan_cpu_info_covers knm : forall impl f,
  covers (fst (VM_Version.scan_cpu_info M knm impl f)) f.
Proof.
  induction knm as [|k rest IH]; intros impl f; simpl; [apply covers_refl|].
  destruct (String.eqb _ _); [apply family_features_covers | apply IH].
Qed.

Lemma kstat_features_covers f f1 :
  VM_Version.kstat_features ae M os f = Ret f1 -> covers f1 f.
Proof.
  unfold VM_Version.kstat_features.
  destruct (kstat_lookup os) as [ksp|].
  - destruct (kstat_read os).
    + destruct (ks_data ksp) as [knm|].
      * pose proof (scan_cpu_info_covers knm "UNKNOWN" f) as Hc.
        destruct (VM_Version.scan_cpu_info M knm "UNKNOWN" f) as [f2 impl].
        intros H. apply bind_ret_inv in H as (_ & _ & H). now inversion H; subst.
      * intros H. apply bind_ret_inv in H as (_ & _ & H). inversion H. apply covers_refl.
    + intros H. apply bind_ret_inv in H as (_ & _ & H). inversion H. apply covers_refl.
  - intros H. apply bind_ret_inv in H as (_ & _ & H). inversion H. apply covers_refl.
Qed.

Lemma assemble_features_covers f f1 :
  VM_Version.assemble_features ae hdr M os f = Ret f1 -> covers f1 f.
Proof.
  unfold VM_Version.assemble_features. intros H.
  apply bind_ret_inv in H as (a & Ha & H).
  apply bind_ret_inv in H as (b & Hb & H).
  apply kstat_features_covers in H. apply do_sysinfo_covers in Hb.
  eapply covers_trans; [exact H|]. eapply covers_trans; [exact Hb|].
  destruct (supports_getisax os).
  - now apply getisax_features_covers in Ha.
  - inversion Ha. apply isalist_features_covers.
Qed.

(** What [platform_features] returns, in terms of its two parts. *)
Lemma platform_features_inv (u1 u2 : Z) {Other : Type} f
    (g : VM_Version.statics Other) f1 g1 :
  VM_Version.platform_features ae hdr M os u1 u2 f g = Ret (f1, g1) ->
  VM_Version.assemble_features ae hdr M os f = Ret f1 /\
  exists picl memo1,
    VM_Version.cache_probe ae M os u1 u2 f1 (VM_Version.l2_data_cache_line_property_name g)
      = Ret (picl, memo1) /\
    g1 = {| VM_Version._L2_data_cache_line_size := PICL.L2_data_cache_line_size picl;
            VM_Version.l2_data_cache_line_property_name := memo1;
            VM_Version.other := VM_Version.other g |}.
Proof.
  unfold VM_Version.platform_features. intros H.
  apply bind_ret_inv in H as (a & Ha & H).
  apply bind_ret_inv in H as ([picl memo1] & Hp & H).
  inversion H; subst. split; [exact Ha|]. now exists picl, memo1.
Qed.

End Stages.

(** ** Binding the library *)

Section Binding.
Variable ae : string -> bool.
Variable d : dl_env.

Lemma bind_missing this h sym :
  PICL._dl_handle this = Some h ->
  In sym entry_points ->
  dlsym d h sym = false ->
  PICL.bind_library_functions ae d this = Ret false.
Proof.
  intros Hh Hin Hsym. unfold PICL.bind_library_functions, PICL.is_open, PICL.bind.
  rewrite Hh, assert_holds; simpl.
  simpl in Hin.
  repeat (destruct Hin as [<-|Hin];
          [rewrite Hsym; now rewrite ?andb_false_r, ?andb_false_l|]).
  contradiction.
Qed.

Lemma open_library_absent this :
  dlopen d "libpicl.so.1" = None ->
  PICL.open_library ae d this = Ret (false, PICL.with_dl_handle this None).
Proof.
  intros H. unfold PICL.open_library. now rewrite H.
Qed.

Lemma open_library_partial this h sym :
  dlopen d "libpicl.so.1" = Some h ->
  In sym entry_points ->
  dlsym d h sym = false ->
  PICL.open_library ae d this =
  (assert_ ae false "unexpected PICL API change" ;;
   Ret (false, PICL.with_dl_handle this None)).
Proof.
  intros Hopen Hin Hsym. unfold PICL.open_library. rewrite Hopen; simpl.
  rewrite (bind_missing (PICL.with_dl_handle this (Some h)) h sym eq_refl Hin Hsym); simpl.
  destruct (assert_ ae false "unexpected PICL API change") as [[]|e]; simpl;
    [|reflexivity].
  unfold PICL.close_library. simpl. now rewrite assert_holds.
Qed.

End Binding.

(** What the constructor leaves in the object. *)
Lemma picl_new_inv (ae : string -> bool) (d : dl_env) (count u1 u2 : Z)
    (is_fujitsu is_sun4v : bool) (memo : option string) picl memo1 :
  PICL.new ae d count u1 u2 is_fujitsu is_sun4v memo = Ret (picl, memo1) ->
  PICL._dl_handle picl = None /\
  ((PICL._L1_data_cache_line_size picl = 0 /\
    PICL._L2_data_cache_line_size picl = 0 /\ memo1 = memo) \/
   (exists rooth c seen,
      picl_get_root (dl_picl d) = Some rooth /\
      PICL.walk_cpus ae d count u1 u2 is_fujitsu is_sun4v rooth memo = Ret (c, memo1, seen) /\
      PICL._L1_data_cache_line_size picl =
        (if UniqueValueVisitor.is_assigned (CPUVisitor.l1_visitor c)
         then UniqueValueVisitor._value (CPUVisitor.l1_visitor c) else 0) /\
      PICL._L2_data_cache_line_size picl =
        (if UniqueValueVisitor.is_assigned (CPUVisitor.l2_visitor c)
         then UniqueValueVisitor._value (CPUVisitor.l2_visitor c) else 0))).
Proof.
  unfold PICL.new. intros H.
  apply bind_ret_inv in H as ([opened this] & Hopen & H).
  assert (Hthis : PICL._L1_data_cache_line_size this = 0 /\
                  PICL._L2_data_cache_line_size this = 0 /\
                  (opened = false -> PICL._dl_handle this = None)).
  { unfold PICL.open_library in Hopen.
    destruct (negb _) eqn:E.
    - inversion Hopen; subst; simpl. repeat split.
      intros _. unfold PICL.is_open in E; simpl in E.
      now destruct (dlopen d "libpicl.so.1").
    - apply bind_ret_inv in Hopen as (bound & _ & Hopen).
      destruct (negb bound).
      + apply bind_ret_inv in Hopen as (_ & _ & Hopen).
        apply bind_ret_inv in Hopen as (this2 & Hc & Hopen).
        unfold PICL.close_library in Hc.
        apply bind_ret_inv in Hc as (_ & _ & Hc).
        inversion Hc; inversion Hopen; subst; simpl. now repeat split.
      + inversion Hopen; subst; simpl. repeat split. discriminate. }
  destruct Hthis as (E1 & E2 & Eh).
  destruct opened; simpl in H.
  - apply bind_ret_inv in H as ([this1 memo2] & Hmid & H).
    apply bind_ret_inv in H as (this3 & Hc & H).
    unfold PICL.close_library in Hc.
    apply bind_ret_inv in Hc as (_ & _ & Hc).
    inversion Hc; inversion H; subst; simpl. split; [reflexivity|].
    destruct (picl_initialize (dl_picl d)).
    + apply bind_ret_inv in Hmid as ([this4 memo4] & Hroot & Hmid).
      inversion Hmid; subst.
      destruct (picl_get_root (dl_picl d)) as [rooth|].
      * apply bind_ret_inv in Hroot as ([[c memo5] seen] & Hw & Hroot).
        apply bind_ret_inv in Hroot as (l1 & Hl1 & Hroot).
        apply bind_ret_inv in Hroot as (l2 & Hl2 & Hroot).
        inversion Hroot; subst; simpl.
        right. exists rooth, c, seen. split; [reflexivity|]. split; [exact Hw|].
        rewrite E1 in Hl1. rewrite E2 in Hl2.
        destruct (UniqueValueVisitor.is_assigned (CPUVisitor.l1_visitor c));
          destruct (UniqueValueVisitor.is_assigned (CPUVisitor.l2_visitor c));
          unfold UniqueValueVisitor.value in Hl1, Hl2;
          repeat match goal with
                 | Hx : run_bind _ _ = Ret _ |- _ =>
                   apply bind_ret_inv in Hx as (_ & _ & Hx)
                 end;
          inversion Hl1; inversion Hl2; subst; now split.
      * inversion Hroot; subst. left. now repeat split.
    + inversion Hmid; subst. left. now repeat split.
  - inversion H; subst. split; [now apply Eh|]. left. now repeat split.
Qed.

(** ** Substring search *)

Lemma prefix_trans a : forall b c,
  String.prefix a b = true -> String.prefix b c = true -> String.prefix a c = true.
Proof.
  induction a as [|x a IH]; intros b c Hab Hbc; [now destruct c|].
  destruct b as [|y b]; [discriminate|].
  destruct c as [|z c]; [discriminate|].
  simpl in *.
  destruct (ascii_dec x y) as [->|]; [|discriminate].
  destruct (ascii_dec y z) as [->|]; [|discriminate].
  eauto.
Qed.

Lemma strstr_unfold haystack needle :
  strstr haystack needle =
  if String.prefix needle haystack then Some haystack
  else match haystack with
       | EmptyString => None
       | String _ rest => strstr rest needle
       end.
Proof. now destruct haystack. Qed.

(** A string that contains a marker contains every prefix of the marker. *)
Lemma contains_prefix marker longer s :
  String.prefix marker longer = true ->
  contains s longer = true -> contains s marker = true.
Proof.
  intros Hp. unfold contains. induction s as [|c s IH];
    rewrite (strstr_unfold _ longer), (strstr_unfold _ marker).
  - destruct (String.prefix longer EmptyString) eqn:E; [|discriminate].
    now rewrite (prefix_trans _ _ _ Hp E).
  - destruct (String.prefix longer (String c s)) eqn:E.
    + now rewrite (prefix_trans _ _ _ Hp E).
    + intros H. destruct (String.prefix marker (String c s)); [reflexivity | auto].
Qed.

(** ** What each source adds *)

Lemma covers_join s x y : covers s x -> covers s y -> covers s (Z.lor x y).
Proof.
  rewrite !covers_testbit. intros Hx Hy i. rewrite Z.lor_spec.
  intros H. apply orb_true_iff in H as [H|H]; auto.
Qed.

Lemma covers_left s t x : covers s x -> covers (Z.lor s t) x.
Proof. intros H. eapply covers_trans; [apply covers_lor_l | exact H]. Qed.

Lemma covers_right s t x : covers t x -> covers (Z.lor s t) x.
Proof. intros H. eapply covers_trans; [apply covers_lor_r | exact H]. Qed.

Create HintDb masks.
#[local] Hint Resolve covers_refl covers_zero covers_join covers_left covers_right : masks.

Section Gains.
Variable ae : string -> bool.
Variable hdr : auxv_SPARC.
Variable M : Feature_Flag_Set.
Variable os : os_env.

Lemma do_sysinfo_gain si str f mask f1 :
  VM_Version.do_sysinfo os si str f mask = Ret f1 ->
  exists x, f1 = Z.lor f x /\ covers mask x.
Proof.
  intros H. apply do_sysinfo_inv in H as (_ & [->| ->]).
  - exists 0. rewrite Z.lor_0_r. auto with masks.
  - exists mask. auto with masks.
Qed.

Lemma family_features_gain impl f :
  exists x,
    fst (VM_Version.family_features M impl f) = Z.lor f x /\
    covers (Z.lor (Z.lor (Z.lor (sparc64_family_m M) (M_family_m M)) (T_family_m M))
                  (T1_model_m M)) x.
Proof.
  unfold VM_Version.family_features.
  destruct (VM_Version.is_found (strstr (upcase impl) "SPARC64")); simpl.
  { exists (sparc64_family_m M). auto 6 with masks. }
  destruct (VM_Version.is_found (strstr (upcase impl) "SPARC-M")); simpl.
  { exists (Z.lor (M_family_m M) (T_family_m M)). auto 8 with masks. }
  destruct (VM_Version.is_found (strstr (upcase impl) "SPARC-T")); simpl.
  { destruct (VM_Version.is_found (strstr (upcase impl) "SPARC-T1")); simpl.
    - exists (Z.lor (T_family_m M) (T1_model_m M)).
      rewrite Z.lor_assoc. auto 8 with masks.
    - exists (T_family_m M). auto 6 with masks. }
  exists 0. rewrite Z.lor_0_r.
  destruct (negb _); simpl; auto with masks.
Qed.

Lemma scan_cpu_info_gain knm : forall impl f,
  exists x,
    fst (VM_Version.scan_cpu_info M knm impl f) = Z.lor f x /\
    covers (Z.lor (Z.lor (Z.lor (sparc64_family_m M) (M_family_m M)) (T_family_m M))
                  (T1_model_m M)) x.
Proof.
  induction knm as [|k rest IH]; intros impl f; simpl.
  - exists 0. rewrite Z.lor_0_r. auto with masks.
  - destruct (String.eqb _ _); [apply family_features_gain | apply IH].
Qed.

Lemma kstat_features_gain f f1 :
  VM_Version.kstat_features ae M os f = Ret f1 ->
  exists x,
    f1 = Z.lor f x /\
    covers (Z.lor (Z.lor (Z.lor (sparc64_family_m M) (M_family_m M)) (T_family_m M))
                  (T1_model_m M)) x.
Proof.
  assert (Hnone : exists x, f = Z.lor f x /\
            covers (Z.lor (Z.lor (Z.lor (sparc64_family_m M) (M_family_m M))
                                 (T_family_m M)) (T1_model_m M)) x).
  { exists 0. rewrite Z.lor_0_r. auto with masks. }
  unfold VM_Version.kstat_features.
  destruct (kstat_lookup os) as [ksp|].
  - destruct (kstat_read os).
    + destruct (ks_data ksp) as [knm|].
      * destruct (scan_cpu_info_gain knm "UNKNOWN" f) as (x & E & Hx).
        destruct (VM_Version.scan_cpu_info M knm "UNKNOWN" f) as [f2 impl].
        intros H. apply bind_ret_inv in H as (_ & _ & H). inversion H; subst.
        now exists x.
      * intros H. apply bind_ret_inv in H as (_ & _ & H). now inversion H; subst.
    + intros H. apply bind_ret_inv in H as (_ & _ & H). now inversion H; subst.
  - intros H. apply bind_ret_inv in H as (_ & _ & H). now inversion H; subst.
Qed.

(** With the capability word of [reports_mul_div_vis1_vis2], the getisax
    branch adds the architecture bits and the four feature bits. *)
Lemma getisax_features_four f f1 :
  reports_mul_div_vis1_vis2 hdr os ->
  VM_Version.getisax_features ae hdr M os f = Ret f1 ->
  exists arch,
    f1 = Z.lor (Z.lor f arch) (mul_div_vis1_vis2_m M) /\
    covers (Z.lor (v8_instructions_m M) (generic_v9_m M)) arch.
Proof.
  intros (Hmul & Hdiv & Hvis & Hvis2 & Hfs & Hv8p & Hpopc & Hrest & Hav2) H.
  unfold VM_Version.getisax_features in H.
  apply bind_ret_inv in H as (a & Ha & H).
  apply bind_ret_inv in H as (b & Hb & H).
  apply bind_ret_inv in H as (_ & _ & H).
  apply do_sysinfo_gain in Ha as (x & -> & Hx).
  apply do_sysinfo_gain in Hb as (y & -> & Hy).
  repeat match goal with
         | Hf : Forall _ (_ :: _) |- _ => inversion Hf; subst; clear Hf
         end.
  rewrite (or_if_set_yes _ _ _ _ Hmul), (or_if_set_yes _ _ _ _ Hdiv) in H.
  rewrite (or_if_set_no _ _ _ _ Hfs), (or_if_set_no _ _ _ _ Hv8p),
    (or_if_set_no _ _ _ _ Hpopc) in H.
  rewrite (or_if_set_yes _ _ _ _ Hvis), (or_if_set_yes _ _ _ _ Hvis2) in H.
  assert (Eav2 : (if 1 <? getisax_avn os
                  then VM_Version.or_if_set (getisax_avs1 os) AV2_SPARC_SPARC5
                         (Z.lor (Z.lor (Z.lor (Z.lor (Z.lor (Z.lor f x) y)
                            (hardware_mul32_m M)) (hardware_div32_m M))
                            (vis1_instructions_m M)) (vis2_instructions_m M))
                         (sparc5_instructions_m M)
                  else Z.lor (Z.lor (Z.lor (Z.lor (Z.lor (Z.lor f x) y)
                            (hardware_mul32_m M)) (hardware_div32_m M))
                            (vis1_instructions_m M)) (vis2_instructions_m M))
                 = Z.lor (Z.lor (Z.lor (Z.lor (Z.lor (Z.lor f x) y)
                            (hardware_mul32_m M)) (hardware_div32_m M))
                            (vis1_instructions_m M)) (vis2_instructions_m M)).
  { destruct (Z.ltb_spec 1 (getisax_avn os)); [|reflexivity].
    destruct Hav2 as [Hn|Hz]; [lia|]. now apply or_if_set_no. }
  rewrite Eav2 in H.
  rewrite !or_if_set_no in H by assumption.
  inversion H; subst. exists (Z.lor x y). split.
  - unfold mul_div_vis1_vis2_m. now rewrite !Z.lor_assoc.
  - auto with masks.
Qed.

End Gains.

(** ** The implementation string of the cpu_info record *)

Lemma scan_cpu_info_first (M : Feature_Flag_Set) pre : forall k post impl f,
  Forall (fun e => String.eqb (name e) "implementation" = false) pre ->
  name k = "implementation" ->
  data_type k = KSTAT_DATA_CHAR \/ data_type k = KSTAT_DATA_STRING ->
  VM_Version.scan_cpu_info M (pre ++ k :: post) impl f
  = VM_Version.family_features M (value k) f.
Proof.
  induction pre as [|e pre IH]; intros k post impl f Hpre Hname Htype; simpl.
  - rewrite Hname; simpl. now destruct Htype as [-> | ->].
  - inversion Hpre as [|? ? He Hrest]; subst. rewrite He. now apply IH.
Qed.

Lemma kstat_features_read (ae : string -> bool) (M : Feature_Flag_Set) (os : os_env)
    (s : string) (f : Z) :
  reads_implementation os s ->
  VM_Version.kstat_features ae M os f
  = (assert_ ae (negb (String.eqb (snd (VM_Version.family_features M s f)) "UNKNOWN"))
       "unknown cpu info (changed kstat interface?)" ;;
     Ret (fst (VM_Version.family_features M s f))).
Proof.
  intros (ksp & pre & k & post & Hl & Hr & Hd & Hpre & Hname & Htype & <-).
  unfold VM_Version.kstat_features. rewrite Hl, Hr, Hd.
  rewrite (scan_cpu_info_first M pre k post _ _ Hpre Hname Htype).
  now destruct (VM_Version.family_features M (value k) f).
Qed.

Lemma family_features_m_series (M : Feature_Flag_Set) (implementation : string) (f : Z) :
  contains (upcase implementation) "SPARC64" = false ->
  contains (upcase implementation) "SPARC-M" = true ->
  VM_Version.family_features M implementation f
  = (Z.lor f (Z.lor (M_family_m M) (T_family_m M)), implementation).
Proof.
  unfold contains. intros H64 HM.
  unfold VM_Version.family_features. now rewrite H64, HM.
Qed.

Lemma family_features_t1 (M : Feature_Flag_Set) (implementation : string) (f : Z) :
  contains (upcase implementation) "SPARC64" = false ->
  contains (upcase implementation) "SPARC-M" = false ->
  contains (upcase implementation) "SPARC-T1" = true ->
  VM_Version.family_features M implementation f
  = (Z.lor (Z.lor f (T_family_m M)) (T1_model_m M), implementation).
Proof.
  intros H64 HM HT1.
  assert (HT : contains (upcase implementation) "SPARC-T" = true).
  { apply (contains_prefix "SPARC-T" "SPARC-T1"); [reflexivity | exact HT1]. }
  unfold contains in *.
  unfold VM_Version.family_features. now rewrite H64, HM, HT, HT1.
Qed.

(** A string with one of the markers is not the placeholder. *)
Lemma marked_is_known (implementation marker : string) :
  contains (upcase "UNKNOWN") marker = false ->
  contains (upcase implementation) marker = true ->
  String.eqb implementation "UNKNOWN" = false.
Proof.
  intros Hno Hyes. destruct (String.eqb_spec implementation "UNKNOWN") as [->|];
    [congruence | reflexivity].
Qed.

(** ** The product build: platform_features returns when sysinfo answers *)

Lemma do_sysinfo_returns (os : os_env) si str f mask :
  si_bufsize (sysinfo os si) <> -1 ->
  returns (VM_Version.do_sysinfo os si str f mask) = true.
Proof.
  intros H. unfold VM_Version.do_sysinfo, guarantee.
  destruct (Z.eqb_spec (si_bufsize (sysinfo os si)) (-1)); [contradiction|]. simpl.
  destruct (negb _); [reflexivity|].
  destruct (_ =? _); [|reflexivity].
  now destruct (String.eqb _ _).
Qed.

Lemma platform_features_returns (hdr : auxv_SPARC) (M : Feature_Flag_Set) (os : os_env)
    (u1 u2 : Z) (Other : Type) (baseline : Z) (g : VM_Version.statics Other) :
  (supports_getisax os = true ->
   si_bufsize (sysinfo os SI_ARCHITECTURE_32) <> -1 /\
   si_bufsize (sysinfo os SI_ARCHITECTURE_64) <> -1) ->
  si_bufsize (sysinfo os SI_MACHINE) <> -1 ->
  returns (VM_Version.platform_features product_build hdr M os u1 u2 baseline g) = true.
Proof.
  intros Harch Hmach. unfold VM_Version.platform_features.
  apply returns_bind.
  - unfold VM_Version.assemble_features.
    apply returns_bind.
    + destruct (supports_getisax os); [|reflexivity].
      destruct (Harch eq_refl) as [H32 H64].
      unfold VM_Version.getisax_features.
      apply returns_bind; [now apply do_sysinfo_returns|]. intros a _.
      apply returns_bind; [now apply do_sysinfo_returns|]. intros b _.
      reflexivity.
    + intros a _. apply returns_bind; [now apply do_sysinfo_returns|]. intros b _.
      unfold VM_Version.kstat_features.
      destruct (match kstat_lookup os with Some _ => _ | None => _ end). reflexivity.
  - intros f _. apply returns_bind; [apply picl_new_returns|]. now intros [? ?] _.
Qed.

(** ** How far the walk goes *)

Section Coverage.
Variable ae : string -> bool.
Variable lib : libpicl.

Lemma walk_coverage nodes : forall arg st seen,
  picl_walk_tree_by_class (CPUVisitor.visit ae lib) nodes arg = Ret (st, seen) ->
  both_inconsistent (fst st) = true \/
  seen = firstn (Z.to_nat (Z.max 1 (CPUVisitor._limit (fst arg)))) nodes.
Proof.
  induction nodes as [|n rest IH]; simpl; intros arg st seen H.
  - inversion H; subst. right. now rewrite firstn_nil.
  - apply bind_ret_inv in H as ([answer arg1] & Hv & H).
    destruct answer.
    + apply bind_ret_inv in H as ([st2 seen2] & Hw & H).
      inversion H; subst.
      apply cpu_visit_continue in Hv as (_ & El & Hpos).
      apply IH in Hw as [Hb| ->]; [now left|]. right.
      replace (Z.to_nat (Z.max 1 (CPUVisitor._limit (fst arg))))
        with (S (Z.to_nat (Z.max 1 (CPUVisitor._limit (fst arg1))))) by lia.
      reflexivity.
    + inversion H; subst.
      destruct arg as [c memo].
      apply cpu_visit_inv in Hv as (_ & _ & _ & Hno).
      destruct (both_inconsistent (fst st)); [now left|]. right.
      destruct (Hno eq_refl) as [_ Ea]. simpl.
      destruct (Z.leb_spec (CPUVisitor._limit c - 1) 0); [|discriminate].
      replace (Z.to_nat (Z.max 1 (CPUVisitor._limit c))) with 1%nat by lia.
      reflexivity.
Qed.

Lemma walk_starts nodes arg st seen :
  picl_walk_tree_by_class (CPUVisitor.visit ae lib) nodes arg = Ret (st, seen) ->
  nodes <> [] -> seen <> [].
Proof.
  destruct nodes as [|n rest]; [congruence|]. simpl. intros H _.
  apply bind_ret_inv in H as ([answer arg1] & _ & H).
  destruct answer.
  - apply bind_ret_inv in H as ([st2 seen2] & _ & H). inversion H; discriminate.
  - inversion H; discriminate.
Qed.

End Coverage.

(** ** The trackers over the nodes of the walk *)

Lemma open_library_bound (ae : string -> bool) (d : dl_env) (this : PICL.t) (h : Z) :
  dlopen d "libpicl.so.1" = Some h ->
  Forall (fun sym => dlsym d h sym = true) entry_points ->
  PICL.open_library ae d this = Ret (true, PICL.with_dl_handle this (Some h)).
Proof.
  intros Hopen Hall. unfold PICL.open_library. rewrite Hopen; simpl.
  unfold PICL.bind_library_functions, PICL.is_open, PICL.bind; simpl.
  rewrite assert_holds; simpl.
  unfold entry_points in Hall.
  repeat match goal with
         | Hf : Forall _ (_ :: _) |- _ => inversion Hf as [|? ? ?E ?]; subst; clear Hf
         end.
  repeat match goal with
         | Hs : dlsym d h _ = true |- _ => rewrite Hs; clear Hs
         end.
  reflexivity.
Qed.

(** What the constructor returns once the walk is reached. *)
Lemma picl_new_walk (ae : string -> bool) (d : dl_env) (count u1 u2 : Z)
    (is_fujitsu is_sun4v : bool) (memo : option string) (rooth : picl_nodehdl_t)
    picl memo1 :
  walk_is_reached d rooth ->
  PICL.new ae d count u1 u2 is_fujitsu is_sun4v memo = Ret (picl, memo1) ->
  exists c seen,
    PICL.walk_cpus ae d count u1 u2 is_fujitsu is_sun4v rooth memo = Ret (c, memo1, seen) /\
    PICL._L1_data_cache_line_size picl =
      (if UniqueValueVisitor.is_assigned (CPUVisitor.l1_visitor c)
       then UniqueValueVisitor._value (CPUVisitor.l1_visitor c) else 0) /\
    PICL._L2_data_cache_line_size picl =
      (if UniqueValueVisitor.is_assigned (CPUVisitor.l2_visitor c)
       then UniqueValueVisitor._value (CPUVisitor.l2_visitor c) else 0).
Proof.
  intros ((h & Hopen & Hall) & Hinit & Hroot) H.
  unfold PICL.new in H.
  rewrite (open_library_bound ae d _ h Hopen Hall) in H. simpl in H.
  rewrite Hinit, Hroot in H.
  apply bind_ret_inv in H as ([this1 memo2] & Hmid & H).
  apply bind_ret_inv in H as (this3 & Hc & H).
  apply bind_ret_inv in Hmid as ([this4 memo4] & Hw & Hmid).
  apply bind_ret_inv in Hw as ([[c memo5] seen] & Hw & Hrest).
  apply bind_ret_inv in Hrest as (l1 & Hl1 & Hrest).
  apply bind_ret_inv in Hrest as (l2 & Hl2 & Hrest).
  unfold PICL.close_library in Hc.
  apply bind_ret_inv in Hc as (_ & _ & Hc).
  inversion Hrest; inversion Hmid; inversion Hc; inversion H; subst; simpl in *.
  exists c, seen. split; [exact Hw|].
  destruct (UniqueValueVisitor.is_assigned (CPUVisitor.l1_visitor c));
    destruct (UniqueValueVisitor.is_assigned (CPUVisitor.l2_visitor c));
    unfold UniqueValueVisitor.value in Hl1, Hl2;
    repeat match goal with
           | Hx : run_bind _ _ = Ret _ |- _ =>
             apply bind_ret_inv in Hx as (_ & _ & Hx)
           end;
    inversion Hl1; inversion Hl2; subst; now split.
Qed.

Section TrackersOfTheWalk.
Variable ae : string -> bool.
Variable lib : libpicl.

(** The L1 tracker receives the guarded call for the L1 property of each
    node the callback runs on. *)
Lemma walk_l1 nodes : forall c memo st seen,
  picl_walk_tree_by_class (CPUVisitor.visit ae lib) nodes (c, memo) = Ret (st, seen) ->
  visit_nodes ae lib "l1-dcache-line-size" seen (CPUVisitor.l1_visitor c)
  = Ret (CPUVisitor.l1_visitor (fst st)).
Proof.
  induction nodes as [|n rest IH]; intros c memo st seen H;
    cbn [picl_walk_tree_by_class] in H.
  - now inversion H; subst.
  - apply bind_ret_inv in H as ([answer [c1 memo1]] & Hv & H).
    apply cpu_visit_inv in Hv as (Hl1 & _). simpl in Hl1.
    destruct answer.
    + apply bind_ret_inv in H as ([st2 seen2] & Hw & H).
      inversion H; subst. simpl. rewrite Hl1; simpl. now apply IH in Hw.
    + inversion H; subst. simpl. now rewrite Hl1.
Qed.

(** The L2 tracker: the first node goes through the choice of the name,
    the later ones get the guarded call under the name then in the
    static. *)
Lemma walk_l2 nodes c memo st seen :
  picl_walk_tree_by_class (CPUVisitor.visit ae lib) nodes (c, memo) = Ret (st, seen) ->
  match seen with
  | [] => st = (c, memo)
  | first :: more =>
    exists l2a nm,
      CPUVisitor.visit_l2 ae lib memo (CPUVisitor.l2_visitor c) first = Ret (l2a, Some nm) /\
      snd st = Some nm /\
      visit_nodes ae lib nm more l2a = Ret (CPUVisitor.l2_visitor (fst st))
  end.
Proof.
  destruct nodes as [|n rest]; intros H; cbn [picl_walk_tree_by_class] in H.
  - now inversion H; subst.
  - apply bind_ret_inv in H as ([answer [c1 memo1]] & Hv & H).
    pose proof (cpu_visit_memo _ _ _ _ _ _ Hv) as Hm. simpl in Hm.
    apply cpu_visit_inv in Hv as (_ & Hl2 & _). simpl in Hl2.
    destruct memo1 as [nm|]; [clear Hm|congruence].
    destruct answer.
    + apply bind_ret_inv in H as ([st2 seen2] & Hw & H).
      inversion H; subst.
      apply walk_memoized in Hw as (Es & Hn).
      now exists (CPUVisitor.l2_visitor c1), nm.
    + inversion H; subst. now exists (CPUVisitor.l2_visitor c1), nm.
Qed.

(** A tracker that is ASSIGNED with [x] stays so over nodes that all read
    [x]. *)
Lemma visit_nodes_same nm x nodes : forall v,
  Forall (fun nodeh => get_int_property ae lib nodeh nm = Ret (Some x)) nodes ->
  UniqueValueVisitor._state v = UniqueValueVisitor.ASSIGNED ->
  UniqueValueVisitor._value v = x ->
  visit_nodes ae lib nm nodes v = Ret v.
Proof.
  induction nodes as [|n rest IH]; intros v Hall Hst Hval; [reflexivity|].
  inversion Hall as [|? ? Hn Hrest]; subst. simpl.
  rewrite (guarded_visit_reading _ _ _ _ _ _ Hn); simpl.
  assert (E : observe v (UniqueValueVisitor._value v) = v).
  { unfold observe. now rewrite Hst, Z.eqb_refl. }
  rewrite E. now apply IH.
Qed.

(** A fresh tracker over at least one node, all nodes reading [x]. *)
Lemma visit_nodes_uniform nm x nodes u :
  nodes <> [] ->
  Forall (fun nodeh => get_int_property ae lib nodeh nm = Ret (Some x)) nodes ->
  visit_nodes ae lib nm nodes (UniqueValueVisitor.new u)
  = Ret {| UniqueValueVisitor._state := UniqueValueVisitor.ASSIGNED;
           UniqueValueVisitor._value := x |}.
Proof.
  destruct nodes as [|n rest]; [congruence|]. intros _ Hall.
  inversion Hall as [|? ? Hn Hrest]; subst. simpl.
  rewrite (guarded_visit_reading _ _ _ _ _ _ Hn); simpl.
  now apply (visit_nodes_same nm x).
Qed.

(** Where the value of an ASSIGNED tracker comes from. *)
Lemma visit_nodes_origin nm nodes : forall v v1,
  visit_nodes ae lib nm nodes v = Ret v1 ->
  UniqueValueVisitor.is_assigned v1 = true ->
  (UniqueValueVisitor.is_assigned v = true /\
   UniqueValueVisitor._value v1 = UniqueValueVisitor._value v) \/
  exists nodeh,
    In nodeh nodes /\
    get_int_property ae lib nodeh nm = Ret (Some (UniqueValueVisitor._value v1)).
Proof.
  induction nodes as [|n rest IH]; simpl; intros v v1 H Ha.
  - inversion H; subst. now left.
  - apply bind_ret_inv in H as (v2 & Hg & H).
    destruct (IH _ _ H Ha) as [[Ha2 Ev]|(m & Hin & Hm)];
      [|right; exists m; split; [now right | exact Hm]].
    unfold CPUVisitor.visit_unless_inconsistent in Hg.
    destruct (UniqueValueVisitor.is_inconsistent v) eqn:Hinc; simpl in Hg.
    + inversion Hg; subst. now left.
    + apply bind_ret_inv in Hg as ([found v3] & Hv & Hg). inversion Hg; subst.
      apply visit_inv in Hv as [(_ & curr & Hget & ->)|(_ & _ & ->)];
        [| now left | exact Hinc].
      destruct v as [[] val]; try discriminate; unfold observe in *; simpl in *.
      * right. exists n. split; [now left|]. now rewrite Ev.
      * destruct (curr =? val); [now left | discriminate].
Qed.

End TrackersOfTheWalk.

(** ** The name in the static *)

Lemma visit_l2_name (ae : string -> bool) (lib : libpicl) memo l2 nodeh l2a nm :
  CPUVisitor.visit_l2 ae lib memo l2 nodeh = Ret (l2a, Some nm) ->
  match memo with
  | Some nm0 => nm = nm0
  | None => nm = "l2-cache-line-size" \/ nm = "l2-dcache-line-size"
  end.
Proof.
  unfold CPUVisitor.visit_l2. destruct memo as [nm0|]; intros H.
  - apply bind_ret_inv in H as (? & _ & H). now inversion H.
  - apply bind_ret_inv in H as (_ & _ & H).
    apply bind_ret_inv in H as ([found x] & _ & H).
    destruct found; simpl in H.
    + inversion H; auto.
    + apply bind_ret_inv in H as ([? ?] & _ & H). inversion H; auto.
Qed.

(** ** Every step is an OR onto the incoming mask *)

Lemma or_if_set_lor av bit f x m :
  VM_Version.or_if_set av bit (Z.lor f x) m = Z.lor f (VM_Version.or_if_set av bit x m).
Proof.
  unfold VM_Version.or_if_set. destruct (negb _); [now rewrite Z.lor_assoc | reflexivity].
Qed.

Section Adds.
Variable ae : string -> bool.
Variable hdr : auxv_SPARC.
Variable M : Feature_Flag_Set.
Variable os : os_env.

Lemma do_sysinfo_adds si str f x mask :
  VM_Version.do_sysinfo os si str (Z.lor f x) mask
  = (g <- VM_Version.do_sysinfo os si str x mask ;; Ret (Z.lor f g)).
Proof.
  unfold VM_Version.do_sysinfo, guarantee.
  destruct (negb (si_bufsize (sysinfo os si) =? -1)); simpl; [|reflexivity].
  destruct (negb _); [reflexivity|].
  destruct (_ =? _); [|reflexivity].
  destruct (String.eqb _ _); simpl; [now rewrite <- Z.lor_assoc | reflexivity].
Qed.

Lemma getisax_features_adds f x :
  VM_Version.getisax_features ae hdr M os (Z.lor f x)
  = (g <- VM_Version.getisax_features ae hdr M os x ;; Ret (Z.lor f g)).
Proof.
  unfold VM_Version.getisax_features.
  rewrite do_sysinfo_adds.
  destruct (VM_Version.do_sysinfo os SI_ARCHITECTURE_32 "sparc" x (v8_instructions_m M))
    as [a|e]; simpl; [|reflexivity].
  rewrite do_sysinfo_adds.
  destruct (VM_Version.do_sysinfo os SI_ARCHITECTURE_64 "sparcv9" a (generic_v9_m M))
    as [b|e]; simpl; [|reflexivity].
  destruct (assert_ ae (getisax_avn os <=? 2) "should return two or less av's")
    as [[]|e]; simpl; [|reflexivity].
  f_equal.
  destruct (1 <? getisax_avn os); now rewrite !or_if_set_lor.
Qed.

Lemma isalist_features_adds f x :
  VM_Version.isalist_features M os (Z.lor f x)
  = Z.lor f (VM_Version.isalist_features M os x).
Proof.
  unfold VM_Version.isalist_features.
  destruct (si_malloc _); [|reflexivity].
  destruct (_ =? _); [|reflexivity].
  unfold VM_Version.isalist_vis, VM_Version.isalist_sparc.
  destruct (strstr (si_buf (sysinfo os SI_ISALIST)) "sparc") as [s|];
    destruct (strstr (si_buf (sysinfo os SI_ISALIST)) "vis") as [v|];
    repeat match goal with
           | |- context [if ?c then _ else _] => destruct c
           end;
    now rewrite <- ?Z.lor_assoc.
Qed.

Lemma family_features_adds impl f x :
  VM_Version.family_features M impl (Z.lor f x)
  = (Z.lor f (fst (VM_Version.family_features M impl x)),
     snd (VM_Version.family_features M impl x)).
Proof.
  unfold VM_Version.family_features.
  repeat match goal with
         | |- context [if ?c then _ else _] => destruct c
         end; simpl; now rewrite <- ?Z.lor_assoc.
Qed.

Lemma scan_cpu_info_adds knm : forall impl f x,
  VM_Version.scan_cpu_info M knm impl (Z.lor f x)
  = (Z.lor f (fst (VM_Version.scan_cpu_info M knm impl x)),
     snd (VM_Version.scan_cpu_info M knm impl x)).
Proof.
  induction knm as [|k rest IH]; intros impl f x; simpl; [reflexivity|].
  destruct (String.eqb _ _); [apply family_features_adds | apply IH].
Qed.

Lemma kstat_features_adds f x :
  VM_Version.kstat_features ae M os (Z.lor f x)
  = (g <- VM_Version.kstat_features ae M os x ;; Ret (Z.lor f g)).
Proof.
  unfold VM_Version.kstat_features.
  destruct (kstat_lookup os) as [ksp|]; [|now destruct (assert_ _ _ _) as [[]|]].
  destruct (kstat_read os); [|now destruct (assert_ _ _ _) as [[]|]].
  destruct (ks_data ksp) as [knm|]; [|now destruct (assert_ _ _ _) as [[]|]].
  rewrite scan_cpu_info_adds.
  destruct (VM_Version.scan_cpu_info M knm "UNKNOWN" x) as [g impl]; simpl.
  now destruct (assert_ _ _ _) as [[]|].
Qed.

Lemma assemble_features_adds f x :
  VM_Version.assemble_features ae hdr M os (Z.lor f x)
  = (g <- VM_Version.assemble_features ae hdr M os x ;; Ret (Z.lor f g)).
Proof.
  unfold VM_Version.assemble_features.
  assert (E : (if supports_getisax os
               then VM_Version.getisax_features ae hdr M os (Z.lor f x)
               else Ret (VM_Version.isalist_features M os (Z.lor f x)))
              = (g <- (if supports_getisax os
                       then VM_Version.getisax_features ae hdr M os x
                       else Ret (VM_Version.isalist_features M os x)) ;;
                 Ret (Z.lor f g))).
  { destruct (supports_getisax os); [apply getisax_features_adds|].
    simpl. now rewrite isalist_features_adds. }
  rewrite E. clear E.
  destruct (if supports_getisax os then _ else _) as [a|e]; simpl; [|reflexivity].
  rewrite do_sysinfo_adds.
  destruct (VM_Version.do_sysinfo os SI_MACHINE "sun4v" a (sun4v_m M)) as [b|e]; simpl;
    [|reflexivity].
  apply kstat_features_adds.
Qed.

End Adds.

(** ** The L2 tracker and the static do not depend on the L1 readings *)

Section OneTree.
Variable ae : string -> bool.
Variable lib : libpicl.

Lemma visit_nodes_app nm a : forall b v,
  visit_nodes ae lib nm (a ++ b) v
  = (v1 <- visit_nodes ae lib nm a v ;; visit_nodes ae lib nm b v1).
Proof.
  induction a as [|n a IH]; intros b v; simpl; [reflexivity|].
  destruct (CPUVisitor.visit_unless_inconsistent ae lib v n nm) as [v1|e]; simpl;
    [apply IH | reflexivity].
Qed.

Lemma visit_nodes_inconsistent nm nodes : forall v,
  UniqueValueVisitor.is_inconsistent v = true ->
  visit_nodes ae lib nm nodes v = Ret v.
Proof.
  induction nodes as [|n rest IH]; intros v H; simpl; [reflexivity|].
  rewrite (guarded_visit_inconsistent ae lib v n nm H). simpl. now apply IH.
Qed.

End OneTree.

Lemma two_prefixes {A : Type} (a : list A) : forall b r s,
  a ++ r = b ++ s -> (exists e, b = a ++ e) \/ (exists e, a = b ++ e).
Proof.
  induction a as [|x a IH]; intros b r s H.
  - left. now exists b.
  - destruct b as [|y b].
    + right. now exists (x :: a).
    + simpl in H. injection H as -> H.
      destruct (IH _ _ _ H) as [[e ->]|[e ->]]; [left | right]; now exists e.
Qed.

Section TwoTrees.
Variable ae : string -> bool.
Variables lib lib' : libpicl.
Hypothesis Hsame : forall nodeh nm, nm <> "l1-dcache-line-size" ->
  get_int_property ae lib' nodeh nm = get_int_property ae lib nodeh nm.

Lemma visit_same_reads v nodeh nm :
  nm <> "l1-dcache-line-size" ->
  UniqueValueVisitor.visit ae lib' v nodeh nm = UniqueValueVisitor.visit ae lib v nodeh nm.
Proof. intros H. unfold UniqueValueVisitor.visit. now rewrite (Hsame nodeh nm H). Qed.

Lemma guarded_visit_same_reads v nodeh nm :
  nm <> "l1-dcache-line-size" ->
  CPUVisitor.visit_unless_inconsistent ae lib' v nodeh nm
  = CPUVisitor.visit_unless_inconsistent ae lib v nodeh nm.
Proof.
  intros H. unfold CPUVisitor.visit_unless_inconsistent.
  now rewrite (visit_same_reads v nodeh nm H).
Qed.

Lemma visit_nodes_same_reads nm nodes : forall v,
  nm <> "l1-dcache-line-size" ->
  visit_nodes ae lib' nm nodes v = visit_nodes ae lib nm nodes v.
Proof.
  induction nodes as [|n rest IH]; intros v H; simpl; [reflexivity|].
  rewrite (guarded_visit_same_reads v n nm H).
  destruct (CPUVisitor.visit_unless_inconsistent ae lib v n nm) as [v1|e]; simpl;
    [now apply IH | reflexivity].
Qed.

Lemma visit_l2_same_reads memo l2 nodeh :
  memo <> Some "l1-dcache-line-size" ->
  CPUVisitor.visit_l2 ae lib' memo l2 nodeh = CPUVisitor.visit_l2 ae lib memo l2 nodeh.
Proof.
  intros H. unfold CPUVisitor.visit_l2. destruct memo as [nm|].
  - rewrite guarded_visit_same_reads; [reflexivity | congruence].
  - rewrite (visit_same_reads l2 nodeh "l2-cache-line-size") by discriminate.
    destruct (assert_ ae _ _); simpl; [|reflexivity].
    destruct (UniqueValueVisitor.visit ae lib l2 nodeh "l2-cache-line-size")
      as [[found l2a]|e]; simpl; [|reflexivity].
    now rewrite (visit_same_reads l2a nodeh "l2-dcache-line-size") by discriminate.
Qed.

(** The walk over the other tree went at least as far: its L2 tracker and
    its static end as those of the shorter walk. *)
Lemma walk_l2_longer nodes c memo st seen st' e :
  memo <> Some "l1-dcache-line-size" ->
  picl_walk_tree_by_class (CPUVisitor.visit ae lib) nodes (c, memo) = Ret (st, seen) ->
  picl_walk_tree_by_class (CPUVisitor.visit ae lib') nodes (c, memo)
    = Ret (st', seen ++ e) ->
  CPUVisitor.l2_visitor (fst st') = CPUVisitor.l2_visitor (fst st) /\ snd st' = snd st.
Proof.
  intros Hmemo H H'.
  pose proof (walk_coverage _ _ _ _ _ _ H) as Hcov.
  pose proof (walk_budget _ _ _ _ _ _ H') as Hbud.
  pose proof (walk_prefix _ _ _ _ _ _ H') as [r' Hpre'].
  pose proof (walk_starts _ _ _ _ _ _ H) as Hne.
  apply walk_l2 in H. apply walk_l2 in H'.
  destruct seen as [|n more].
  - destruct nodes as [|n0 rest]; [|now destruct Hne].
    destruct e; [|discriminate]. simpl in H'. subst. now split.
  - simpl in H'.
    destruct H as (l2a & nm & Hfirst & Hm & Hmore).
    destruct H' as (l2b & nm' & Hfirst' & Hm' & Hmore').
    rewrite (visit_l2_same_reads _ _ _ Hmemo), Hfirst in Hfirst'.
    injection Hfirst' as <- <-.
    split; [|congruence].
    assert (Hnm : nm <> "l1-dcache-line-size").
    { apply visit_l2_name in Hfirst. destruct memo as [nm0|].
      - congruence.
      - destruct Hfirst as [-> | ->]; discriminate. }
    rewrite (visit_nodes_same_reads nm _ _ Hnm), visit_nodes_app, Hmore in Hmore'.
    simpl in Hmore'.
    destruct Hcov as [Hboth | Hfull].
    + unfold both_inconsistent in Hboth. apply andb_true_iff in Hboth as [_ Hinc].
      rewrite (visit_nodes_inconsistent ae lib nm e _ Hinc) in Hmore'.
      now inversion Hmore'.
    + assert (He : e = []).
      { apply (f_equal (@List.length _)) in Hfull. simpl fst in *.
        rewrite length_firstn in Hfull.
        apply (f_equal (@List.length _)) in Hpre'.
        rewrite !length_app in Hpre'. rewrite length_app in Hbud.
        destruct e; [reflexivity|]. simpl in *. lia. }
      subst e. simpl in Hmore'. now inversion Hmore'.
Qed.

End TwoTrees.

(** Two walks that differ in the L1 readings only end with the same L2
    tracker and the same name in the static. *)
Lemma walk_l2_independent (ae : string -> bool) (lib lib' : libpicl) nodes c memo
    st seen st' seen' :
  (forall nodeh nm, nm <> "l1-dcache-line-size" ->
     get_int_property ae lib' nodeh nm = get_int_property ae lib nodeh nm) ->
  memo <> Some "l1-dcache-line-size" ->
  picl_walk_tree_by_class (CPUVisitor.visit ae lib) nodes (c, memo) = Ret (st, seen) ->
  picl_walk_tree_by_class (CPUVisitor.visit ae lib') nodes (c, memo) = Ret (st', seen') ->
  CPUVisitor.l2_visitor (fst st') = CPUVisitor.l2_visitor (fst st) /\ snd st' = snd st.
Proof.
  intros Hsame Hmemo H H'.
  pose proof (walk_prefix _ _ _ _ _ _ H) as [r Hpre].
  pose proof (walk_prefix _ _ _ _ _ _ H') as [r' Hpre'].
  rewrite Hpre in Hpre'.
  destruct (two_prefixes _ _ _ _ Hpre') as [[e ->]|[e ->]].
  - exact (walk_l2_longer ae lib lib' Hsame _ _ _ _ _ _ _ Hmemo H H').
  - assert (Hsym : forall nodeh nm, nm <> "l1-dcache-line-size" ->
               get_int_property ae lib nodeh nm = get_int_property ae lib' nodeh nm).
    { intros nodeh nm Hn. symmetry. now apply Hsame. }
    destruct (walk_l2_longer ae lib' lib Hsym _ _ _ _ _ _ _ Hmemo H' H) as [E1 E2].
    now split.
Qed.

Lemma open_library_same (ae : string -> bool) (d d' : dl_env) (this : PICL.t) :
  (forall nm, dlopen d' nm = dlopen d nm) ->
  (forall h sym, dlsym d' h sym = dlsym d h sym) ->
  PICL.open_library ae d' this = PICL.open_library ae d this.
Proof.
  intros Hopen Hsym.
  unfold PICL.open_library, PICL.bind_library_functions, PICL.bind.
  rewrite Hopen. destruct (dlopen d "libpicl.so.1") as [h|]; simpl; [|reflexivity].
  now rewrite !Hsym.
Qed.

(** The constructor on two device trees that differ in the L1 readings
    only: the same L2 size in the object, the same name in the static. *)
Lemma picl_new_same_but_l1 (ae : string -> bool) (d d' : dl_env) (count u1 u2 : Z)
    (is_fujitsu is_sun4v : bool) (memo : option string) picl memo1 picl' memo1' :
  same_but_l1 ae d d' ->
  memo <> Some "l1-dcache-line-size" ->
  PICL.new ae d count u1 u2 is_fujitsu is_sun4v memo = Ret (picl, memo1) ->
  PICL.new ae d' count u1 u2 is_fujitsu is_sun4v memo = Ret (picl', memo1') ->
  PICL._L2_data_cache_line_size picl' = PICL._L2_data_cache_line_size picl /\
  memo1' = memo1.
Proof.
  intros (Hopen & Hsym & Hinit & Hroot & Hnodes & Hreads) Hmemo H H'.
  unfold PICL.new in H, H'.
  rewrite (open_library_same ae d d' _ Hopen Hsym), Hinit, Hroot in H'.
  destruct (PICL.open_library ae d _) as [[opened this]|err]; [|discriminate].
  simpl in H, H'. destruct opened; simpl in H, H';
    [|inversion H; inversion H'; subst; now split].
  destruct (picl_initialize (dl_picl d));
    [|rewrite H in H'; inversion H'; now split].
  destruct (picl_get_root (dl_picl d)) as [rooth|];
    [|rewrite H in H'; inversion H'; now split].
  apply bind_ret_inv in H as ([this1 m1] & Hmid & H).
  apply bind_ret_inv in H as (this2 & Hc & H).
  apply bind_ret_inv in Hmid as ([this3 m3] & Hw & Hmid).
  apply bind_ret_inv in Hw as ([[c m5] seen] & Hw & Hrest).
  apply bind_ret_inv in Hrest as (l1 & Hl1 & Hrest).
  apply bind_ret_inv in Hrest as (l2 & Hl2 & Hrest).
  apply bind_ret_inv in H' as ([this1' m1'] & Hmid' & H').
  apply bind_ret_inv in H' as (this2' & Hc' & H').
  apply bind_ret_inv in Hmid' as ([this3' m3'] & Hw' & Hmid').
  apply bind_ret_inv in Hw' as ([[c' m5'] seen'] & Hw' & Hrest').
  apply bind_ret_inv in Hrest' as (l1' & Hl1' & Hrest').
  apply bind_ret_inv in Hrest' as (l2' & Hl2' & Hrest').
  unfold PICL.close_library in Hc, Hc'.
  apply bind_ret_inv in Hc as (_ & _ & Hc).
  apply bind_ret_inv in Hc' as (_ & _ & Hc').
  unfold PICL.walk_cpus in Hw, Hw'. rewrite Hnodes in Hw'.
  apply bind_ret_inv in Hw as ([st seen1] & Hw & Hst).
  apply bind_ret_inv in Hw' as ([st' seen1'] & Hw' & Hst').
  destruct (walk_l2_independent ae (dl_picl d) (dl_picl d') _ _ _ _ _ _ _
              Hreads Hmemo Hw Hw') as [E2 Em].
  inversion Hst; inversion Hst'; subst.
  inversion Hrest; inversion Hrest'; inversion Hmid; inversion Hmid';
    inversion Hc; inversion Hc'; inversion H; inversion H'; subst; simpl.
  split; [|exact Em].
  rewrite E2 in Hl2'. rewrite Hl2 in Hl2'. now inversion Hl2'.
Qed.

(** ** The capability word with exactly four capabilities *)

Section FourCapabilities.
Variable ae : string -> bool.
Variable hdr : auxv_SPARC.
Variable M : Feature_Flag_Set.
Variable os : os_env.

(** The getisax branch on such a word: the two architecture names, the
    assertion, and then the four bits. *)
Lemma getisax_features_four_exact f :
  reports_mul_div_vis1_vis2 hdr os ->
  VM_Version.getisax_features ae hdr M os f
  = (a <- VM_Version.do_sysinfo os SI_ARCHITECTURE_32 "sparc" f (v8_instructions_m M) ;;
     b <- VM_Version.do_sysinfo os SI_ARCHITECTURE_64 "sparcv9" a (generic_v9_m M) ;;
     assert_ ae (getisax_avn os <=? 2) "should return two or less av's" ;;
     Ret (Z.lor b (mul_div_vis1_vis2_m M))).
Proof.
  intros (Hmul & Hdiv & Hvis & Hvis2 & Hfs & Hv8p & Hpopc & Hrest & Hav2).
  unfold VM_Version.getisax_features.
  destruct (VM_Version.do_sysinfo os SI_ARCHITECTURE_32 "sparc" f (v8_instructions_m M))
    as [a|e]; simpl; [|reflexivity].
  destruct (VM_Version.do_sysinfo os SI_ARCHITECTURE_64 "sparcv9" a (generic_v9_m M))
    as [b|e]; simpl; [|reflexivity].
  destruct (assert_ ae (getisax_avn os <=? 2) "should return two or less av's")
    as [[]|e]; simpl; [|reflexivity].
  f_equal.
  repeat match goal with
         | Hf : Forall _ (_ :: _) |- _ => inversion Hf; subst; clear Hf
         end.
  rewrite (or_if_set_yes _ _ _ _ Hmul), (or_if_set_yes _ _ _ _ Hdiv).
  rewrite (or_if_set_no _ _ _ _ Hfs), (or_if_set_no _ _ _ _ Hv8p),
    (or_if_set_no _ _ _ _ Hpopc).
  rewrite (or_if_set_yes _ _ _ _ Hvis), (or_if_set_yes _ _ _ _ Hvis2).
  destruct (Z.ltb_spec 1 (getisax_avn os)) as [Hn|Hn].
  - destruct Hav2 as [Hle|Hz]; [lia|].
    rewrite (or_if_set_no _ _ _ _ Hz). rewrite !or_if_set_no by assumption.
    unfold mul_div_vis1_vis2_m. now rewrite !Z.lor_assoc.
  - rewrite !or_if_set_no by assumption.
    unfold mul_div_vis1_vis2_m. now rewrite !Z.lor_assoc.
Qed.

(** The getisax branch on the same host with capability words that report
    nothing: the two architecture names and the assertion only. *)
Lemma getisax_features_no_capability f :
  VM_Version.getisax_features ae hdr M (without_capabilities os) f
  = (a <- VM_Version.do_sysinfo os SI_ARCHITECTURE_32 "sparc" f (v8_instructions_m M) ;;
     b <- VM_Version.do_sysinfo os SI_ARCHITECTURE_64 "sparcv9" a (generic_v9_m M) ;;
     assert_ ae (getisax_avn os <=? 2) "should return two or less av's" ;;
     Ret b).
Proof.
  unfold VM_Version.getisax_features.
  change (VM_Version.do_sysinfo (without_capabilities os)) with (VM_Version.do_sysinfo os).
  destruct (VM_Version.do_sysinfo os SI_ARCHITECTURE_32 "sparc" f (v8_instructions_m M))
    as [a|e]; simpl; [|reflexivity].
  destruct (VM_Version.do_sysinfo os SI_ARCHITECTURE_64 "sparcv9" a (generic_v9_m M))
    as [b|e]; simpl; [|reflexivity].
  destruct (assert_ ae (getisax_avn os <=? 2) "should return two or less av's")
    as [[]|e]; simpl; [|reflexivity].
  destruct (1 <? getisax_avn os); reflexivity.
Qed.

(** The whole assembly: what the host gives with an empty capability word,
    and the four bits. *)
Lemma assemble_features_four f f1 :
  supports_getisax os = true ->
  reports_mul_div_vis1_vis2 hdr os ->
  VM_Version.assemble_features ae hdr M os f = Ret f1 ->
  exists f0,
    VM_Version.assemble_features ae hdr M (without_capabilities os) f = Ret f0 /\
    f1 = Z.lor f0 (mul_div_vis1_vis2_m M).
Proof.
  intros Hisax Hav Ha.
  unfold VM_Version.assemble_features in Ha. rewrite Hisax in Ha.
  rewrite (getisax_features_four_exact f Hav) in Ha.
  apply bind_ret_inv in Ha as (x & Hg & Ha).
  apply bind_ret_inv in Hg as (a & H32 & Hg).
  apply bind_ret_inv in Hg as (b & H64 & Hg).
  apply bind_ret_inv in Hg as ([] & Has & Hg).
  inversion Hg; subst x; clear Hg.
  apply bind_ret_inv in Ha as (m & Hm & Hk).
  rewrite Z.lor_comm, do_sysinfo_adds in Hm.
  apply bind_ret_inv in Hm as (m0 & Hm0 & Hm). inversion Hm; subst m; clear Hm.
  rewrite kstat_features_adds in Hk.
  apply bind_ret_inv in Hk as (k0 & Hk0 & Hk). inversion Hk; subst f1; clear Hk.
  exists k0. split; [|apply Z.lor_comm].
  unfold VM_Version.assemble_features.
  change (supports_getisax (without_capabilities os)) with (supports_getisax os).
  rewrite Hisax, getisax_features_no_capability, H32. simpl.
  rewrite H64. simpl. rewrite Has. simpl.
  change (VM_Version.do_sysinfo (without_capabilities os)) with (VM_Version.do_sysinfo os).
  rewrite Hm0. simpl. exact Hk0.
Qed.

End FourCapabilities.

(** ** C1: the tracker over a sequence of successful readings *)

(** C1.  Let one tracker, fresh from its constructor, receive the guarded
    calls of a walk over [nodes], and let every property read succeed, with
    values [readings].  Then the run returns a tracker [v], and:
    the first reading alone takes the tracker from INITIAL to ASSIGNED with
    that reading; if all readings equal [x], [v] is ASSIGNED with value [x];
    if two readings differ, [v] is INCONSISTENT; and an INCONSISTENT tracker
    is left as it is by the calls of any further nodes, whatever they would
    read. *)
Theorem tracker_over_readings
    (ae : string -> bool) (lib : libpicl) (nm : string)
    (nodes : list picl_nodehdl_t) (readings : list Z) (indeterminate : Z)
    (Hread : Forall2 (fun nodeh curr => get_int_property ae lib nodeh nm = Ret (Some curr))
                     nodes readings) :
  exists v,
    visit_nodes ae lib nm nodes (UniqueValueVisitor.new indeterminate) = Ret v /\
    (forall nodeh curr,
        hd_error nodes = Some nodeh -> hd_error readings = Some curr ->
        CPUVisitor.visit_unless_inconsistent ae lib
          (UniqueValueVisitor.new indeterminate) nodeh nm
        = Ret {| UniqueValueVisitor._state := UniqueValueVisitor.ASSIGNED;
                 UniqueValueVisitor._value := curr |}) /\
    (forall x, readings <> [] -> Forall (fun r => r = x) readings ->
        UniqueValueVisitor._state v = UniqueValueVisitor.ASSIGNED /\
        UniqueValueVisitor._value v = x) /\
    ((exists r1 r2, In r1 readings /\ In r2 readings /\ r1 <> r2) ->
        UniqueValueVisitor._state v = UniqueValueVisitor.INCONSISTENT) /\
    (forall w more,
        UniqueValueVisitor._state w = UniqueValueVisitor.INCONSISTENT ->
        visit_nodes ae lib nm more w = Ret w).
Proof.
  exists (fold_left observe readings (UniqueValueVisitor.new indeterminate)).
  split; [now apply visit_nodes_observe|].
  split; [|split; [|split]].
  - intros nodeh curr Hn Hr.
    destruct Hread as [|n r ns rs Hget _]; simpl in *; try discriminate.
    injection Hn as ->; injection Hr as ->.
    now rewrite (guarded_visit_reading _ _ _ _ _ _ Hget).
  - intros x Hne Hall.
    destruct readings as [|r rs]; [congruence|].
    inversion Hall as [|? ? Hr Hrs]; subst. simpl.
    set (v1 := observe _ _).
    destruct (observe_assigned rs v1 eq_refl) as [[_ Heq]|[Hnot _]].
    + rewrite Heq. now split.
    + exfalso; apply Hnot. exact Hrs.
  - intros (r1 & r2 & H1 & H2 & Hne).
    destruct readings as [|r rs]; [contradiction|]. simpl.
    set (v1 := observe _ _).
    destruct (observe_assigned rs v1 eq_refl) as [[Hall _]|[_ Hst]]; [|exact Hst].
    exfalso. rewrite Forall_forall in Hall. simpl in Hall.
    assert (E : forall z, In z (r :: rs) -> z = r).
    { intros z [->|Hz]; [reflexivity | now apply Hall]. }
    apply Hne. now rewrite (E r1 H1), (E r2 H2).
  - intros w more Hw. revert w Hw.
    induction more as [|n rest IH]; intros w Hw; simpl; [reflexivity|].
    rewrite guarded_visit_inconsistent; simpl.
    + now apply IH.
    + unfold UniqueValueVisitor.is_inconsistent. now rewrite Hw.
Qed.

(** Four cpus reading 64, 64, 64, 32: the L1 tracker ends INCONSISTENT. *)
Lemma tracker_over_readings_witness :
  exists v,
    visit_nodes debug_build mixed_tree "l1-dcache-line-size" [1; 2; 3; 4]
      (UniqueValueVisitor.new 0) = Ret v /\
    UniqueValueVisitor._state v = UniqueValueVisitor.INCONSISTENT.
Proof.
  destruct (tracker_over_readings debug_build mixed_tree "l1-dcache-line-size"
              [1; 2; 3; 4] [64; 64; 64; 32] 0) as (v & Hv & _ & _ & Hdiff & _).
  - repeat constructor.
  - exists v. split; [exact Hv|].
    apply Hdiff. exists 64, 32. simpl. repeat split; auto. discriminate.
Defined.

(** ** C10: the preconditions of UniqueValueVisitor *)

Lemma value_if_assigned_safe (ae : string -> bool) (v : UniqueValueVisitor.t) (dflt : Z) :
  raises (if UniqueValueVisitor.is_assigned v
          then UniqueValueVisitor.value ae v else Ret dflt) "Precondition" = false.
Proof.
  destruct v as [st val]; destruct st; simpl; try reflexivity.
  unfold UniqueValueVisitor.value; simpl. now rewrite assert_holds.
Qed.

Lemma open_library_safe (ae : string -> bool) (d : dl_env) (this : PICL.t) :
  raises (PICL.open_library ae d this) "Precondition" = false.
Proof.
  unfold PICL.open_library.
  destruct (negb _); [reflexivity|].
  apply raises_bind.
  - unfold PICL.bind_library_functions.
    apply raises_bind; [now apply raises_assert_other | reflexivity].
  - intros bound _. destruct (negb bound); [|reflexivity].
    apply raises_bind; [now apply raises_assert_other|]. intros _ _.
    apply raises_bind; [|now intros].
    unfold PICL.close_library.
    apply raises_bind; [now apply raises_assert_other | reflexivity].
Qed.

Lemma walk_cpus_safe (ae : string -> bool) (d : dl_env) (count u1 u2 : Z)
    (is_fujitsu is_sun4v : bool) (rooth : picl_nodehdl_t) (memo : option string) :
  raises (PICL.walk_cpus ae d count u1 u2 is_fujitsu is_sun4v rooth memo)
         "Precondition" = false.
Proof.
  unfold PICL.walk_cpus.
  apply raises_bind.
  - apply walk_safe. intros _. reflexivity.
  - now intros [arg seen] _.
Qed.

(** C10.  In every build, on every host, and whatever the static holds when
    the constructor starts, constructing the [PICL] object never stops at
    one of the three [assert(..., "Precondition")] of UniqueValueVisitor:
    [value()] is reached only in state ASSIGNED, [set_value()] only in state
    INITIAL and [visit()] only in a state other than INCONSISTENT.  In
    particular, a product build that checks these three preconditions all
    the same runs the constructor to its end. *)
Theorem tracker_preconditions_hold
    (ae : string -> bool) (d : dl_env) (count u1 u2 : Z)
    (is_fujitsu is_sun4v : bool) (memo : option string) :
  raises (PICL.new ae d count u1 u2 is_fujitsu is_sun4v memo) "Precondition" = false /\
  returns (PICL.new preconditions_only d count u1 u2 is_fujitsu is_sun4v memo) = true.
Proof.
  assert (Hsafe : forall ae0,
            raises (PICL.new ae0 d count u1 u2 is_fujitsu is_sun4v memo) "Precondition"
            = false); [intros ae0|
    split; [apply Hsafe | apply stops_preconditions_only;
                          [apply picl_new_stops | apply Hsafe]]].
  unfold PICL.new.
  apply raises_bind; [apply open_library_safe|].
  intros [opened this] _. destruct (negb opened); [reflexivity|].
  apply raises_bind.
  - destruct (picl_initialize (dl_picl d)); [|reflexivity].
    apply raises_bind; [|now intros [? ?] _].
    destruct (picl_get_root (dl_picl d)) as [rooth|]; [|reflexivity].
    apply raises_bind; [apply walk_cpus_safe|].
    intros [[c memo1] seen] _.
    apply raises_bind; [apply value_if_assigned_safe|]. intros l1 _.
    apply raises_bind; [apply value_if_assigned_safe|]. intros l2 _.
    reflexivity.
  - intros [this1 memo1] _.
    apply raises_bind; [|now intros].
    unfold PICL.close_library.
    apply raises_bind; [now apply raises_assert_other | reflexivity].
Qed.

(** ** C3: the walk stays within its budget and stops early *)

(** C3.  On a machine with at least one logical processor, the callback of
    the walk started by the constructor runs on a prefix of the nodes of the
    class, of at most 1 node on a sun4v machine that is not Fujitsu and of
    at most [count] nodes otherwise; in a product build the walk always
    returns.  And whatever budget is left, a walk that has just run the
    callback on a node after which both trackers are INCONSISTENT runs it on
    no further node. *)
Theorem walk_within_budget
    (ae : string -> bool) (d : dl_env) (count u1 u2 : Z)
    (is_fujitsu is_sun4v : bool) (rooth : picl_nodehdl_t) (memo : option string)
    (Hcount : 1 <= count) :
  (forall c memo1 seen,
      PICL.walk_cpus ae d count u1 u2 is_fujitsu is_sun4v rooth memo
        = Ret (c, memo1, seen) ->
      Z.of_nat (List.length seen) <= (if is_sun4v && negb is_fujitsu then 1 else count) /\
      exists rest,
        picl_class_nodes (dl_picl d) rooth (if is_fujitsu then "core" else "cpu")
          = seen ++ rest) /\
  returns (PICL.walk_cpus product_build d count u1 u2 is_fujitsu is_sun4v rooth memo)
    = true /\
  (forall pre nodeh post arg st,
      picl_walk_tree_by_class (PICL.PICL_visit_cpu_helper ae d) (pre ++ [nodeh]) arg
        = Ret (st, pre ++ [nodeh]) ->
      both_inconsistent (fst st) = true ->
      picl_walk_tree_by_class (PICL.PICL_visit_cpu_helper ae d) (pre ++ nodeh :: post) arg
        = Ret (st, pre ++ [nodeh])).
Proof.
  split; [|split].
  - intros c memo1 seen H. unfold PICL.walk_cpus in H.
    apply bind_ret_inv in H as ([arg seen1] & Hw & H).
    inversion H; subst. split.
    + apply walk_budget in Hw. simpl in Hw.
      destruct (is_sun4v && negb is_fujitsu); lia.
    + now apply walk_prefix in Hw.
  - apply walk_cpus_returns.
  - intros pre nodeh post arg st. apply walk_stops.
Qed.

(** Four processors; the first two cpus disagree on both levels: the
    callback runs on two nodes only. *)
Lemma walk_within_budget_witness :
  exists c memo1,
    PICL.walk_cpus debug_build (all_symbols disagreeing_tree) 4 0 0 false false 0 None
      = Ret (c, memo1, [1; 2]) /\
    both_inconsistent c = true /\
    Z.of_nat (List.length [1; 2]) <= 4.
Proof.
  eexists. eexists. split; [reflexivity|]. split; [reflexivity|].
  refine (proj1 (proj1 (walk_within_budget debug_build (all_symbols disagreeing_tree)
                          4 0 0 false false 0 None _) _ _ _ _)).
  - lia.
  - reflexivity.
Defined.

(** ** C4: the L2 property name is chosen once *)

(** C4.  Let the callback run for the first time, on [nodeh], with the
    static still NULL and a fresh visitor, and return.  Then the static
    holds a name [chosen]: the primary name "l2-cache-line-size" if reading
    it from [nodeh] succeeded (the L2 tracker is then ASSIGNED with the value
    read), and otherwise, the primary read having failed, the fallback name
    "l2-dcache-line-size", which was then tried on the same node.  On all
    nodes the walk goes on to, the static still holds [chosen], and the L2
    tracker has received exactly the guarded calls for the property
    [chosen] of those nodes: a property under the other name is never
    consulted. *)
Theorem l2_name_chosen_once
    (ae : string -> bool) (lib : libpicl) (u1 u2 limit : Z)
    (nodeh : picl_nodehdl_t) (answer : picl_walk) (arg1 : CPUVisitor.t * option string)
    (Hfirst : CPUVisitor.visit ae lib nodeh (CPUVisitor.new u1 u2 limit, None)
              = Ret (answer, arg1)) :
  exists chosen,
    snd arg1 = Some chosen /\
    ((chosen = "l2-cache-line-size" /\
      exists curr,
        get_int_property ae lib nodeh "l2-cache-line-size" = Ret (Some curr) /\
        CPUVisitor.l2_visitor (fst arg1)
        = {| UniqueValueVisitor._state := UniqueValueVisitor.ASSIGNED;
             UniqueValueVisitor._value := curr |}) \/
     (chosen = "l2-dcache-line-size" /\
      get_int_property ae lib nodeh "l2-cache-line-size" = Ret None /\
      visit_nodes ae lib "l2-dcache-line-size" [nodeh] (UniqueValueVisitor.new u2)
      = Ret (CPUVisitor.l2_visitor (fst arg1)))) /\
    (forall nodes st seen,
        picl_walk_tree_by_class (CPUVisitor.visit ae lib) nodes arg1 = Ret (st, seen) ->
        snd st = Some chosen /\
        visit_nodes ae lib chosen seen (CPUVisitor.l2_visitor (fst arg1))
        = Ret (CPUVisitor.l2_visitor (fst st))).
Proof.
  apply cpu_visit_inv in Hfirst as (_ & Hl2 & _).
  destruct arg1 as [[l1v l2v lim] memo1].
  unfold CPUVisitor.l2_visitor, CPUVisitor.new in *; simpl in *.
  unfold CPUVisitor.visit_l2 in Hl2.
  apply bind_ret_inv in Hl2 as (_ & _ & Hl2).
  apply bind_ret_inv in Hl2 as ([found l2a] & Hprim & Hl2).
  apply visit_inv in Hprim as [(-> & curr & Hget & ->)|(-> & Hget & ->)];
    [| |reflexivity]; simpl in Hl2.
  - inversion Hl2; subst.
    exists "l2-cache-line-size". split; [reflexivity|]. split.
    + left. split; [reflexivity|]. now exists curr.
    + intros nodes st seen Hw. now apply walk_memoized in Hw.
  - apply bind_ret_inv in Hl2 as ([found2 l2b] & Hfall & Hl2).
    inversion Hl2; subst.
    exists "l2-dcache-line-size". split; [reflexivity|]. split.
    + right. split; [reflexivity|]. split; [exact Hget|].
      unfold CPUVisitor.visit_unless_inconsistent. simpl.
      now rewrite Hfall.
    + intros nodes st seen Hw. now apply walk_memoized in Hw.
Qed.

(** The first cpu only has "l2-dcache-line-size" (64), the second only
    "l2-cache-line-size" (128): the fallback name is kept, and the second
    cpu contributes nothing, so L2 ends ASSIGNED with 64. *)
Lemma l2_name_chosen_once_witness :
  exists answer arg1 st,
    CPUVisitor.visit debug_build renamed_tree 1 (CPUVisitor.new 0 0 4, None)
      = Ret (answer, arg1) /\
    picl_walk_tree_by_class (CPUVisitor.visit debug_build renamed_tree) [2] arg1
      = Ret (st, [2]) /\
    snd st = Some "l2-dcache-line-size" /\
    CPUVisitor.l2_visitor (fst st)
    = {| UniqueValueVisitor._state := UniqueValueVisitor.ASSIGNED;
         UniqueValueVisitor._value := 64 |}.
Proof.
  eexists. eexists. eexists.
  split; [reflexivity|]. split; [reflexivity|].
  destruct (l2_name_chosen_once debug_build renamed_tree 0 0 4 1 _ _ eq_refl)
    as (chosen & E & _ & Hrest).
  destruct (Hrest [2] _ _ eq_refl) as (Est & _).
  split; [|reflexivity].
  rewrite Est. rewrite <- E. reflexivity.
Defined.

(** ** C2: platform_features only adds bits *)

(** C2.  Whatever the build, the header constants, the replies of the
    operating system and of libpicl, and the baseline: a mask returned by
    [platform_features] contains every bit of the baseline. *)
Theorem platform_features_monotonic
    (ae : string -> bool) (hdr : auxv_SPARC) (M : Feature_Flag_Set) (os : os_env)
    (u1 u2 : Z) (Other : Type) (baseline : Z) (g : VM_Version.statics Other)
    (f : Z) (g1 : VM_Version.statics Other)
    (Hrun : VM_Version.platform_features ae hdr M os u1 u2 baseline g = Ret (f, g1)) :
  covers f baseline /\
  (forall i, Z.testbit baseline i = true -> Z.testbit f i = true).
Proof.
  apply platform_features_inv in Hrun as (Ha & _).
  apply assemble_features_covers in Ha.
  split; [exact Ha | now apply covers_testbit].
Qed.

(** A sun4v T4 host, the baseline holding the AES bit. *)
Lemma platform_features_monotonic_witness :
  exists f g1,
    VM_Version.platform_features debug_build sample_auxv sample_flags
      (solaris10_host 0x63 "sun4v" "SPARC-T4 (chipid 0, clock 2848 MHz)"
         (all_symbols uniform_tree))
      0 0 (aes_instructions_m sample_flags) (at_startup tt) = Ret (f, g1) /\
    covers f (aes_instructions_m sample_flags).
Proof.
  eexists. eexists. split; [reflexivity|].
  exact (proj1 (platform_features_monotonic debug_build sample_auxv sample_flags
                  (solaris10_host 0x63 "sun4v" "SPARC-T4 (chipid 0, clock 2848 MHz)"
                     (all_symbols uniform_tree))
                  0 0 unit (aes_instructions_m sample_flags) (at_startup tt) _ _ eq_refl)).
Defined.

(** ** C5: the library is absent or only partly bound *)

(** C5, the claim as stated, fails in a debug build: libpicl.so.1 loads, one
    of the seven entry points does not resolve, and the VM stops at
    [assert(false, "unexpected PICL API change")]. *)
Lemma partial_binding_stops_debug_build :
  dlopen (missing_symbol "picl_get_propinfo" uniform_tree) "libpicl.so.1" = Some 1 /\
  In "picl_get_propinfo" entry_points /\
  dlsym (missing_symbol "picl_get_propinfo" uniform_tree) 1 "picl_get_propinfo" = false /\
  PICL.new debug_build (missing_symbol "picl_get_propinfo" uniform_tree) 4 0 0
    false false None
  = Fatal (assert_failed "unexpected PICL API change") /\
  VM_Version.platform_features debug_build sample_auxv sample_flags
    (solaris10_host 0x63 "sun4v" "SPARC-T4 (chipid 0, clock 2848 MHz)"
       (missing_symbol "picl_get_propinfo" uniform_tree))
    0 0 0 (at_startup tt)
  = Fatal (assert_failed "unexpected PICL API change").
Proof.
  split; [reflexivity|]. split; [simpl; tauto|]. repeat split; reflexivity.
Qed.

(** C5, amended.  Let libpicl.so.1 fail to load, or load with one of the
    seven entry points unresolved.  If the library is absent, or the build
    has the assertion "unexpected PICL API change" compiled out (a product
    build), then the constructor returns, the probe reports 0 for the L1 and
    for the L2 line size, the static is untouched, and [platform_features]
    returns exactly the mask its assembly part computed, storing 0 as L2
    size.  If the library loaded and that assertion is compiled in (a debug
    build), the constructor stops the VM at it. *)
Theorem unavailable_library
    (ae : string -> bool) (hdr : auxv_SPARC) (M : Feature_Flag_Set) (os : os_env)
    (u1 u2 : Z) (Other : Type) (baseline : Z) (g : VM_Version.statics Other)
    (Hun : dlopen (dl os) "libpicl.so.1" = None \/
           exists h sym,
             dlopen (dl os) "libpicl.so.1" = Some h /\
             In sym entry_points /\ dlsym (dl os) h sym = false) :
  (dlopen (dl os) "libpicl.so.1" = None \/ ae "unexpected PICL API change" = false ->
     (forall is_fujitsu is_sun4v memo,
        exists picl,
          PICL.new ae (dl os) (processor_count os) u1 u2 is_fujitsu is_sun4v memo
            = Ret (picl, memo) /\
          PICL.L1_data_cache_line_size picl = 0 /\
          PICL.L2_data_cache_line_size picl = 0) /\
     VM_Version.platform_features ae hdr M os u1 u2 baseline g
     = (f <- VM_Version.assemble_features ae hdr M os baseline ;;
        Ret (f, {| VM_Version._L2_data_cache_line_size := 0;
                   VM_Version.l2_data_cache_line_property_name :=
                     VM_Version.l2_data_cache_line_property_name g;
                   VM_Version.other := VM_Version.other g |}))) /\
  (dlopen (dl os) "libpicl.so.1" <> None ->
   ae "unexpected PICL API change" = true ->
   forall is_fujitsu is_sun4v memo,
     PICL.new ae (dl os) (processor_count os) u1 u2 is_fujitsu is_sun4v memo
     = Fatal (assert_failed "unexpected PICL API change")).
Proof.
  assert (Hnew : dlopen (dl os) "libpicl.so.1" = None \/
                 ae "unexpected PICL API change" = false ->
                 forall is_fujitsu is_sun4v memo,
                   PICL.new ae (dl os) (processor_count os) u1 u2 is_fujitsu is_sun4v memo
                   = Ret ({| PICL._L1_data_cache_line_size := 0;
                             PICL._L2_data_cache_line_size := 0;
                             PICL._dl_handle := None |}, memo)).
  { intros Hok is_fujitsu is_sun4v memo. unfold PICL.new.
    destruct Hun as [Habs|(h & sym & Hopen & Hin & Hsym)].
    - now rewrite (open_library_absent _ _ _ Habs).
    - rewrite (open_library_partial _ _ _ h sym Hopen Hin Hsym).
      destruct Hok as [Habs|Hoff]; [congruence|].
      unfold assert_. now rewrite Hoff. }
  split.
  - intros Hok. split.
    + intros is_fujitsu is_sun4v memo. eexists.
      split; [now apply Hnew|]. split; reflexivity.
    + unfold VM_Version.platform_features.
      destruct (VM_Version.assemble_features ae hdr M os baseline) as [f|e]; simpl;
        [|reflexivity].
      unfold VM_Version.cache_probe. now rewrite (Hnew Hok).
  - intros Hloaded Hon is_fujitsu is_sun4v memo.
    destruct Hun as [Habs|(h & sym & Hopen & Hin & Hsym)]; [contradiction|].
    unfold PICL.new.
    rewrite (open_library_partial _ _ _ h sym Hopen Hin Hsym).
    unfold assert_. now rewrite Hon.
Qed.

(** A product build on a host whose libpicl lacks picl_get_propinfo: the
    probe reports 0 and 0. *)
Lemma unavailable_library_witness :
  exists picl,
    PICL.new product_build (missing_symbol "picl_get_propinfo" uniform_tree) 4 0 0
      false true None = Ret (picl, None) /\
    PICL.L1_data_cache_line_size picl = 0 /\
    PICL.L2_data_cache_line_size picl = 0.
Proof.
  refine (proj1 (proj1 (unavailable_library product_build sample_auxv sample_flags
                   (solaris10_host 0x63 "sun4v" "SPARC-T4"
                      (missing_symbol "picl_get_propinfo" uniform_tree))
                   0 0 unit 0 (at_startup tt) _) _) false true None).
  - right. exists 1, "picl_get_propinfo". simpl. repeat split; tauto.
  - right. reflexivity.
Defined.

(** ** C9: what the cache probe publishes *)

(** C9, the claim as stated, fails for the one piece of process-wide state
    that is not a member of [VM_Version]: the function-local static of
    [CPUVisitor::visit], which lives as long as the process.  On an ordinary
    host it is NULL before [platform_features] and holds the name
    "l2-cache-line-size" after it, so the state after differs from the state
    before in more than [_L2_data_cache_line_size]. *)
Lemma probe_sets_the_static :
  exists f g1,
    VM_Version.platform_features debug_build sample_auxv sample_flags
      (solaris10_host 0x63 "sun4u" "UltraSPARC-IIIi" (all_symbols uniform_tree))
      0 0 0 (at_startup tt) = Ret (f, g1) /\
    VM_Version.l2_data_cache_line_property_name (at_startup tt) = None /\
    VM_Version.l2_data_cache_line_property_name g1 = Some "l2-cache-line-size" /\
    g1 <> {| VM_Version._L2_data_cache_line_size :=
               VM_Version._L2_data_cache_line_size g1;
             VM_Version.l2_data_cache_line_property_name :=
               VM_Version.l2_data_cache_line_property_name (at_startup tt);
             VM_Version.other := VM_Version.other (at_startup tt) |}.
Proof.
  eexists. eexists. split; [reflexivity|].
  split; [reflexivity|]. split; [reflexivity|]. discriminate.
Qed.

(** C9, amended.  When [platform_features] returns:
    - the static [_L2_data_cache_line_size] holds the L2 size the probe
      object reports, and every other field is as before;
    - the function-local static of [CPUVisitor::visit] is the one other
      store that changes: a name it holds is kept, and from NULL it goes to
      NULL, to the primary or to the fallback name;
    - the L1 size is computed and retained: once the walk is reached, the
      L1 tracker has seen the L1 property of every node the callback ran
      on, and the object holds its value if it is ASSIGNED and 0 otherwise
      (as it holds the L2 size from the L2 tracker);
    - the L1 size reaches nothing outside the object: with NULL or one of
      the two L2 names in the static, a host that differs in the L1
      readings of the device tree only gets the same mask and the same
      state, whatever the L1 readings make of the L1 size and of the length
      of the walk. *)
Theorem only_l2_published
    (ae : string -> bool) (hdr : auxv_SPARC) (M : Feature_Flag_Set) (os : os_env)
    (u1 u2 : Z) (Other : Type) (baseline : Z) (g : VM_Version.statics Other)
    (f : Z) (g1 : VM_Version.statics Other)
    (Hrun : VM_Version.platform_features ae hdr M os u1 u2 baseline g = Ret (f, g1)) :
  exists picl memo1,
    VM_Version.cache_probe ae M os u1 u2 f
      (VM_Version.l2_data_cache_line_property_name g) = Ret (picl, memo1) /\
    g1 = {| VM_Version._L2_data_cache_line_size :=
              to_uint (PICL._L2_data_cache_line_size picl);
            VM_Version.l2_data_cache_line_property_name := memo1;
            VM_Version.other := VM_Version.other g |} /\
    VM_Version.other g1 = VM_Version.other g /\
    (forall nm, VM_Version.l2_data_cache_line_property_name g = Some nm ->
                memo1 = Some nm) /\
    (VM_Version.l2_data_cache_line_property_name g = None -> l2_name_or_null memo1) /\
    (forall rooth, walk_is_reached (dl os) rooth ->
       exists c seen,
         PICL.walk_cpus ae (dl os) (processor_count os) u1 u2
           (negb (Z.land f (sparc64_family_m M) =? 0))
           (negb (Z.land f (sun4v_m M) =? 0))
           rooth (VM_Version.l2_data_cache_line_property_name g) = Ret (c, memo1, seen) /\
         visit_nodes ae (dl_picl (dl os)) "l1-dcache-line-size" seen
           (UniqueValueVisitor.new u1) = Ret (CPUVisitor.l1_visitor c) /\
         PICL._L1_data_cache_line_size picl
         = (if UniqueValueVisitor.is_assigned (CPUVisitor.l1_visitor c)
            then UniqueValueVisitor._value (CPUVisitor.l1_visitor c) else 0) /\
         PICL._L2_data_cache_line_size picl
         = (if UniqueValueVisitor.is_assigned (CPUVisitor.l2_visitor c)
            then UniqueValueVisitor._value (CPUVisitor.l2_visitor c) else 0)) /\
    (forall d' f' g1',
       l2_name_or_null (VM_Version.l2_data_cache_line_property_name g) ->
       same_but_l1 ae (dl os) d' ->
       VM_Version.platform_features ae hdr M (with_dl os d') u1 u2 baseline g
         = Ret (f', g1') ->
       f' = f /\ g1' = g1).
Proof.
  apply platform_features_inv in Hrun as (Ha & picl & memo1 & Hp & ->).
  exists picl, memo1. split; [exact Hp|]. split; [reflexivity|]. split; [reflexivity|].
  unfold VM_Version.cache_probe in Hp.
  assert (Hstatic :
            (forall nm, VM_Version.l2_data_cache_line_property_name g = Some nm ->
                        memo1 = Some nm) /\
            (VM_Version.l2_data_cache_line_property_name g = None ->
             l2_name_or_null memo1)).
  { pose proof Hp as Hq.
    apply picl_new_inv in Hq
      as (_ & [(_ & _ & ->)|(rooth & c & seen & _ & Hw & _ & _)]).
    { split; [auto | intros ->; now left]. }
    unfold PICL.walk_cpus in Hw.
    apply bind_ret_inv in Hw as ([[c1 m1] seen1] & Hw & H). inversion H; subst.
    apply walk_l2 in Hw. destruct seen as [|first more].
    - inversion Hw; subst. split; [auto | intros ->; now left].
    - destruct Hw as (l2a & nm & Hfirst & Hm & _). simpl in Hm. subst memo1.
      apply visit_l2_name in Hfirst. split.
      + intros nm0 E. rewrite E in Hfirst. now subst.
      + intros E. rewrite E in Hfirst. right. destruct Hfirst as [-> | ->]; auto. }
  split; [exact (proj1 Hstatic)|]. split; [exact (proj2 Hstatic)|]. split.
  - intros rooth Hreach.
    destruct (picl_new_walk _ _ _ _ _ _ _ _ rooth _ _ Hreach Hp)
      as (c & seen & Hw & E1 & E2).
    exists c, seen. split; [exact Hw|]. split; [|split; [exact E1 | exact E2]].
    unfold PICL.walk_cpus in Hw.
    apply bind_ret_inv in Hw as ([[c1 m1] seen1] & Hw & H). inversion H; subst.
    apply walk_l1 in Hw. exact Hw.
  - intros d' f' g1' Hnull Hsame Hrun'.
    apply platform_features_inv in Hrun' as (Ha' & picl' & memo1' & Hp' & ->).
    change (VM_Version.assemble_features ae hdr M os baseline = Ret f') in Ha'.
    rewrite Ha in Ha'. inversion Ha'; subst f'. split; [reflexivity|].
    unfold VM_Version.cache_probe in Hp'. cbn [dl processor_count with_dl] in Hp'.
    assert (Hmemo : VM_Version.l2_data_cache_line_property_name g
                    <> Some "l1-dcache-line-size").
    { destruct Hnull as [E|[E|E]]; rewrite E; discriminate. }
    destruct (picl_new_same_but_l1 _ _ _ _ _ _ _ _ _ _ _ _ _ Hsame Hmemo Hp Hp')
      as [E2 Em].
    unfold PICL.L2_data_cache_line_size. now rewrite E2, Em.
Qed.

(** A host whose cpus have 64-byte L1 and 128-byte L2 lines: the probe
    object holds 64 and 128, the process state receives 128 and the name of
    the L2 property; with 16, 32 and 48 as L1 readings the mask and the
    state are the same. *)
Lemma only_l2_published_witness :
  exists picl,
    VM_Version.cache_probe debug_build sample_flags
      (solaris10_host 0x63 "sun4u" "UltraSPARC-IIIi" (all_symbols uniform_tree)) 0 0 239 None
      = Ret (picl, Some "l2-cache-line-size") /\
    PICL._L1_data_cache_line_size picl = 64 /\
    VM_Version.platform_features debug_build sample_auxv sample_flags
      (solaris10_host 0x63 "sun4u" "UltraSPARC-IIIi" (all_symbols uniform_tree))
      0 0 0 (at_startup 7)
    = Ret (239, {| VM_Version._L2_data_cache_line_size := 128;
                   VM_Version.l2_data_cache_line_property_name := Some "l2-cache-line-size";
                   VM_Version.other := 7 |}) /\
    VM_Version.platform_features debug_build sample_auxv sample_flags
      (with_dl (solaris10_host 0x63 "sun4u" "UltraSPARC-IIIi" (all_symbols uniform_tree))
               (all_symbols other_l1_tree))
      0 0 0 (at_startup 7)
    = Ret (239, {| VM_Version._L2_data_cache_line_size := 128;
                   VM_Version.l2_data_cache_line_property_name := Some "l2-cache-line-size";
                   VM_Version.other := 7 |}).
Proof.
  destruct (only_l2_published debug_build sample_auxv sample_flags
              (solaris10_host 0x63 "sun4u" "UltraSPARC-IIIi" (all_symbols uniform_tree))
              0 0 Z 0 (at_startup 7) 239
              {| VM_Version._L2_data_cache_line_size := 128;
                 VM_Version.l2_data_cache_line_property_name := Some "l2-cache-line-size";
                 VM_Version.other := 7 |} eq_refl)
    as (picl & memo1 & Hp & Hg1 & _ & _ & _ & Hl1 & Hsame).
  assert (Em : memo1 = Some "l2-cache-line-size") by (now inversion Hg1).
  subst memo1. exists picl. split; [exact Hp|]. split; [|split; [reflexivity|]].
  - destruct (Hl1 0) as (c & seen & Hw & _ & E1 & _).
    { split; [|split; reflexivity].
      exists 1. split; [reflexivity | repeat constructor]. }
    vm_compute in Hw. inversion Hw; subst c. exact E1.
  - destruct (VM_Version.platform_features debug_build sample_auxv sample_flags
                (with_dl (solaris10_host 0x63 "sun4u" "UltraSPARC-IIIi"
                            (all_symbols uniform_tree))
                         (all_symbols other_l1_tree))
                0 0 0 (at_startup 7)) as [[f' g1']|e] eqn:Hrun'; [|discriminate Hrun'].
    destruct (Hsame _ f' g1' (or_introl eq_refl) other_l1_tree_same_but_l1 Hrun')
      as [-> ->].
    reflexivity.
Defined.

(** ** C6: the family bits of the implementation string *)

(** C6, the claim as stated, fails for a string that holds "SPARC-T1" behind
    a marker of higher priority: behind "SPARC-M" the T1-model bit is not
    set, behind "SPARC64" neither it nor the T-family bit is. *)
Lemma t1_marker_behind_another :
  (reads_implementation
     (solaris10_host 0 "sun4v" "SPARC-M7 (SPARC-T1 compatible)" (no_library uniform_tree))
     "SPARC-M7 (SPARC-T1 compatible)" /\
   contains (upcase "SPARC-M7 (SPARC-T1 compatible)") "SPARC-T1" = true /\
   VM_Version.kstat_features debug_build sample_flags
     (solaris10_host 0 "sun4v" "SPARC-M7 (SPARC-T1 compatible)" (no_library uniform_tree)) 0
   = Ret (Z.lor (M_family_m sample_flags) (T_family_m sample_flags)) /\
   Z.land (Z.lor (M_family_m sample_flags) (T_family_m sample_flags))
          (T1_model_m sample_flags) = 0) /\
  (reads_implementation
     (solaris10_host 0 "sun4u" "SPARC64-X (SPARC-T1 compatible)" (no_library uniform_tree))
     "SPARC64-X (SPARC-T1 compatible)" /\
   contains (upcase "SPARC64-X (SPARC-T1 compatible)") "SPARC-T1" = true /\
   VM_Version.kstat_features debug_build sample_flags
     (solaris10_host 0 "sun4u" "SPARC64-X (SPARC-T1 compatible)" (no_library uniform_tree)) 0
   = Ret (sparc64_family_m sample_flags) /\
   Z.land (sparc64_family_m sample_flags)
          (Z.lor (T_family_m sample_flags) (T1_model_m sample_flags)) = 0).
Proof.
  split; (split; [|repeat split; reflexivity]).
  - eexists _, [_], _, []. repeat split; try reflexivity.
    + repeat constructor.
    + now right.
  - eexists _, [_], _, []. repeat split; try reflexivity.
    + repeat constructor.
    + now right.
Qed.

(** C6, amended.  Let [implementation] be the string read from the
    "implementation" entry of the cpu_info record.  If, upper-cased, it
    contains "SPARC-M" and not "SPARC64", the kstat step returns the mask
    with the M-family and the T-family bit added; if it contains "SPARC-T1"
    and neither "SPARC64" nor "SPARC-M", the step returns the mask with the
    T-family and the T1-model bit added. *)
Theorem family_bits
    (ae : string -> bool) (M : Feature_Flag_Set) (os : os_env)
    (implementation : string) (features : Z)
    (Hread : reads_implementation os implementation) :
  (contains (upcase implementation) "SPARC64" = false ->
   contains (upcase implementation) "SPARC-M" = true ->
   exists f,
     VM_Version.kstat_features ae M os features = Ret f /\
     f = Z.lor features (Z.lor (M_family_m M) (T_family_m M)) /\
     covers f (M_family_m M) /\ covers f (T_family_m M)) /\
  (contains (upcase implementation) "SPARC64" = false ->
   contains (upcase implementation) "SPARC-M" = false ->
   contains (upcase implementation) "SPARC-T1" = true ->
   exists f,
     VM_Version.kstat_features ae M os features = Ret f /\
     f = Z.lor (Z.lor features (T_family_m M)) (T1_model_m M) /\
     covers f (T_family_m M) /\ covers f (T1_model_m M)).
Proof.
  rewrite (kstat_features_read ae M os implementation features Hread).
  split.
  - intros H64 HM.
    rewrite (family_features_m_series M implementation features H64 HM); simpl.
    rewrite (marked_is_known implementation "SPARC-M" eq_refl HM); simpl.
    rewrite assert_holds; simpl.
    eexists. split; [reflexivity|]. repeat split; auto with masks.
  - intros H64 HM HT1.
    rewrite (family_features_t1 M implementation features H64 HM HT1); simpl.
    rewrite (marked_is_known implementation "SPARC-T1" eq_refl HT1); simpl.
    rewrite assert_holds; simpl.
    eexists. split; [reflexivity|]. repeat split; auto with masks.
Qed.

(** The implementation string of a T1 machine. *)
Lemma family_bits_witness :
  exists f,
    VM_Version.kstat_features debug_build sample_flags
      (solaris10_host 0 "sun4v" "UltraSPARC-T1" (no_library uniform_tree)) 0 = Ret f /\
    f = Z.lor (Z.lor 0 (T_family_m sample_flags)) (T1_model_m sample_flags) /\
    covers f (T_family_m sample_flags) /\ covers f (T1_model_m sample_flags).
Proof.
  refine (proj2 (family_bits debug_build sample_flags
                   (solaris10_host 0 "sun4v" "UltraSPARC-T1" (no_library uniform_tree))
                   "UltraSPARC-T1" 0 _) _ _ _); try reflexivity.
  eexists _, [_], _, []. repeat split; try reflexivity.
  - repeat constructor.
  - now right.
Defined.

(** ** C7: the capability word with multiply, divide, VIS1 and VIS2 *)

(** C7, the claim as stated, fails on an ordinary host: the capability word
    holds exactly the four capabilities, and the mask returned for baseline 0
    is not the four feature bits alone: it also holds the bits of the
    architecture names, of the machine type and of the implementation
    family (bit 0, the v8 bit, for one). *)
Lemma capability_word_is_not_alone :
  supports_getisax (solaris10_host 0x63 "sun4v" "SPARC-T4 (chipid 0, clock 2848 MHz)"
                      (all_symbols uniform_tree)) = true /\
  reports_mul_div_vis1_vis2 sample_auxv
    (solaris10_host 0x63 "sun4v" "SPARC-T4 (chipid 0, clock 2848 MHz)"
       (all_symbols uniform_tree)) /\
  exists f g1,
    VM_Version.platform_features debug_build sample_auxv sample_flags
      (solaris10_host 0x63 "sun4v" "SPARC-T4 (chipid 0, clock 2848 MHz)"
         (all_symbols uniform_tree))
      0 0 0 (at_startup tt) = Ret (f, g1) /\
    f <> Z.lor 0 (mul_div_vis1_vis2_m sample_flags) /\
    Z.testbit f 0 = true /\
    Z.testbit (Z.lor 0 (mul_div_vis1_vis2_m sample_flags)) 0 = false.
Proof.
  split; [reflexivity|]. split.
  - unfold reports_mul_div_vis1_vis2; simpl.
    repeat split; try discriminate; try reflexivity.
    + repeat constructor.
    + left. lia.
  - eexists. eexists. split; [reflexivity|].
    split; [discriminate|]. split; reflexivity.
Qed.

(** C7, amended.  When getisax(2) is supported and its word reports the
    32-bit multiply, 32-bit divide, VIS1 and VIS2 capabilities and no other
    capability the code looks at, the capability word contributes exactly
    the four bits hardware_mul32, hardware_div32, vis1 and vis2 and no
    others.  The getisax branch is the two architecture names followed by
    these four bits; the mask [platform_features] returns is the mask the
    same host gives with capability words that report nothing, with these
    four bits added; and, counted from the baseline, it is the baseline with
    these four and with bits that all belong to the other sources
    (architecture names, machine type, implementation family). *)
Theorem capability_word_four_bits
    (ae : string -> bool) (hdr : auxv_SPARC) (M : Feature_Flag_Set) (os : os_env)
    (u1 u2 : Z) (Other : Type) (baseline : Z) (g : VM_Version.statics Other)
    (f : Z) (g1 : VM_Version.statics Other)
    (Hisax : supports_getisax os = true)
    (Hav : reports_mul_div_vis1_vis2 hdr os)
    (Hrun : VM_Version.platform_features ae hdr M os u1 u2 baseline g = Ret (f, g1)) :
  VM_Version.getisax_features ae hdr M os baseline
  = (a <- VM_Version.do_sysinfo os SI_ARCHITECTURE_32 "sparc" baseline
            (v8_instructions_m M) ;;
     b <- VM_Version.do_sysinfo os SI_ARCHITECTURE_64 "sparcv9" a (generic_v9_m M) ;;
     assert_ ae (getisax_avn os <=? 2) "should return two or less av's" ;;
     Ret (Z.lor b (mul_div_vis1_vis2_m M))) /\
  (exists f0,
     VM_Version.assemble_features ae hdr M (without_capabilities os) baseline = Ret f0 /\
     f = Z.lor f0 (mul_div_vis1_vis2_m M)) /\
  (exists arch,
     VM_Version.getisax_features ae hdr M os baseline
     = Ret (Z.lor (Z.lor baseline arch) (mul_div_vis1_vis2_m M)) /\
     covers (Z.lor (v8_instructions_m M) (generic_v9_m M)) arch) /\
  exists others,
    f = Z.lor (Z.lor baseline (mul_div_vis1_vis2_m M)) others /\
    covers (other_sources_m M) others.
Proof.
  apply platform_features_inv in Hrun as (Ha & _).
  split; [exact (getisax_features_four_exact ae hdr M os baseline Hav)|].
  split; [exact (assemble_features_four ae hdr M os baseline f Hisax Hav Ha)|].
  unfold VM_Version.assemble_features in Ha. rewrite Hisax in Ha.
  apply bind_ret_inv in Ha as (a & Hg & Ha).
  apply bind_ret_inv in Ha as (b & Hm & Hk).
  pose proof Hg as Hg'.
  apply (getisax_features_four _ _ _ _ _ _ Hav) in Hg as (arch & -> & Harch).
  apply do_sysinfo_gain in Hm as (s & -> & Hs).
  apply kstat_features_gain in Hk as (k & -> & Hk).
  split; [now exists arch|].
  exists (Z.lor (Z.lor arch s) k). split.
  - apply Z.bits_inj'. intros i _. rewrite !Z.lor_spec.
    repeat match goal with
           | |- context [Z.testbit ?z i] => destruct (Z.testbit z i)
           end; reflexivity.
  - unfold other_sources_m.
    repeat apply covers_join.
    + eapply covers_trans; [|exact Harch]. do 5 apply covers_left. apply covers_refl.
    + eapply covers_trans; [|exact Hs]. auto 10 with masks.
    + eapply covers_trans; [|exact Hk]. repeat apply covers_join; auto 10 with masks.
Qed.

(** A sun4v host with a SPARC-T4 in a debug build: with an empty capability
    word the other sources give 65839, with the word 0x63 the mask is that
    and the four bits, 66031.  (In [sample_flags] the generic-v9 mask of the
    architecture name holds the multiply and divide bits as well, so two of
    the four are in 65839 already.) *)
Lemma capability_word_four_bits_witness :
  VM_Version.platform_features debug_build sample_auxv sample_flags
    (solaris10_host 0x63 "sun4v" "SPARC-T4" (all_symbols uniform_tree))
    0 0 0 (at_startup tt)
  = Ret (66031,
         {| VM_Version._L2_data_cache_line_size := 128;
            VM_Version.l2_data_cache_line_property_name := Some "l2-cache-line-size";
            VM_Version.other := tt |}) /\
  VM_Version.assemble_features debug_build sample_auxv sample_flags
    (without_capabilities
       (solaris10_host 0x63 "sun4v" "SPARC-T4" (all_symbols uniform_tree))) 0
  = Ret 65839 /\
  66031 = Z.lor 65839 (mul_div_vis1_vis2_m sample_flags).
Proof.
  split; [reflexivity|].
  destruct (proj1 (proj2 (capability_word_four_bits debug_build sample_auxv sample_flags
                            (solaris10_host 0x63 "sun4v" "SPARC-T4"
                               (all_symbols uniform_tree))
                            0 0 unit 0 (at_startup tt) 66031 _ eq_refl
                            ltac:(unfold reports_mul_div_vis1_vis2; simpl;
                                  repeat split; try discriminate; try reflexivity;
                                  [repeat constructor | left; lia])
                            eq_refl)))
    as (f0 & H0 & E).
  assert (E0 : f0 = 65839) by (vm_compute in H0; now inversion H0).
  subst f0. split; [exact H0 | exact E].
Defined.

(** ** C8: the legacy capability list "sparc8" *)

(** C8.  When getisax(2) is not supported and the isalist read is exactly
    "sparc8", the legacy source adds the v8 bit and nothing else: its result
    is the incoming mask with [v8_instructions_m], so no bit outside
    [v8_instructions_m] changes (in particular not hardware_mul32,
    hardware_div32 or a v9 bit), and the assembly goes on from that mask. *)
Theorem isalist_sparc8
    (ae : string -> bool) (hdr : auxv_SPARC) (M : Feature_Flag_Set) (os : os_env)
    (features : Z)
    (Hisax : supports_getisax os = false)
    (Hmalloc : si_malloc (sysinfo os SI_ISALIST) = true)
    (Hcount : si_count (sysinfo os SI_ISALIST) = si_bufsize (sysinfo os SI_ISALIST))
    (Hbuf : si_buf (sysinfo os SI_ISALIST) = "sparc8") :
  VM_Version.isalist_features M os features = Z.lor features (v8_instructions_m M) /\
  covers (VM_Version.isalist_features M os features) (v8_instructions_m M) /\
  (forall m, Z.land (v8_instructions_m M) m = 0 ->
             Z.land (VM_Version.isalist_features M os features) m = Z.land features m) /\
  VM_Version.assemble_features ae hdr M os features
  = (f <- VM_Version.do_sysinfo os SI_MACHINE "sun4v"
            (Z.lor features (v8_instructions_m M)) (sun4v_m M) ;;
     VM_Version.kstat_features ae M os f).
Proof.
  assert (E : VM_Version.isalist_features M os features
              = Z.lor features (v8_instructions_m M)).
  { unfold VM_Version.isalist_features.
    rewrite Hmalloc, Hcount, Z.eqb_refl, Hbuf. reflexivity. }
  split; [exact E|]. split; [rewrite E; auto with masks|]. split.
  - intros m Hm. rewrite E, Z.land_lor_distr_l, Hm. apply Z.lor_0_r.
  - unfold VM_Version.assemble_features. rewrite Hisax. simpl. now rewrite E.
Qed.

(** On a host whose isalist is "sparc8", with nothing set before: the v8
    bit is set, the mul32, div32 and v9 bits are not. *)
Lemma isalist_sparc8_witness :
  VM_Version.isalist_features sample_flags
    (legacy_host "sparc8" "sun4u" "UltraSPARC-IIIi" (all_symbols uniform_tree)) 0
  = v8_instructions_m sample_flags /\
  Z.land (VM_Version.isalist_features sample_flags
            (legacy_host "sparc8" "sun4u" "UltraSPARC-IIIi" (all_symbols uniform_tree)) 0)
         (Z.lor (Z.lor (hardware_mul32_m sample_flags) (hardware_div32_m sample_flags))
                (generic_v9_m sample_flags))
  = 0.
Proof.
  destruct (isalist_sparc8 debug_build sample_auxv sample_flags
              (legacy_host "sparc8" "sun4u" "UltraSPARC-IIIi" (all_symbols uniform_tree)) 0
              eq_refl eq_refl eq_refl eq_refl) as (E & _ & Hout & _).
  split; [exact E|].
  rewrite Hout; reflexivity.
Defined.

(** * Further properties of the code *)

(** ** get_int_property *)

Lemma get_int_property_inv
    (ae : string -> bool) (lib : libpicl) (nodeh : picl_nodehdl_t) (nm : string) (v : Z) :
  get_int_property ae lib nodeh nm = Ret (Some v) ->
  exists proph pinfo val,
    picl_get_prop_by_name lib nodeh nm = Some proph /\
    picl_get_propinfo lib proph = Some pinfo /\
    (type pinfo = PICL_PTYPE_INT \/ type pinfo = PICL_PTYPE_UNSIGNED_INT) /\
    (size pinfo = 8 \/ size pinfo = 4) /\
    picl_get_propval lib proph (size pinfo) = Some val /\
    v = to_int val.
Proof.
  unfold get_int_property.
  destruct (picl_get_prop_by_name lib nodeh nm) as [proph|] eqn:Hp; [|discriminate].
  destruct (picl_get_propinfo lib proph) as [pinfo|] eqn:Hi; [|discriminate].
  destruct (negb _ && negb _) eqn:Ety.
  { intros H. apply bind_ret_inv in H as (_ & _ & H). discriminate. }
  assert (Hty : type pinfo = PICL_PTYPE_INT \/ type pinfo = PICL_PTYPE_UNSIGNED_INT).
  { destruct (type pinfo); simpl in Ety; try discriminate; auto. }
  destruct (Z.eqb_spec (size pinfo) 8) as [E8|N8].
  - destruct (picl_get_propval lib proph 8) as [val|] eqn:Ev; [|discriminate].
    intros H; inversion H; subst.
    exists proph, pinfo, val. rewrite E8. repeat split; auto.
  - destruct (Z.eqb_spec (size pinfo) 4) as [E4|N4].
    + destruct (picl_get_propval lib proph 4) as [val|] eqn:Ev; [|discriminate].
      intros H; inversion H; subst.
      exists proph, pinfo, val. rewrite E4. repeat split; auto.
    + intros H. apply bind_ret_inv in H as (_ & _ & H). discriminate.
Qed.

(** X1.  A read succeeds exactly when the property exists, its description
    can be fetched, it is a signed or unsigned integer of 8 or 4 bytes and
    its value can be fetched with that size; the result is the value cut to
    an [int]. *)
Theorem get_int_property_success
    (ae : string -> bool) (lib : libpicl) (nodeh : picl_nodehdl_t) (nm : string) (v : Z) :
  get_int_property ae lib nodeh nm = Ret (Some v) <->
  exists proph pinfo val,
    picl_get_prop_by_name lib nodeh nm = Some proph /\
    picl_get_propinfo lib proph = Some pinfo /\
    (type pinfo = PICL_PTYPE_INT \/ type pinfo = PICL_PTYPE_UNSIGNED_INT) /\
    (size pinfo = 8 \/ size pinfo = 4) /\
    picl_get_propval lib proph (size pinfo) = Some val /\
    v = to_int val.
Proof.
  split; [apply get_int_property_inv|].
  intros (proph & pinfo & val & Hp & Hi & Hty & Hsz & Hv & ->).
  unfold get_int_property. rewrite Hp, Hi.
  assert (Ety : negb (picl_ptype_eqb (type pinfo) PICL_PTYPE_INT)
                && negb (picl_ptype_eqb (type pinfo) PICL_PTYPE_UNSIGNED_INT) = false).
  { destruct Hty as [-> | ->]; reflexivity. }
  rewrite Ety.
  destruct Hsz as [E|E]; rewrite E in *; simpl; now rewrite Hv.
Qed.

Lemma to_int_range (z : Z) : int_range (to_int z).
Proof.
  unfold int_range, to_int.
  pose proof (Z.mod_pos_bound (z + 2 ^ 31) (2 ^ 32) ltac:(lia)). lia.
Qed.

Lemma to_int_fits (z : Z) : int_range z -> to_int z = z.
Proof.
  unfold int_range, to_int. intros H.
  rewrite Z.mod_small by lia. lia.
Qed.

Lemma to_int_congruent (z : Z) : (to_int z - z) mod 2 ^ 32 = 0.
Proof.
  unfold to_int.
  replace ((z + 2 ^ 31) mod 2 ^ 32 - 2 ^ 31 - z)
    with ((z + 2 ^ 31) mod 2 ^ 32 - (z + 2 ^ 31)) by lia.
  rewrite Zminus_mod, Z.mod_mod, Z.sub_diag by lia. reflexivity.
Qed.

(** X2.  A value read is always an [int]: it agrees with the stored 32- or 64-bit
    value modulo 2^32, and is that value itself when it fits an [int]. *)
Theorem get_int_property_is_int
    (ae : string -> bool) (lib : libpicl) (nodeh : picl_nodehdl_t) (nm : string) (v : Z)
    (Hread : get_int_property ae lib nodeh nm = Ret (Some v)) :
  int_range v /\
  exists proph sz val,
    picl_get_prop_by_name lib nodeh nm = Some proph /\
    picl_get_propval lib proph sz = Some val /\
    (v - val) mod 2 ^ 32 = 0 /\
    (int_range val -> v = val).
Proof.
  apply get_int_property_inv in Hread
    as (proph & pinfo & val & Hp & _ & _ & _ & Hv & ->).
  split; [apply to_int_range|].
  exists proph, (size pinfo), val.
  repeat split; auto using to_int_congruent, to_int_fits.
Qed.

Lemma get_int_property_is_int_witness :
  get_int_property debug_build wide_tree 1 "l1-dcache-line-size" = Ret (Some 64) /\
  int_range 64.
Proof.
  split; [reflexivity|].
  exact (proj1 (get_int_property_is_int debug_build wide_tree 1 "l1-dcache-line-size" 64
                  eq_refl)).
Defined.

(** X3.  A property that exists but is not an integer, or is an integer of
    a size other than 8 or 4 bytes, is never read: the call fails with
    [PICL_FAILURE] without fetching the value, after stopping a build that
    has the respective assertion compiled in. *)
Theorem get_int_property_rejects
    (ae : string -> bool) (lib : libpicl) (nodeh : picl_nodehdl_t) (nm : string)
    (proph : picl_prophdl_t) (pinfo : picl_propinfo_t)
    (Hprop : picl_get_prop_by_name lib nodeh nm = Some proph)
    (Hinfo : picl_get_propinfo lib proph = Some pinfo) :
  (type pinfo <> PICL_PTYPE_INT -> type pinfo <> PICL_PTYPE_UNSIGNED_INT ->
   get_int_property ae lib nodeh nm
   = if ae "Invalid property type"
     then Fatal (assert_failed "Invalid property type") else Ret None) /\
  (type pinfo = PICL_PTYPE_INT \/ type pinfo = PICL_PTYPE_UNSIGNED_INT ->
   size pinfo <> 8 -> size pinfo <> 4 ->
   get_int_property ae lib nodeh nm
   = if ae "Unexpected integer property size"
     then Fatal (assert_failed "Unexpected integer property size") else Ret None).
Proof.
  unfold get_int_property. rewrite Hprop, Hinfo. split.
  - intros H1 H2.
    assert (E : negb (picl_ptype_eqb (type pinfo) PICL_PTYPE_INT)
                && negb (picl_ptype_eqb (type pinfo) PICL_PTYPE_UNSIGNED_INT) = true).
    { destruct (type pinfo); try reflexivity; congruence. }
    rewrite E. unfold assert_. now destruct (ae _).
  - intros Hty H8 H4.
    assert (E : negb (picl_ptype_eqb (type pinfo) PICL_PTYPE_INT)
                && negb (picl_ptype_eqb (type pinfo) PICL_PTYPE_UNSIGNED_INT) = false).
    { destruct Hty as [-> | ->]; reflexivity. }
    rewrite E.
    destruct (Z.eqb_spec (size pinfo) 8); [contradiction|].
    destruct (Z.eqb_spec (size pinfo) 4); [contradiction|].
    unfold assert_. now destruct (ae _).
Qed.

Lemma get_int_property_rejects_witness :
  get_int_property product_build short_tree 1 "l1-dcache-line-size" = Ret None /\
  get_int_property debug_build short_tree 1 "l1-dcache-line-size"
  = Fatal (assert_failed "Unexpected integer property size").
Proof.
  split.
  - refine (proj2 (get_int_property_rejects product_build short_tree 1
                     "l1-dcache-line-size" 5 {| type := PICL_PTYPE_INT; size := 2 |}
                     eq_refl eq_refl) _ _ _); [now left | discriminate | discriminate].
  - reflexivity.
Defined.

(** ** Trackers and nodes without the property *)

Section Skipping.
Variable ae : string -> bool.
Variable lib : libpicl.

Lemma guarded_visit_no_reading v nodeh nm :
  get_int_property ae lib nodeh nm = Ret None ->
  CPUVisitor.visit_unless_inconsistent ae lib v nodeh nm = Ret v.
Proof.
  intros Hget. unfold CPUVisitor.visit_unless_inconsistent.
  destruct (UniqueValueVisitor.is_inconsistent v) eqn:Hinc; simpl; [reflexivity|].
  now rewrite (visit_no_reading _ _ _ _ _ Hget Hinc).
Qed.

End Skipping.

(** X4.  A node whose property cannot be read contributes nothing: if no
    read stops the VM, the tracker ends as if only the nodes with a readable
    property had been walked. *)
Theorem tracker_skips_unreadable
    (ae : string -> bool) (lib : libpicl) (nm : string)
    (nodes : list picl_nodehdl_t) (v : UniqueValueVisitor.t)
    (Hreturn : Forall (fun nodeh => returns (get_int_property ae lib nodeh nm) = true) nodes) :
  visit_nodes ae lib nm nodes v = visit_nodes ae lib nm (readable ae lib nm nodes) v.
Proof.
  revert v. induction Hreturn as [|n rest Hn _ IH]; intros v; [reflexivity|].
  unfold readable in *. simpl.
  destruct (get_int_property ae lib n nm) as [[curr|]|e] eqn:Hget; try discriminate.
  - simpl. rewrite (guarded_visit_reading _ _ _ _ _ _ Hget); simpl. apply IH.
  - rewrite (guarded_visit_no_reading _ _ _ _ _ Hget); simpl. apply IH.
Qed.

Lemma tracker_skips_unreadable_witness :
  readable debug_build sparse_tree "l1-dcache-line-size" [1; 2; 3; 4] = [1; 4] /\
  visit_nodes debug_build sparse_tree "l1-dcache-line-size" [1; 2; 3; 4]
    (UniqueValueVisitor.new 0)
  = visit_nodes debug_build sparse_tree "l1-dcache-line-size" [1; 4]
      (UniqueValueVisitor.new 0).
Proof.
  split; [reflexivity|].
  refine (tracker_skips_unreadable debug_build sparse_tree "l1-dcache-line-size"
            [1; 2; 3; 4] (UniqueValueVisitor.new 0) _).
  repeat constructor.
Defined.

(** ** How far the walk goes *)

(** X5.  The walk stops for two reasons only.  On a machine with at least
    one processor, a walk that returns has run the callback on the first
    [budget] nodes of the class (on all of them if there are fewer), unless
    it ended with both trackers INCONSISTENT; and it has run it on at least
    one node if the class has any. *)
Theorem walk_covers_budget
    (ae : string -> bool) (d : dl_env) (count u1 u2 : Z)
    (is_fujitsu is_sun4v : bool) (rooth : picl_nodehdl_t) (memo : option string)
    (c : CPUVisitor.t) (memo1 : option string) (seen : list picl_nodehdl_t)
    (Hcount : 1 <= count)
    (Hwalk : PICL.walk_cpus ae d count u1 u2 is_fujitsu is_sun4v rooth memo
             = Ret (c, memo1, seen)) :
  (picl_class_nodes (dl_picl d) rooth (if is_fujitsu then "core" else "cpu") <> [] ->
   seen <> []) /\
  (both_inconsistent c = true \/
   seen = firstn (Z.to_nat (if is_sun4v && negb is_fujitsu then 1 else count))
            (picl_class_nodes (dl_picl d) rooth (if is_fujitsu then "core" else "cpu"))).
Proof.
  unfold PICL.walk_cpus in Hwalk.
  apply bind_ret_inv in Hwalk as ([arg seen1] & Hw & H).
  inversion H; subst. split.
  - now apply (walk_starts _ _ _ _ _ _ Hw).
  - apply walk_coverage in Hw as [Hb|Hs]; [now left|]. right.
    rewrite Hs. simpl.
    destruct (is_sun4v && negb is_fujitsu); f_equal; lia.
Qed.

(** Four processors, three cpus that agree: all three are visited. *)
Lemma walk_covers_budget_witness :
  exists c memo1,
    PICL.walk_cpus debug_build (all_symbols uniform_tree) 4 0 0 false false 0 None
    = Ret (c, memo1, [1; 2; 3]) /\
    both_inconsistent c = false /\
    [1; 2; 3] = firstn (Z.to_nat 4) [1; 2; 3].
Proof.
  eexists. eexists. split; [reflexivity|]. split; [reflexivity|].
  destruct (proj2 (walk_covers_budget debug_build (all_symbols uniform_tree) 4 0 0
                     false false 0 None _ _ [1; 2; 3] ltac:(lia) eq_refl)) as [Hb|Hs].
  - discriminate Hb.
  - exact Hs.
Defined.

(** ** From the device tree to the sizes the probe reports *)

(** X6.  If the walk is reached, the class has a node and every node of the
    class reads the same L1 line size [x], the probe object holds [x] as L1
    size, in every build and for every budget. *)
Theorem uniform_l1_reported
    (ae : string -> bool) (d : dl_env) (count u1 u2 : Z)
    (is_fujitsu is_sun4v : bool) (memo : option string) (rooth : picl_nodehdl_t)
    (x : Z) (picl : PICL.t) (memo1 : option string)
    (Hreach : walk_is_reached d rooth)
    (Hnodes : picl_class_nodes (dl_picl d) rooth (cpu_class is_fujitsu) <> [])
    (Hall : Forall (fun nodeh => get_int_property ae (dl_picl d) nodeh "l1-dcache-line-size"
                                 = Ret (Some x))
                   (picl_class_nodes (dl_picl d) rooth (cpu_class is_fujitsu)))
    (Hrun : PICL.new ae d count u1 u2 is_fujitsu is_sun4v memo = Ret (picl, memo1)) :
  PICL._L1_data_cache_line_size picl = x /\
  PICL.L1_data_cache_line_size picl = to_uint x.
Proof.
  apply (picl_new_walk _ _ _ _ _ _ _ _ rooth _ _ Hreach) in Hrun
    as (c & seen & Hw & E1 & _).
  assert (E : PICL._L1_data_cache_line_size picl = x).
  { unfold PICL.walk_cpus in Hw.
    apply bind_ret_inv in Hw as ([[c1 m1] seen1] & Hw & H). inversion H; subst.
    pose proof (walk_starts _ _ _ _ _ _ Hw Hnodes) as Hne.
    pose proof (walk_prefix _ _ _ _ _ _ Hw) as [rest Hpre].
    unfold cpu_class in Hall. rewrite Hpre in Hall. apply Forall_app in Hall as [Hseen _].
    apply walk_l1 in Hw. unfold CPUVisitor.new, CPUVisitor.l1_visitor in Hw; simpl in Hw.
    rewrite (visit_nodes_uniform _ _ _ x _ u1 Hne Hseen) in Hw.
    inversion Hw as [Hl1]. rewrite E1.
    unfold CPUVisitor.l1_visitor. simpl. now rewrite <- Hl1. }
  split; [exact E|]. unfold PICL.L1_data_cache_line_size. now rewrite E.
Qed.

Lemma uniform_l1_reported_witness :
  exists picl memo1,
    PICL.new debug_build (all_symbols uniform_tree) 2 0 0 false false None
    = Ret (picl, memo1) /\
    PICL._L1_data_cache_line_size picl = 64 /\
    PICL.L1_data_cache_line_size picl = to_uint 64.
Proof.
  eexists. eexists. split; [reflexivity|].
  refine (uniform_l1_reported debug_build (all_symbols uniform_tree) 2 0 0 false false
            None 0 64 _ _ _ _ _ eq_refl).
  - split; [|split; reflexivity].
    exists 1. split; [reflexivity | repeat constructor].
  - discriminate.
  - repeat constructor.
Defined.

(** X7.  On a sun4v machine that is not Fujitsu only the first node of the
    class is sampled: the callback runs on that node alone, and if its L1
    line size reads [x], the probe object holds [x], whatever the other
    nodes hold. *)
Theorem sun4v_samples_first_node
    (ae : string -> bool) (d : dl_env) (count u1 u2 : Z)
    (memo : option string) (rooth : picl_nodehdl_t)
    (first : picl_nodehdl_t) (others : list picl_nodehdl_t)
    (x : Z) (picl : PICL.t) (memo1 : option string)
    (Hreach : walk_is_reached d rooth)
    (Hnodes : picl_class_nodes (dl_picl d) rooth "cpu" = first :: others)
    (Hfirst : get_int_property ae (dl_picl d) first "l1-dcache-line-size" = Ret (Some x))
    (Hrun : PICL.new ae d count u1 u2 false true memo = Ret (picl, memo1)) :
  PICL._L1_data_cache_line_size picl = x /\
  exists c, PICL.walk_cpus ae d count u1 u2 false true rooth memo = Ret (c, memo1, [first]).
Proof.
  apply (picl_new_walk _ _ _ _ _ _ _ _ rooth _ _ Hreach) in Hrun
    as (c & seen & Hw & E1 & _).
  assert (Hseen : seen = [first]).
  { unfold PICL.walk_cpus in Hw. simpl in Hw. rewrite Hnodes in Hw.
    apply bind_ret_inv in Hw as ([[c1 m1] seen1] & Hw & H). inversion H; subst.
    pose proof (walk_starts _ _ _ _ _ _ Hw ltac:(discriminate)) as Hne.
    pose proof (walk_prefix _ _ _ _ _ _ Hw) as [rest Hpre].
    pose proof (walk_budget _ _ _ _ _ _ Hw) as Hlen. simpl in Hlen.
    destruct seen as [|s0 [|s1 more]]; [congruence| |simpl in Hlen; lia].
    simpl in Hpre. now inversion Hpre. }
  subst seen. split; [|now exists c].
  unfold PICL.walk_cpus in Hw.
  apply bind_ret_inv in Hw as ([[c1 m1] seen1] & Hw & H). inversion H; subst.
  apply walk_l1 in Hw. unfold CPUVisitor.new, CPUVisitor.l1_visitor in Hw; simpl in Hw.
  rewrite (guarded_visit_reading _ _ _ _ _ _ Hfirst) in Hw; simpl in Hw.
  inversion Hw as [Hl1]. rewrite E1.
  unfold CPUVisitor.l1_visitor. simpl. now rewrite <- Hl1.
Qed.

(** The fourth cpu of [mixed_tree] disagrees, and is not looked at. *)
Lemma sun4v_samples_first_node_witness :
  exists picl memo1,
    PICL.new debug_build (all_symbols mixed_tree) 4 0 0 false true None
    = Ret (picl, memo1) /\
    PICL._L1_data_cache_line_size picl = 64.
Proof.
  eexists. eexists. split; [reflexivity|].
  refine (proj1 (sun4v_samples_first_node debug_build (all_symbols mixed_tree) 4 0 0
                   None 0 1 [2; 3; 4] 64 _ _ _ eq_refl eq_refl eq_refl)).
  split; [|split; reflexivity].
  exists 1. split; [reflexivity | repeat constructor].
Defined.

(** X8.  With a budget of at least two nodes, two leading nodes of the
    class that read different L1 line sizes make the L1 size unknown: the
    probe object holds 0. *)
Theorem disagreeing_l1_unknown
    (ae : string -> bool) (d : dl_env) (count u1 u2 : Z)
    (is_fujitsu is_sun4v : bool) (memo : option string) (rooth : picl_nodehdl_t)
    (n1 n2 : picl_nodehdl_t) (others : list picl_nodehdl_t)
    (x1 x2 : Z) (picl : PICL.t) (memo1 : option string)
    (Hreach : walk_is_reached d rooth)
    (Hbudget : 2 <= (if is_sun4v && negb is_fujitsu then 1 else count))
    (Hnodes : picl_class_nodes (dl_picl d) rooth (cpu_class is_fujitsu) = n1 :: n2 :: others)
    (H1 : get_int_property ae (dl_picl d) n1 "l1-dcache-line-size" = Ret (Some x1))
    (H2 : get_int_property ae (dl_picl d) n2 "l1-dcache-line-size" = Ret (Some x2))
    (Hdiff : x1 <> x2)
    (Hrun : PICL.new ae d count u1 u2 is_fujitsu is_sun4v memo = Ret (picl, memo1)) :
  PICL._L1_data_cache_line_size picl = 0 /\ PICL.L1_data_cache_line_size picl = 0.
Proof.
  apply (picl_new_walk _ _ _ _ _ _ _ _ rooth _ _ Hreach) in Hrun
    as (c & seen & Hw & E1 & _).
  assert (Hinc : UniqueValueVisitor.is_assigned (CPUVisitor.l1_visitor c) = false).
  { unfold PICL.walk_cpus in Hw. unfold cpu_class in Hnodes. rewrite Hnodes in Hw.
    apply bind_ret_inv in Hw as ([[c1 m1] seen1] & Hw & H). inversion H; subst.
    pose proof (walk_coverage _ _ _ _ _ _ Hw) as [Hb|Hs].
    - unfold both_inconsistent in Hb. apply andb_true_iff in Hb as [Hb _].
      simpl in Hb. destruct (CPUVisitor.l1_visitor c) as [[] ?]; now try discriminate.
    - simpl in Hs.
      assert (Hs' : exists more, seen = n1 :: n2 :: more).
      { rewrite Hs.
        destruct (Z.to_nat (Z.max 1 (if is_sun4v && negb is_fujitsu then 1 else count)))
          as [|[|k]] eqn:Ek; [lia | lia |]. simpl. now eexists. }
      destruct Hs' as [more ->].
      apply walk_l1 in Hw. unfold CPUVisitor.new, CPUVisitor.l1_visitor in Hw; simpl in Hw.
      rewrite (guarded_visit_reading _ _ _ _ _ _ H1) in Hw; simpl in Hw.
      rewrite (guarded_visit_reading _ _ _ _ _ _ H2) in Hw; simpl in Hw.
      unfold observe in Hw; simpl in Hw.
      destruct (Z.eqb_spec x2 x1); [congruence|].
      assert (Hk : forall w, UniqueValueVisitor._state w = UniqueValueVisitor.INCONSISTENT ->
                   visit_nodes ae (dl_picl d) "l1-dcache-line-size" more w = Ret w).
      { clear. induction more as [|m rest IH]; intros w Hst; [reflexivity|]. simpl.
        rewrite guarded_visit_inconsistent; simpl.
        - now apply IH.
        - unfold UniqueValueVisitor.is_inconsistent. now rewrite Hst. }
      rewrite Hk in Hw by reflexivity.
      inversion Hw as [Hl1]. unfold CPUVisitor.l1_visitor. simpl. now rewrite <- Hl1. }
  rewrite Hinc in E1. split; [exact E1|].
  unfold PICL.L1_data_cache_line_size. now rewrite E1.
Qed.

Lemma disagreeing_l1_unknown_witness :
  exists picl memo1,
    PICL.new debug_build (all_symbols disagreeing_tree) 4 0 0 false false None
    = Ret (picl, memo1) /\
    PICL._L1_data_cache_line_size picl = 0.
Proof.
  eexists. eexists. split; [reflexivity|].
  refine (proj1 (disagreeing_l1_unknown debug_build (all_symbols disagreeing_tree) 4 0 0
                   false false None 0 1 2 [3; 4] 32 64 _ _ _ _ eq_refl eq_refl eq_refl
                   _ eq_refl)).
  - split; [|split; reflexivity].
    exists 1. split; [reflexivity | repeat constructor].
  - simpl. lia.
  - discriminate.
Defined.

Section L2Origin.
Variable ae : string -> bool.
Variable lib : libpicl.

(** After the call for the first node, an ASSIGNED L2 tracker that started
    fresh holds what that node reads under the name now in the static. *)
Lemma visit_l2_origin memo l2 nodeh l2a nm :
  UniqueValueVisitor._state l2 = UniqueValueVisitor.INITIAL ->
  CPUVisitor.visit_l2 ae lib memo l2 nodeh = Ret (l2a, Some nm) ->
  UniqueValueVisitor.is_assigned l2a = true ->
  get_int_property ae lib nodeh nm = Ret (Some (UniqueValueVisitor._value l2a)).
Proof.
  intros Hst H Ha.
  assert (Hinc : UniqueValueVisitor.is_inconsistent l2 = false).
  { unfold UniqueValueVisitor.is_inconsistent. now rewrite Hst. }
  assert (Hobs : forall curr, observe l2 curr
                 = {| UniqueValueVisitor._state := UniqueValueVisitor.ASSIGNED;
                      UniqueValueVisitor._value := curr |}).
  { intros curr. unfold observe. now rewrite Hst. }
  assert (Hna : UniqueValueVisitor.is_assigned l2 = false).
  { unfold UniqueValueVisitor.is_assigned. now rewrite Hst. }
  unfold CPUVisitor.visit_l2 in H. destruct memo as [nm0|].
  - apply bind_ret_inv in H as (l2x & Hg & H). inversion H; subst.
    unfold CPUVisitor.visit_unless_inconsistent in Hg. rewrite Hinc in Hg; simpl in Hg.
    apply bind_ret_inv in Hg as ([found l2y] & Hv & Hg). inversion Hg; subst.
    apply visit_inv in Hv as [(_ & curr & Hget & ->)|(_ & _ & ->)]; [| |exact Hinc].
    + now rewrite Hobs.
    + congruence.
  - apply bind_ret_inv in H as (_ & _ & H).
    apply bind_ret_inv in H as ([found l2x] & Hv & H).
    apply visit_inv in Hv as [(-> & curr & Hget & ->)|(-> & _ & ->)]; [| |exact Hinc];
      simpl in H.
    + inversion H; subst. now rewrite Hobs.
    + apply bind_ret_inv in H as ([found2 l2y] & Hv & H). inversion H; subst.
      apply visit_inv in Hv as [(_ & curr & Hget & ->)|(_ & _ & ->)]; [| |exact Hinc].
      * now rewrite Hobs.
      * congruence.
Qed.

(** The first call when every read of the chosen name gives [y]. *)
Lemma visit_l2_first l2 nodeh nm y :
  UniqueValueVisitor._state l2 = UniqueValueVisitor.INITIAL ->
  nm = "l2-cache-line-size" \/
  (nm = "l2-dcache-line-size" /\
   get_int_property ae lib nodeh "l2-cache-line-size" = Ret None) ->
  get_int_property ae lib nodeh nm = Ret (Some y) ->
  CPUVisitor.visit_l2 ae lib None l2 nodeh
  = Ret ({| UniqueValueVisitor._state := UniqueValueVisitor.ASSIGNED;
            UniqueValueVisitor._value := y |}, Some nm).
Proof.
  intros Hst Hname Hget.
  assert (Hinc : UniqueValueVisitor.is_inconsistent l2 = false).
  { unfold UniqueValueVisitor.is_inconsistent. now rewrite Hst. }
  assert (Hobs : observe l2 y
                 = {| UniqueValueVisitor._state := UniqueValueVisitor.ASSIGNED;
                      UniqueValueVisitor._value := y |}).
  { unfold observe. now rewrite Hst. }
  unfold CPUVisitor.visit_l2. rewrite Hinc; simpl negb. rewrite assert_holds; simpl.
  destruct Hname as [-> | [-> Hnone]].
  - rewrite (visit_reading _ _ _ _ _ _ Hget Hinc); simpl. now rewrite Hobs.
  - rewrite (visit_no_reading _ _ _ _ _ Hnone Hinc); simpl.
    rewrite (visit_reading _ _ _ _ _ _ Hget Hinc); simpl. now rewrite Hobs.
Qed.

End L2Origin.

(** X9.  The probe invents no value: a nonzero L1 size in the probe object
    is what some node of the walked class reads as "l1-dcache-line-size",
    and a nonzero L2 size is what some node of the class reads under the
    name the static holds afterwards. *)
Theorem reported_sizes_come_from_nodes
    (ae : string -> bool) (d : dl_env) (count u1 u2 : Z)
    (is_fujitsu is_sun4v : bool) (memo : option string)
    (picl : PICL.t) (memo1 : option string)
    (Hrun : PICL.new ae d count u1 u2 is_fujitsu is_sun4v memo = Ret (picl, memo1)) :
  (PICL._L1_data_cache_line_size picl <> 0 ->
   exists rooth nodeh,
     picl_get_root (dl_picl d) = Some rooth /\
     In nodeh (picl_class_nodes (dl_picl d) rooth (cpu_class is_fujitsu)) /\
     get_int_property ae (dl_picl d) nodeh "l1-dcache-line-size"
     = Ret (Some (PICL._L1_data_cache_line_size picl))) /\
  (PICL._L2_data_cache_line_size picl <> 0 ->
   exists rooth nodeh nm,
     picl_get_root (dl_picl d) = Some rooth /\
     In nodeh (picl_class_nodes (dl_picl d) rooth (cpu_class is_fujitsu)) /\
     memo1 = Some nm /\
     get_int_property ae (dl_picl d) nodeh nm
     = Ret (Some (PICL._L2_data_cache_line_size picl))).
Proof.
  apply picl_new_inv in Hrun
    as (_ & [(E1 & E2 & _)|(rooth & c & seen & Hroot & Hw & E1 & E2)]).
  { split; intros H; congruence. }
  unfold PICL.walk_cpus in Hw.
  apply bind_ret_inv in Hw as ([[c1 m1] seen1] & Hw & H). inversion H; subst.
  pose proof (walk_prefix _ _ _ _ _ _ Hw) as [rest Hpre].
  fold (cpu_class is_fujitsu) in Hpre.
  split; intros Hnz.
  - destruct (UniqueValueVisitor.is_assigned (CPUVisitor.l1_visitor c)) eqn:Ha;
      [|congruence].
    apply walk_l1 in Hw.
    apply visit_nodes_origin in Hw as [[Hfresh _]|(n & Hin & Hn)]; [discriminate| |exact Ha].
    exists rooth, n. split; [exact Hroot|]. split.
    + rewrite Hpre. apply in_or_app. now left.
    + now rewrite E1.
  - destruct (UniqueValueVisitor.is_assigned (CPUVisitor.l2_visitor c)) eqn:Ha;
      [|congruence].
    apply walk_l2 in Hw. destruct seen as [|first more].
    + inversion Hw; subst. discriminate.
    + destruct Hw as (l2a & nm & Hfirst & Hm & Hmore). simpl in Hm. subst memo1.
      simpl in Hmore.
      pose proof Hmore as Hmore'.
      apply visit_nodes_origin in Hmore as [[Ha2 Ev]|(n & Hin & Hn)]; [| |exact Ha].
      * exists rooth, first, nm. split; [exact Hroot|]. split.
        { rewrite Hpre. now left. }
        split; [reflexivity|].
        rewrite E2. simpl in Ev. rewrite Ev.
        now apply (visit_l2_origin ae (dl_picl d) memo
                     (CPUVisitor.l2_visitor (CPUVisitor.new u1 u2
                        (if is_sun4v && negb is_fujitsu then 1 else count)))).
      * exists rooth, n, nm. split; [exact Hroot|]. split.
        { rewrite Hpre. right. apply in_or_app. now left. }
        split; [reflexivity|]. now rewrite E2.
Qed.

Lemma reported_sizes_come_from_nodes_witness :
  exists picl nodeh,
    PICL.new debug_build (all_symbols renamed_tree) 4 0 0 false false None
    = Ret (picl, Some "l2-dcache-line-size") /\
    PICL._L2_data_cache_line_size picl = 64 /\
    In nodeh [1; 2] /\
    get_int_property debug_build renamed_tree nodeh "l2-dcache-line-size" = Ret (Some 64).
Proof.
  destruct (proj2 (reported_sizes_come_from_nodes debug_build (all_symbols renamed_tree)
                     4 0 0 false false None _ _ eq_refl))
    as (rooth & nodeh & nm & Hroot & Hin & Hnm & Hget).
  - discriminate.
  - eexists. exists nodeh. split; [reflexivity|]. split; [reflexivity|].
    inversion Hnm; subst nm. split; [exact Hin | exact Hget].
Defined.

(** X10.  The L2 size that is published.  Let the static be NULL, the walk be
    reached and the class have the nodes [first :: others].  Let [nm] be the
    primary name "l2-cache-line-size", or the fallback name
    "l2-dcache-line-size" when [first] has no readable property under the
    primary name, and let every node read [y] under [nm].  Then
    [platform_features] stores [y], as an unsigned int, in
    [_L2_data_cache_line_size], and leaves [nm] in the static. *)
Theorem published_l2_size
    (ae : string -> bool) (hdr : auxv_SPARC) (M : Feature_Flag_Set) (os : os_env)
    (u1 u2 : Z) (Other : Type) (baseline : Z) (g : VM_Version.statics Other)
    (f : Z) (g1 : VM_Version.statics Other)
    (rooth first : picl_nodehdl_t) (others : list picl_nodehdl_t) (nm : string) (y : Z)
    (Hstatic : VM_Version.l2_data_cache_line_property_name g = None)
    (Hreach : walk_is_reached (dl os) rooth)
    (Hnodes : picl_class_nodes (dl_picl (dl os)) rooth
                (cpu_class (negb (Z.land f (sparc64_family_m M) =? 0)))
              = first :: others)
    (Hname : nm = "l2-cache-line-size" \/
             (nm = "l2-dcache-line-size" /\
              get_int_property ae (dl_picl (dl os)) first "l2-cache-line-size" = Ret None))
    (Hall : Forall (fun nodeh => get_int_property ae (dl_picl (dl os)) nodeh nm
                                 = Ret (Some y)) (first :: others))
    (Hrun : VM_Version.platform_features ae hdr M os u1 u2 baseline g = Ret (f, g1)) :
  VM_Version._L2_data_cache_line_size g1 = to_uint y /\
  VM_Version.l2_data_cache_line_property_name g1 = Some nm.
Proof.
  apply platform_features_inv in Hrun as (_ & picl & memo1 & Hp & ->). simpl.
  rewrite Hstatic in Hp. unfold VM_Version.cache_probe in Hp.
  apply (picl_new_walk _ _ _ _ _ _ _ _ rooth _ _ Hreach) in Hp
    as (c & seen & Hw & _ & E2).
  unfold PICL.walk_cpus in Hw. unfold cpu_class in Hnodes. rewrite Hnodes in Hw.
  apply bind_ret_inv in Hw as ([[c1 m1] seen1] & Hw & H). inversion H; subst.
  pose proof (walk_starts _ _ _ _ _ _ Hw ltac:(discriminate)) as Hne.
  pose proof (walk_prefix _ _ _ _ _ _ Hw) as [rest Hpre].
  apply walk_l2 in Hw.
  destruct seen as [|first' more]; [congruence|].
  simpl in Hpre. inversion Hpre; subst first' others.
  destruct Hw as (l2a & nm' & Hfirst & Hm & Hmore). simpl in Hm. subst memo1.
  inversion Hall as [|? ? Hy Hrest]; subst.
  apply Forall_app in Hrest as [Hmore_y _].
  match type of Hfirst with
  | CPUVisitor.visit_l2 _ _ _ ?l2 _ = _ =>
    rewrite (visit_l2_first ae (dl_picl (dl os)) l2 first nm y eq_refl Hname Hy) in Hfirst
  end.
  inversion Hfirst; subst l2a nm'.
  rewrite (visit_nodes_same ae (dl_picl (dl os)) nm y more
             {| UniqueValueVisitor._state := UniqueValueVisitor.ASSIGNED;
                UniqueValueVisitor._value := y |} Hmore_y eq_refl eq_refl) in Hmore.
  simpl in Hmore. inversion Hmore as [Hl2].
  unfold PICL.L2_data_cache_line_size. rewrite E2, <- Hl2. simpl. now split.
Qed.

(** A machine whose cpus only have "l2-dcache-line-size". *)
Lemma published_l2_size_witness :
  exists f g1,
    VM_Version.platform_features debug_build sample_auxv sample_flags
      (solaris10_host 0x63 "sun4u" "UltraSPARC-IIIi" (all_symbols fallback_tree))
      0 0 0 (at_startup tt) = Ret (f, g1) /\
    VM_Version._L2_data_cache_line_size g1 = to_uint 64 /\
    VM_Version.l2_data_cache_line_property_name g1 = Some "l2-dcache-line-size".
Proof.
  eexists. eexists. split; [reflexivity|].
  refine (published_l2_size debug_build sample_auxv sample_flags
            (solaris10_host 0x63 "sun4u" "UltraSPARC-IIIi" (all_symbols fallback_tree))
            0 0 unit 0 (at_startup tt) 239 _ 0 1 [2; 3] "l2-dcache-line-size" 64
            eq_refl _ eq_refl _ _ eq_refl).
  - split; [|split; reflexivity].
    exists 1. split; [reflexivity | repeat constructor].
  - right. split; reflexivity.
  - repeat constructor.
Defined.

(** ** The library handle and the static *)

(** X11.  The library never stays open: whenever the constructor returns,
    the handle of the object is NULL again. *)
Theorem constructor_closes_library
    (ae : string -> bool) (d : dl_env) (count u1 u2 : Z)
    (is_fujitsu is_sun4v : bool) (memo : option string)
    (picl : PICL.t) (memo1 : option string)
    (Hrun : PICL.new ae d count u1 u2 is_fujitsu is_sun4v memo = Ret (picl, memo1)) :
  PICL._dl_handle picl = None.
Proof. now apply picl_new_inv in Hrun as (Hh & _). Qed.

Lemma constructor_closes_library_witness :
  exists picl memo1,
    PICL.new debug_build (all_symbols uniform_tree) 4 0 0 false false None
    = Ret (picl, memo1) /\
    PICL._dl_handle picl = None.
Proof.
  eexists. eexists. split; [reflexivity|].
  exact (constructor_closes_library debug_build (all_symbols uniform_tree) 4 0 0
           false false None _ _ eq_refl).
Defined.

Lemma bind_library_functions_true (ae : string -> bool) (d : dl_env) (this : PICL.t) :
  PICL.bind_library_functions ae d this = Ret true ->
  exists h, PICL._dl_handle this = Some h /\
            Forall (fun sym => dlsym d h sym = true) entry_points.
Proof.
  unfold PICL.bind_library_functions, PICL.bind. intros H.
  apply bind_ret_inv in H as (_ & _ & H). injection H as Hb.
  destruct (PICL._dl_handle this) as [h|]; [|discriminate].
  exists h. split; [reflexivity|].
  repeat (apply andb_true_iff in Hb as [Hb ?]).
  unfold entry_points. repeat constructor; assumption.
Qed.

(** X12.  The binding is all or nothing.  [open_library] answers true
    exactly when libpicl.so.1 loads and each of the seven entry points
    resolves, and the object then holds the handle; when it answers false
    the object holds no handle, so a library that loaded with an entry point
    missing has been closed again. *)
Theorem open_library_all_or_nothing
    (ae : string -> bool) (d : dl_env) (this this1 : PICL.t) :
  (PICL.open_library ae d this = Ret (true, this1) <->
   exists h,
     dlopen d "libpicl.so.1" = Some h /\
     Forall (fun sym => dlsym d h sym = true) entry_points /\
     this1 = PICL.with_dl_handle this (Some h)) /\
  (PICL.open_library ae d this = Ret (false, this1) ->
   PICL._dl_handle this1 = None).
Proof.
  split; [split|].
  - unfold PICL.open_library.
    destruct (dlopen d "libpicl.so.1") as [h|] eqn:Hopen; simpl; [|discriminate].
    intros H. apply bind_ret_inv in H as (bound & Hb & H).
    destruct bound; simpl in H.
    + inversion H; subst.
      apply bind_library_functions_true in Hb as (h' & Hh & Hall).
      simpl in Hh. inversion Hh; subst h'. now exists h.
    + apply bind_ret_inv in H as (_ & _ & H).
      apply bind_ret_inv in H as (? & _ & H). discriminate.
  - intros (h & Hopen & Hall & ->). now apply open_library_bound.
  - unfold PICL.open_library.
    destruct (dlopen d "libpicl.so.1") as [h|] eqn:Hopen; simpl.
    + intros H. apply bind_ret_inv in H as (bound & Hb & H).
      destruct bound; simpl in H; [discriminate|].
      apply bind_ret_inv in H as (_ & _ & H).
      apply bind_ret_inv in H as (this2 & Hc & H).
      unfold PICL.close_library in Hc. apply bind_ret_inv in Hc as (_ & _ & Hc).
      now inversion Hc; inversion H; subst.
    + intros H. now inversion H; subst.
Qed.

(** X13.  The static of [CPUVisitor::visit] is written at most once in the
    life of the process: a constructor that starts with a name in the static
    ends with the same name, and one that starts with NULL ends with NULL,
    with the primary or with the fallback name.  It ends with NULL only if
    the callback never ran, and both sizes are then 0. *)
Theorem static_is_set_once
    (ae : string -> bool) (d : dl_env) (count u1 u2 : Z)
    (is_fujitsu is_sun4v : bool) (memo : option string)
    (picl : PICL.t) (memo1 : option string)
    (Hrun : PICL.new ae d count u1 u2 is_fujitsu is_sun4v memo = Ret (picl, memo1)) :
  (forall nm, memo = Some nm -> memo1 = Some nm) /\
  (memo = None ->
   memo1 = None \/ memo1 = Some "l2-cache-line-size" \/ memo1 = Some "l2-dcache-line-size") /\
  (memo1 = None ->
   PICL._L1_data_cache_line_size picl = 0 /\ PICL._L2_data_cache_line_size picl = 0).
Proof.
  apply picl_new_inv in Hrun
    as (_ & [(E1 & E2 & ->)|(rooth & c & seen & Hroot & Hw & E1 & E2)]).
  { repeat split; auto. }
  unfold PICL.walk_cpus in Hw.
  apply bind_ret_inv in Hw as ([[c1 m1] seen1] & Hw & H). inversion H; subst.
  apply walk_l2 in Hw. destruct seen as [|first more].
  - inversion Hw; subst. repeat split; auto.
  - destruct Hw as (l2a & nm & Hfirst & Hm & _). simpl in Hm. subst memo1.
    apply visit_l2_name in Hfirst.
    split; [|split].
    + intros nm0 ->. now subst.
    + intros ->. destruct Hfirst as [-> | ->]; auto.
    + discriminate.
Qed.

(** A second construction in the same process, on a machine whose cpus only
    have the primary name, keeps the fallback name it finds in the static
    and so learns no L2 size. *)
Lemma static_is_set_once_witness :
  exists picl memo1,
    PICL.new debug_build (all_symbols uniform_tree) 4 0 0 false false
      (Some "l2-dcache-line-size") = Ret (picl, memo1) /\
    memo1 = Some "l2-dcache-line-size" /\
    PICL._L2_data_cache_line_size picl = 0.
Proof.
  eexists. eexists. split; [reflexivity|]. split; [|reflexivity].
  exact (proj1 (static_is_set_once debug_build (all_symbols uniform_tree) 4 0 0
                  false false (Some "l2-dcache-line-size") _ _ eq_refl)
               "l2-dcache-line-size" eq_refl).
Defined.

(** ** Which assertions can stop the constructor *)

Section Causes.
Variable ae : string -> bool.
Variable lib : libpicl.

Lemma stops_for_bind {A B : Type} (m : run A) (k : A -> run B) :
  stops_for m = true ->
  (forall a, m = Ret a -> stops_for (k a) = true) ->
  stops_for (run_bind m k) = true.
Proof.
  destruct m as [a|e]; simpl; intros Hm Hk; [now apply Hk | exact Hm].
Qed.

Lemma get_int_property_causes nodeh nm :
  stops_for (get_int_property ae lib nodeh nm) = true.
Proof.
  unfold get_int_property.
  destruct (picl_get_prop_by_name lib nodeh nm) as [proph|]; [|reflexivity].
  destruct (picl_get_propinfo lib proph) as [pinfo|]; [|reflexivity].
  destruct (_ && _).
  { unfold assert_. now destruct (ae _). }
  destruct (size pinfo =? 8).
  - now destruct (picl_get_propval lib proph 8).
  - destruct (size pinfo =? 4).
    + now destruct (picl_get_propval lib proph 4).
    + unfold assert_. now destruct (ae _).
Qed.

Lemma visit_causes v nodeh nm :
  UniqueValueVisitor.is_inconsistent v = false ->
  stops_for (UniqueValueVisitor.visit ae lib v nodeh nm) = true.
Proof.
  intros Hinc. unfold UniqueValueVisitor.visit.
  rewrite Hinc; simpl negb. rewrite assert_holds; simpl.
  apply stops_for_bind; [apply get_int_property_causes|].
  intros [curr|] _; [|reflexivity].
  destruct v as [st val]; destruct st; try discriminate; simpl.
  - unfold UniqueValueVisitor.set_value; simpl. now rewrite assert_holds.
  - unfold UniqueValueVisitor.value; simpl. rewrite assert_holds; simpl.
    now destruct (curr =? val).
Qed.

Lemma guarded_visit_causes v nodeh nm :
  stops_for (CPUVisitor.visit_unless_inconsistent ae lib v nodeh nm) = true.
Proof.
  unfold CPUVisitor.visit_unless_inconsistent.
  destruct (UniqueValueVisitor.is_inconsistent v) eqn:Hinc; simpl; [reflexivity|].
  apply stops_for_bind; [now apply visit_causes | now intros [? ?] _].
Qed.

Lemma cpu_visit_causes nodeh arg :
  memo_invariant arg ->
  stops_for (CPUVisitor.visit ae lib nodeh arg) = true.
Proof.
  destruct arg as [c memo]. unfold memo_invariant; simpl. intros Hinv.
  unfold CPUVisitor.visit.
  apply stops_for_bind; [apply guarded_visit_causes|]. intros l1 _.
  apply stops_for_bind.
  - unfold CPUVisitor.visit_l2. destruct memo as [nm|].
    + apply stops_for_bind; [apply guarded_visit_causes | reflexivity].
    + specialize (Hinv eq_refl).
      rewrite Hinv; simpl negb. rewrite assert_holds; simpl.
      apply stops_for_bind; [now apply visit_causes|].
      intros [found l2a] Hv. destruct found; simpl; [reflexivity|].
      apply visit_not_found in Hv; subst l2a.
      apply stops_for_bind; [now apply visit_causes | now intros [? ?] _].
  - intros [l2 memo1] _. destruct (_ && _); [reflexivity|].
    now destruct (_ <=? _).
Qed.

Lemma walk_causes nodes : forall arg,
  memo_invariant arg ->
  stops_for (picl_walk_tree_by_class (CPUVisitor.visit ae lib) nodes arg) = true.
Proof.
  induction nodes as [|n rest IH]; intros arg Hinv; simpl; [reflexivity|].
  apply stops_for_bind; [now apply cpu_visit_causes|].
  intros [answer arg1] Hv. destruct answer; [|reflexivity].
  apply stops_for_bind.
  - apply IH. intros Hnone. now apply cpu_visit_memo in Hv.
  - now intros [? ?] _.
Qed.

End Causes.

(** X14.  Three assertions, and nothing else, can stop the constructor:
    "Invalid property type" and "Unexpected integer property size" in
    [get_int_property], and "unexpected PICL API change" in [open_library].
    The assertions "Precondition", "First iteration cannot be inconsistent"
    and "library should be open" always hold where the constructor reaches
    them. *)
Theorem constructor_stops_for
    (ae : string -> bool) (d : dl_env) (count u1 u2 : Z)
    (is_fujitsu is_sun4v : bool) (memo : option string) (e : vm_error)
    (Hstop : PICL.new ae d count u1 u2 is_fujitsu is_sun4v memo = Fatal e) :
  e = assert_failed "Invalid property type" \/
  e = assert_failed "Unexpected integer property size" \/
  e = assert_failed "unexpected PICL API change".
Proof.
  assert (H : stops_for (PICL.new ae d count u1 u2 is_fujitsu is_sun4v memo) = true).
  { assert (Hclose : forall this, PICL.is_open this = true ->
                       stops_for (PICL.close_library ae this) = true).
    { intros this Ho. unfold PICL.close_library. now rewrite Ho, assert_holds. }
    unfold PICL.new.
    apply stops_for_bind.
    - unfold PICL.open_library.
      destruct (PICL.is_open _) eqn:Ho; simpl; [|reflexivity].
      apply stops_for_bind.
      + unfold PICL.bind_library_functions. now rewrite Ho, assert_holds.
      + intros bound _. destruct (negb bound); [|reflexivity].
        apply stops_for_bind; [unfold assert_; now destruct (ae _)|]. intros _ _.
        apply stops_for_bind; [now apply Hclose | reflexivity].
    - intros [opened this] Hopen. destruct opened; simpl; [|reflexivity].
      assert (Ho : PICL.is_open this = true).
      { unfold PICL.open_library in Hopen.
        destruct (PICL.is_open _) eqn:Ho; simpl in Hopen; [|discriminate].
        apply bind_ret_inv in Hopen as (bound & _ & Hopen).
        destruct bound; simpl in Hopen.
        - now inversion Hopen; subst.
        - apply bind_ret_inv in Hopen as (_ & _ & Hopen).
          apply bind_ret_inv in Hopen as (? & _ & Hopen). discriminate. }
      apply stops_for_bind.
      + destruct (picl_initialize (dl_picl d)); [|reflexivity].
        apply stops_for_bind; [|now intros [? ?] _].
        destruct (picl_get_root (dl_picl d)) as [rooth|]; [|reflexivity].
        apply stops_for_bind.
        * unfold PICL.walk_cpus.
          apply stops_for_bind; [|now intros [? ?] _].
          apply walk_causes. intros _. reflexivity.
        * intros [[c memo1] seen] _.
          assert (Hval : forall v dflt,
                     stops_for (if UniqueValueVisitor.is_assigned v
                                then UniqueValueVisitor.value ae v else Ret dflt) = true).
          { intros v dflt. destruct v as [[] val]; simpl; try reflexivity.
            unfold UniqueValueVisitor.value; simpl. now rewrite assert_holds. }
          apply stops_for_bind; [apply Hval|]. intros l1 _.
          apply stops_for_bind; [apply Hval|]. intros l2 _.
          reflexivity.
      + intros [this1 memo1] Hmid.
        assert (Ho1 : PICL.is_open this1 = true).
        { destruct (picl_initialize (dl_picl d)); [|now inversion Hmid; subst].
          apply bind_ret_inv in Hmid as ([this4 memo4] & Hroot & Hmid).
          inversion Hmid; subst.
          destruct (picl_get_root (dl_picl d)) as [rooth|];
            [|now inversion Hroot; subst].
          apply bind_ret_inv in Hroot as ([[c memo5] seen] & _ & Hroot).
          apply bind_ret_inv in Hroot as (l1 & _ & Hroot).
          apply bind_ret_inv in Hroot as (l2 & _ & Hroot).
          inversion Hroot; subst. exact Ho. }
        apply stops_for_bind; [now apply Hclose | reflexivity]. }
  rewrite Hstop in H. simpl in H.
  destruct e as [msg|msg]; [|discriminate].
  unfold allowed_stop in H.
  repeat (apply orb_true_iff in H as [H|H]);
    apply String.eqb_eq in H; subst; auto.
Qed.

Lemma constructor_stops_for_witness :
  PICL.new debug_build (all_symbols mistyped_tree) 4 0 0 false false None
  = Fatal (assert_failed "Invalid property type").
Proof.
  destruct (constructor_stops_for debug_build (all_symbols mistyped_tree) 4 0 0
              false false None _ eq_refl) as [H|[H|H]];
    try discriminate H.
  reflexivity.
Defined.

(** ** The bits platform_features adds do not depend on the baseline *)

(** X15.  What [platform_features] adds to the mask is fixed by the host:
    the mask returned for a baseline is the baseline joined with the mask
    returned for the empty baseline. *)
Theorem added_bits_independent_of_baseline
    (ae : string -> bool) (hdr : auxv_SPARC) (M : Feature_Flag_Set) (os : os_env)
    (u1 u2 : Z) (Other : Type) (baseline : Z) (g g' : VM_Version.statics Other)
    (f f0 : Z) (g1 g1' : VM_Version.statics Other)
    (Hrun : VM_Version.platform_features ae hdr M os u1 u2 baseline g = Ret (f, g1))
    (Hrun0 : VM_Version.platform_features ae hdr M os u1 u2 0 g' = Ret (f0, g1')) :
  f = Z.lor baseline f0.
Proof.
  apply platform_features_inv in Hrun as (Ha & _).
  apply platform_features_inv in Hrun0 as (Ha0 & _).
  rewrite <- (Z.lor_0_r baseline) in Ha.
  rewrite assemble_features_adds, Ha0 in Ha. simpl in Ha. now inversion Ha.
Qed.

Lemma added_bits_independent_of_baseline_witness :
  exists g1 g1',
    VM_Version.platform_features debug_build sample_auxv sample_flags
      (solaris10_host 0x63 "sun4v" "SPARC-T4" (all_symbols uniform_tree))
      0 0 (aes_instructions_m sample_flags) (at_startup tt)
    = Ret (Z.lor (aes_instructions_m sample_flags) 66031, g1) /\
    VM_Version.platform_features debug_build sample_auxv sample_flags
      (solaris10_host 0x63 "sun4v" "SPARC-T4" (all_symbols uniform_tree))
      0 0 0 (at_startup tt) = Ret (66031, g1') /\
    Z.lor (aes_instructions_m sample_flags) 66031
    = Z.lor (aes_instructions_m sample_flags) 66031.
Proof.
  do 2 eexists. split; [reflexivity|]. split; [reflexivity|].
  exact (added_bits_independent_of_baseline debug_build sample_auxv sample_flags
           (solaris10_host 0x63 "sun4v" "SPARC-T4" (all_symbols uniform_tree))
           0 0 unit (aes_instructions_m sample_flags) (at_startup tt) (at_startup tt)
           (Z.lor (aes_instructions_m sample_flags) 66031) 66031 _ _ eq_refl eq_refl).
Defined.

(** X16.  Probing again adds nothing: [platform_features] run on a mask it
    has returned gives that mask back. *)
Theorem platform_features_idempotent
    (ae : string -> bool) (hdr : auxv_SPARC) (M : Feature_Flag_Set) (os : os_env)
    (u1 u2 : Z) (Other : Type) (baseline : Z) (g g2 : VM_Version.statics Other)
    (f f' : Z) (g1 g3 : VM_Version.statics Other)
    (Hrun : VM_Version.platform_features ae hdr M os u1 u2 baseline g = Ret (f, g1))
    (Hagain : VM_Version.platform_features ae hdr M os u1 u2 f g2 = Ret (f', g3)) :
  f' = f.
Proof.
  apply platform_features_inv in Hrun as (Ha & _).
  apply platform_features_inv in Hagain as (Hb & _).
  rewrite <- (Z.lor_0_r baseline) in Ha.
  rewrite assemble_features_adds in Ha.
  rewrite <- (Z.lor_0_r f) in Hb.
  rewrite assemble_features_adds in Hb.
  destruct (VM_Version.assemble_features ae hdr M os 0) as [g0|e]; simpl in *;
    [|discriminate].
  inversion Ha; inversion Hb; subst.
  now rewrite <- Z.lor_assoc, Z.lor_diag.
Qed.

Lemma platform_features_idempotent_witness :
  VM_Version.platform_features debug_build sample_auxv sample_flags
    (solaris10_host 0x63 "sun4v" "SPARC-T4" (all_symbols uniform_tree))
    0 0 0 (at_startup tt)
  = Ret (66031, {| VM_Version._L2_data_cache_line_size := 128;
                   VM_Version.l2_data_cache_line_property_name := Some "l2-cache-line-size";
                   VM_Version.other := tt |}) /\
  VM_Version.platform_features debug_build sample_auxv sample_flags
    (solaris10_host 0x63 "sun4v" "SPARC-T4" (all_symbols uniform_tree))
    0 0 66031 (at_startup tt)
  = Ret (66031, {| VM_Version._L2_data_cache_line_size := 128;
                   VM_Version.l2_data_cache_line_property_name := Some "l2-cache-line-size";
                   VM_Version.other := tt |}) /\
  66031 = 66031.
Proof.
  split; [reflexivity|]. split; [reflexivity|].
  exact (platform_features_idempotent debug_build sample_auxv sample_flags
           (solaris10_host 0x63 "sun4v" "SPARC-T4" (all_symbols uniform_tree))
           0 0 unit 0 (at_startup tt) (at_startup tt) 66031 66031
           {| VM_Version._L2_data_cache_line_size := 128;
              VM_Version.l2_data_cache_line_property_name := Some "l2-cache-line-size";
              VM_Version.other := tt |}
           {| VM_Version._L2_data_cache_line_size := 128;
              VM_Version.l2_data_cache_line_property_name := Some "l2-cache-line-size";
              VM_Version.other := tt |}
           eq_refl eq_refl).
Defined.

(** ** The cpu_info record *)

Lemma scan_cpu_info_none (M : Feature_Flag_Set) knm : forall impl f,
  Forall (fun e => String.eqb (name e) "implementation" = false) knm ->
  VM_Version.scan_cpu_info M knm impl f = (f, impl).
Proof.
  induction knm as [|k rest IH]; intros impl f H; [reflexivity|].
  inversion H as [|? ? Hk Hrest]; subst. simpl. rewrite Hk. now apply IH.
Qed.

(** X17.  Without an "implementation" entry the kstat step adds no bit; it
    stops a build that has the assertion "unknown cpu info (changed kstat
    interface?)" compiled in and returns the mask unchanged otherwise. *)
Theorem kstat_without_implementation
    (ae : string -> bool) (M : Feature_Flag_Set) (os : os_env) (features : Z)
    (Hnone : no_implementation_entry os) :
  VM_Version.kstat_features ae M os features
  = if ae "unknown cpu info (changed kstat interface?)"
    then Fatal (assert_failed "unknown cpu info (changed kstat interface?)")
    else Ret features.
Proof.
  assert (E : (assert_ ae (negb (String.eqb "UNKNOWN" "UNKNOWN"))
                 "unknown cpu info (changed kstat interface?)" ;; Ret features)
              = if ae "unknown cpu info (changed kstat interface?)"
                then Fatal (assert_failed "unknown cpu info (changed kstat interface?)")
                else Ret features).
  { unfold assert_. simpl. now destruct (ae _). }
  unfold no_implementation_entry in Hnone. unfold VM_Version.kstat_features.
  destruct (kstat_lookup os) as [ksp|]; [|exact E].
  destruct Hnone as [-> | Hnone]; [exact E|].
  destruct (kstat_read os); [|exact E].
  destruct (ks_data ksp) as [knm|]; [|exact E].
  rewrite (scan_cpu_info_none M knm _ _ Hnone). exact E.
Qed.

Lemma kstat_without_implementation_witness :
  VM_Version.kstat_features product_build sample_flags (silent_host 0) 5 = Ret 5 /\
  VM_Version.kstat_features debug_build sample_flags (silent_host 0) 5
  = Fatal (assert_failed "unknown cpu info (changed kstat interface?)").
Proof.
  split.
  - exact (kstat_without_implementation product_build sample_flags (silent_host 0) 5 I).
  - exact (kstat_without_implementation debug_build sample_flags (silent_host 0) 5 I).
Defined.

Lemma family_features_known (M : Feature_Flag_Set) (impl : string) (f : Z) :
  String.eqb (snd (VM_Version.family_features M impl f)) "UNKNOWN" = false.
Proof.
  destruct (String.eqb_spec impl "UNKNOWN") as [->|Hne]; [reflexivity|].
  assert (E : String.eqb impl "UNKNOWN" = false).
  { now destruct (String.eqb_spec impl "UNKNOWN"). }
  unfold VM_Version.family_features.
  repeat match goal with
         | |- context [if ?c then _ else _] => destruct c
         end; simpl; auto.
Qed.

Lemma scan_cpu_info_known (M : Feature_Flag_Set) knm : forall f,
  Exists (fun e => name e = "implementation") knm ->
  String.eqb (snd (VM_Version.scan_cpu_info M knm "UNKNOWN" f)) "UNKNOWN" = false.
Proof.
  induction knm as [|k rest IH]; intros f H; [inversion H|]. simpl.
  destruct (String.eqb_spec (name k) "implementation") as [E|N].
  - apply family_features_known.
  - inversion H; subst; [contradiction | now apply IH].
Qed.

(** X18.  With an "implementation" entry in the record the kstat step
    returns in every build, whatever the entry's type and text: the
    assertion on the implementation name cannot fail.  The mask returned
    contains the incoming one. *)
Theorem kstat_with_implementation
    (ae : string -> bool) (M : Feature_Flag_Set) (os : os_env) (features : Z)
    (Hentry : has_implementation_entry os) :
  exists f, VM_Version.kstat_features ae M os features = Ret f /\ covers f features.
Proof.
  destruct Hentry as (ksp & knm & Hl & Hr & Hd & Hex).
  unfold VM_Version.kstat_features. rewrite Hl, Hr, Hd.
  pose proof (scan_cpu_info_known M knm features Hex) as Hk.
  pose proof (scan_cpu_info_covers M knm "UNKNOWN" features) as Hc.
  destruct (VM_Version.scan_cpu_info M knm "UNKNOWN" features) as [f impl].
  simpl in Hk, Hc. rewrite Hk; simpl. rewrite assert_holds; simpl.
  now exists f.
Qed.

(** An implementation text that names no known family: the debug build
    returns as well. *)
Lemma kstat_with_implementation_witness :
  exists f,
    VM_Version.kstat_features debug_build sample_flags
      (solaris10_host 0 "sun4u" "(unsupported)" (no_library uniform_tree)) 0 = Ret f /\
    covers f 0.
Proof.
  refine (kstat_with_implementation debug_build sample_flags
            (solaris10_host 0 "sun4u" "(unsupported)" (no_library uniform_tree)) 0 _).
  eexists _, _. repeat split; try reflexivity.
  apply Exists_cons_tl. now apply Exists_cons_hd.
Defined.

(** X19.  An implementation text without "SPARC" (as the "(unsupported)" of
    a branded zone) adds no bit and stops no build. *)
Theorem unknown_implementation_adds_nothing
    (ae : string -> bool) (M : Feature_Flag_Set) (os : os_env)
    (implementation : string) (features : Z)
    (Hread : reads_implementation os implementation)
    (Hnone : contains (upcase implementation) "SPARC" = false) :
  VM_Version.kstat_features ae M os features = Ret features.
Proof.
  rewrite (kstat_features_read ae M os implementation features Hread).
  assert (Hno : forall marker, String.prefix "SPARC" marker = true ->
                  VM_Version.is_found (strstr (upcase implementation) marker) = false).
  { intros marker Hp.
    destruct (VM_Version.is_found (strstr (upcase implementation) marker)) eqn:E;
      [|reflexivity].
    apply (contains_prefix "SPARC" marker) in E; [|exact Hp]. congruence. }
  unfold VM_Version.family_features.
  rewrite (Hno "SPARC64" eq_refl), (Hno "SPARC-M" eq_refl), (Hno "SPARC-T" eq_refl).
  unfold contains in Hnone. rewrite Hnone. simpl.
  now rewrite assert_holds.
Qed.

Lemma unknown_implementation_adds_nothing_witness :
  VM_Version.kstat_features debug_build sample_flags
    (solaris10_host 0 "sun4u" "(unsupported)" (no_library uniform_tree)) 7 = Ret 7.
Proof.
  refine (unknown_implementation_adds_nothing debug_build sample_flags
            (solaris10_host 0 "sun4u" "(unsupported)" (no_library uniform_tree))
            "(unsupported)" 7 _ eq_refl).
  eexists _, [_], _, []. repeat split; try reflexivity.
  - repeat constructor.
  - now right.
Defined.

(** X20.  "SPARC64" has the highest priority: an implementation text that
    contains it adds the sparc64-family bit and no other, whatever else it
    contains. *)
Theorem sparc64_marker_wins
    (ae : string -> bool) (M : Feature_Flag_Set) (os : os_env)
    (implementation : string) (features : Z)
    (Hread : reads_implementation os implementation)
    (H64 : contains (upcase implementation) "SPARC64" = true) :
  VM_Version.kstat_features ae M os features
  = Ret (Z.lor features (sparc64_family_m M)).
Proof.
  rewrite (kstat_features_read ae M os implementation features Hread).
  unfold contains in H64. unfold VM_Version.family_features. rewrite H64. simpl.
  rewrite (marked_is_known implementation "SPARC64" eq_refl H64); simpl.
  now rewrite assert_holds.
Qed.

Lemma sparc64_marker_wins_witness :
  VM_Version.kstat_features debug_build sample_flags
    (solaris10_host 0 "sun4u" "SPARC64-VII" (no_library uniform_tree)) 0
  = Ret (Z.lor 0 (sparc64_family_m sample_flags)).
Proof.
  refine (sparc64_marker_wins debug_build sample_flags
            (solaris10_host 0 "sun4u" "SPARC64-VII" (no_library uniform_tree))
            "SPARC64-VII" 0 _ eq_refl).
  eexists _, [_], _, []. repeat split; try reflexivity.
  - repeat constructor.
  - now right.
Defined.

(** X21.  The loop over the record stops at the first entry named
    "implementation": entries before it with other names are skipped, and
    the entries after it are never looked at, whatever they are. *)
Theorem first_implementation_entry_decides
    (M : Feature_Flag_Set) (pre : list kstat_named_t) (k : kstat_named_t)
    (post : list kstat_named_t) (implementation : string) (features : Z)
    (Hpre : Forall (fun e => String.eqb (name e) "implementation" = false) pre)
    (Hname : name k = "implementation") :
  VM_Version.scan_cpu_info M (pre ++ k :: post) implementation features
  = VM_Version.scan_cpu_info M [k] implementation features.
Proof.
  induction Hpre as [|e rest He _ IH]; simpl.
  - now rewrite Hname.
  - rewrite He. exact IH.
Qed.

Lemma first_implementation_entry_decides_witness :
  VM_Version.scan_cpu_info sample_flags
    ([ {| name := "brand"; data_type := KSTAT_DATA_STRING; value := "SPARC64-X" |} ]
     ++ {| name := "implementation"; data_type := KSTAT_DATA_CHAR; value := "SPARC-T5" |}
     :: [ {| name := "implementation"; data_type := KSTAT_DATA_STRING;
             value := "SPARC64-X" |} ])
    "UNKNOWN" 0
  = (T_family_m sample_flags, "SPARC-T5").
Proof.
  rewrite (first_implementation_entry_decides sample_flags
             [ {| name := "brand"; data_type := KSTAT_DATA_STRING; value := "SPARC64-X" |} ]
             {| name := "implementation"; data_type := KSTAT_DATA_CHAR; value := "SPARC-T5" |}
             [ {| name := "implementation"; data_type := KSTAT_DATA_STRING;
                  value := "SPARC64-X" |} ]
             "UNKNOWN" 0).
  - reflexivity.
  - repeat constructor.
  - reflexivity.
Defined.

(** X22.  The family is recognised whatever the case of the implementation
    text: two hosts whose texts differ in case only get the same mask, in
    every build. *)
Theorem family_ignores_case
    (ae : string -> bool) (M : Feature_Flag_Set) (os1 os2 : os_env)
    (text1 text2 : string) (features : Z)
    (Hread1 : reads_implementation os1 text1)
    (Hread2 : reads_implementation os2 text2)
    (Hcase : upcase text1 = upcase text2) :
  VM_Version.kstat_features ae M os1 features
  = VM_Version.kstat_features ae M os2 features.
Proof.
  rewrite (kstat_features_read ae M os1 text1 features Hread1).
  rewrite (kstat_features_read ae M os2 text2 features Hread2).
  rewrite !family_features_known. simpl. rewrite assert_holds. simpl.
  f_equal. unfold VM_Version.family_features. rewrite Hcase.
  repeat match goal with
         | |- context [if ?c then _ else _] => destruct c
         end; reflexivity.
Qed.

Lemma family_ignores_case_witness :
  VM_Version.kstat_features debug_build sample_flags
    (solaris10_host 0 "sun4v" "sparc-t4" (no_library uniform_tree)) 0
  = VM_Version.kstat_features debug_build sample_flags
      (solaris10_host 0 "sun4v" "SPARC-T4" (no_library uniform_tree)) 0.
Proof.
  refine (family_ignores_case debug_build sample_flags _ _ "sparc-t4" "SPARC-T4" 0
            _ _ eq_refl).
  - eexists _, [_], _, []. repeat split; try reflexivity.
    + repeat constructor.
    + now right.
  - eexists _, [_], _, []. repeat split; try reflexivity.
    + repeat constructor.
    + now right.
Defined.

(** ** The capability words of getisax(2) *)

Section Capabilities.
Variable ae : string -> bool.
Variable hdr : auxv_SPARC.
Variable M : Feature_Flag_Set.
Variable os : os_env.

Ltac peel := repeat (eapply covers_trans; [apply or_if_set_covers|]).

Lemma getisax_features_bits f f1 :
  VM_Version.getisax_features ae hdr M os f = Ret f1 ->
  (forall bit mask, In (bit, mask) (capability_table hdr M) ->
     Z.land (getisax_avs0 os) bit <> 0 -> covers f1 mask) /\
  (1 < getisax_avn os -> Z.land (getisax_avs1 os) AV2_SPARC_SPARC5 <> 0 ->
     covers f1 (sparc5_instructions_m M)).
Proof.
  unfold VM_Version.getisax_features. intros H.
  apply bind_ret_inv in H as (a & _ & H).
  apply bind_ret_inv in H as (b & _ & H).
  apply bind_ret_inv in H as (_ & _ & H).
  inversion H; subst; clear H. split.
  - intros bit mask Hin Hbit. unfold capability_table in Hin. simpl in Hin.
    repeat (destruct Hin as [Hin|Hin];
            [injection Hin as <- <-;
             rewrite (or_if_set_yes _ _ _ _ Hbit);
             peel; try apply covers_lor_r;
             destruct (1 <? getisax_avn os); peel; apply covers_lor_r|]).
    contradiction.
  - intros Havn Hbit. apply Z.ltb_lt in Havn. rewrite Havn.
    rewrite (or_if_set_yes _ _ _ _ Hbit). peel. apply covers_lor_r.
Qed.

Lemma assemble_features_getisax f f2 :
  supports_getisax os = true ->
  VM_Version.assemble_features ae hdr M os f = Ret f2 ->
  exists f1, VM_Version.getisax_features ae hdr M os f = Ret f1 /\ covers f2 f1.
Proof.
  unfold VM_Version.assemble_features. intros Hs H. rewrite Hs in H.
  apply bind_ret_inv in H as (f1 & Ha & H).
  apply bind_ret_inv in H as (b & Hb & H).
  exists f1. split; [exact Ha|].
  apply kstat_features_covers in H. apply do_sysinfo_covers in Hb.
  eapply covers_trans; [exact H | exact Hb].
Qed.

End Capabilities.

(** X23.  Every capability bit of the first getisax(2) word is answered: if
    the word has one of the sixteen bits tested, the mask returned contains
    the feature bits paired with it. *)
Theorem capability_bits_reported
    (ae : string -> bool) (hdr : auxv_SPARC) (M : Feature_Flag_Set) (os : os_env)
    (u1 u2 : Z) (Other : Type) (baseline : Z) (g : VM_Version.statics Other)
    (f1 : Z) (g1 : VM_Version.statics Other) (bit mask : Z)
    (Hisax : supports_getisax os = true)
    (Hpair : In (bit, mask) (capability_table hdr M))
    (Hbit : Z.land (getisax_avs0 os) bit <> 0)
    (Hrun : VM_Version.platform_features ae hdr M os u1 u2 baseline g = Ret (f1, g1)) :
  covers f1 mask.
Proof.
  apply platform_features_inv in Hrun as (Ha & _).
  apply assemble_features_getisax in Ha as (f0 & Hg & Hc); [|exact Hisax].
  apply getisax_features_bits in Hg as (Hbits & _).
  eapply covers_trans; [exact Hc|]. exact (Hbits bit mask Hpair Hbit).
Qed.

(** The AES bit alone in the capability word: the aes bit is in the result. *)
Lemma capability_bits_reported_witness :
  VM_Version.platform_features debug_build sample_auxv sample_flags
    (solaris10_host AV_SPARC_AES "sun4v" "SPARC-T4" (all_symbols uniform_tree))
    0 0 0 (at_startup tt)
  = Ret (590127,
         {| VM_Version._L2_data_cache_line_size := 128;
            VM_Version.l2_data_cache_line_property_name := Some "l2-cache-line-size";
            VM_Version.other := tt |}) /\
  covers 590127 (aes_instructions_m sample_flags).
Proof.
  split; [reflexivity|].
  refine (capability_bits_reported debug_build sample_auxv sample_flags
            (solaris10_host AV_SPARC_AES "sun4v" "SPARC-T4" (all_symbols uniform_tree))
            0 0 unit 0 (at_startup tt) 590127 _
            AV_SPARC_AES (aes_instructions_m sample_flags) eq_refl _ _ eq_refl).
  - unfold capability_table. simpl. do 12 right. left. reflexivity.
  - discriminate.
Defined.

(** X24.  The second capability word counts only when getisax(2) reports
    more than one word: then its SPARC5 bit puts the sparc5 bit into the
    mask returned. *)
Theorem sparc5_from_second_word
    (ae : string -> bool) (hdr : auxv_SPARC) (M : Feature_Flag_Set) (os : os_env)
    (u1 u2 : Z) (Other : Type) (baseline : Z) (g : VM_Version.statics Other)
    (f1 : Z) (g1 : VM_Version.statics Other)
    (Hisax : supports_getisax os = true)
    (Havn : 1 < getisax_avn os)
    (Hbit : Z.land (getisax_avs1 os) AV2_SPARC_SPARC5 <> 0)
    (Hrun : VM_Version.platform_features ae hdr M os u1 u2 baseline g = Ret (f1, g1)) :
  covers f1 (sparc5_instructions_m M).
Proof.
  apply platform_features_inv in Hrun as (Ha & _).
  apply assemble_features_getisax in Ha as (f0 & Hg & Hc); [|exact Hisax].
  apply getisax_features_bits in Hg as (_ & H5).
  eapply covers_trans; [exact Hc|]. exact (H5 Havn Hbit).
Qed.

Lemma sparc5_from_second_word_witness :
  VM_Version.platform_features debug_build sample_auxv sample_flags
    (two_word_host 0 AV2_SPARC_SPARC5) 0 0 0 (at_startup tt)
  = Ret (360751,
         {| VM_Version._L2_data_cache_line_size := 0;
            VM_Version.l2_data_cache_line_property_name := None;
            VM_Version.other := tt |}) /\
  covers 360751 (sparc5_instructions_m sample_flags).
Proof.
  split; [reflexivity|].
  refine (sparc5_from_second_word debug_build sample_auxv sample_flags
            (two_word_host 0 AV2_SPARC_SPARC5)
            0 0 unit 0 (at_startup tt) 360751 _ eq_refl _ _ eq_refl).
  - reflexivity.
  - discriminate.
Defined.

(** X25.  When getisax(2) reports at most one word, the second word of the
    array is never read: whatever it holds, the whole determination gives
    the same result. *)
Theorem second_word_ignored
    (ae : string -> bool) (hdr : auxv_SPARC) (M : Feature_Flag_Set) (os : os_env)
    (u1 u2 : Z) (Other : Type) (baseline : Z) (g : VM_Version.statics Other)
    (av2 : Z)
    (Havn : getisax_avn os <= 1) :
  VM_Version.platform_features ae hdr M (with_second_word os av2) u1 u2 baseline g
  = VM_Version.platform_features ae hdr M os u1 u2 baseline g.
Proof.
  assert (E : (1 <? getisax_avn os) = false) by (apply Z.ltb_ge; exact Havn).
  unfold VM_Version.platform_features, VM_Version.assemble_features,
    VM_Version.cache_probe, VM_Version.kstat_features, VM_Version.do_sysinfo,
    VM_Version.getisax_features, VM_Version.isalist_features, with_second_word.
  cbn [supports_getisax getisax_avn getisax_avs0 getisax_avs1 sysinfo
       kstat_lookup kstat_read processor_count dl].
  rewrite E. reflexivity.
Qed.

Lemma second_word_ignored_witness :
  VM_Version.platform_features debug_build sample_auxv sample_flags
    (with_second_word
       (solaris10_host 0x63 "sun4v" "SPARC-T4" (all_symbols uniform_tree))
       AV2_SPARC_SPARC5)
    0 0 0 (at_startup tt)
  = VM_Version.platform_features debug_build sample_auxv sample_flags
      (solaris10_host 0x63 "sun4v" "SPARC-T4" (all_symbols uniform_tree))
      0 0 0 (at_startup tt).
Proof.
  apply second_word_ignored. simpl. lia.
Defined.

(** ** The legacy capability list *)

(** X26.  The legacy source classifies by the first entry of the isalist
    only: what follows a leading "sparcv9", "sparcv8plus", "sparcv8-" or
    "sparcv7" changes nothing, and the character after the first "vis"
    alone decides on vis2, also when a later entry names vis2. *)
Theorem isalist_leading_entry (M : Feature_Flag_Set) (rest : string) (features : Z) :
  VM_Version.isalist_sparc M ("sparcv9" ++ rest) features
  = Z.lor (Z.lor features (v8_instructions_m M)) (generic_v9_m M) /\
  VM_Version.isalist_sparc M ("sparcv8plus" ++ rest) features
  = Z.lor (Z.lor features (v8_instructions_m M)) (generic_v9_m M) /\
  VM_Version.isalist_sparc M ("sparcv8-" ++ rest) features
  = Z.lor (Z.lor (Z.lor features (v8_instructions_m M)) (hardware_mul32_m M))
          (hardware_div32_m M) /\
  VM_Version.isalist_sparc M ("sparcv7" ++ rest) features
  = Z.lor features (v8_instructions_m M) /\
  VM_Version.isalist_vis M ("sparcv9+vis2" ++ rest) features
  = Z.lor (Z.lor features (vis1_instructions_m M)) (vis2_instructions_m M) /\
  VM_Version.isalist_vis M ("sparcv9+vis " ++ rest) features
  = Z.lor features (vis1_instructions_m M).
Proof. repeat split; reflexivity. Qed.

(** ** When the determination stops *)

(** X27.  An unsupported sysinfo(2) item stops every build with the
    guarantee "must be supported": SI_ARCHITECTURE_32 where getisax(2) is
    supported, SI_MACHINE where it is not. *)
Theorem unsupported_sysinfo_stops
    (ae : string -> bool) (hdr : auxv_SPARC) (M : Feature_Flag_Set) (os : os_env)
    (u1 u2 : Z) (Other : Type) (baseline : Z) (g : VM_Version.statics Other)
    (Hitem : (supports_getisax os = true /\
              si_bufsize (sysinfo os SI_ARCHITECTURE_32) = -1) \/
             (supports_getisax os = false /\
              si_bufsize (sysinfo os SI_MACHINE) = -1)) :
  VM_Version.platform_features ae hdr M os u1 u2 baseline g
  = Fatal (guarantee_failed "must be supported").
Proof.
  unfold VM_Version.platform_features, VM_Version.assemble_features.
  destruct Hitem as [[Hs Hb] | [Hs Hb]]; rewrite Hs.
  - unfold VM_Version.getisax_features, VM_Version.do_sysinfo. rewrite Hb. reflexivity.
  - simpl. unfold VM_Version.do_sysinfo. rewrite Hb. reflexivity.
Qed.

Lemma unsupported_sysinfo_stops_witness :
  VM_Version.platform_features product_build sample_auxv sample_flags
    no_machine_host 0 0 0 (at_startup tt)
  = Fatal (guarantee_failed "must be supported").
Proof.
  apply unsupported_sysinfo_stops. right. split; reflexivity.
Defined.

(** X28.  In a product build the determination returns exactly when the
    sysinfo(2) items it asks for are supported: SI_MACHINE always, and the
    two architecture items where getisax(2) is supported.  Nothing else,
    neither kstat nor libpicl, can stop it. *)
Theorem product_build_returns_iff
    (hdr : auxv_SPARC) (M : Feature_Flag_Set) (os : os_env)
    (u1 u2 : Z) (Other : Type) (baseline : Z) (g : VM_Version.statics Other) :
  returns (VM_Version.platform_features product_build hdr M os u1 u2 baseline g) = true
  <->
  ((supports_getisax os = true ->
    si_bufsize (sysinfo os SI_ARCHITECTURE_32) <> -1 /\
    si_bufsize (sysinfo os SI_ARCHITECTURE_64) <> -1) /\
   si_bufsize (sysinfo os SI_MACHINE) <> -1).
Proof.
  split.
  - destruct (VM_Version.platform_features product_build hdr M os u1 u2 baseline g)
      as [[f1 g1]|e] eqn:E; simpl; [intros _ | discriminate].
    apply platform_features_inv in E as (Ha & _).
    unfold VM_Version.assemble_features in Ha.
    apply bind_ret_inv in Ha as (a & Ha & H).
    apply bind_ret_inv in H as (b & Hb & _).
    apply do_sysinfo_inv in Hb as (Hm & _). split; [|exact Hm].
    intros Hs. rewrite Hs in Ha. unfold VM_Version.getisax_features in Ha.
    apply bind_ret_inv in Ha as (c & H32 & Ha).
    apply bind_ret_inv in Ha as (d & H64 & _).
    apply do_sysinfo_inv in H32 as (H32 & _).
    apply do_sysinfo_inv in H64 as (H64 & _). now split.
  - intros [Harch Hmach]. now apply platform_features_returns.
Qed.
